(** * Signal engine and stake sizer of the Pocket Option trading bot

    A shallow embedding of [strategies.py] (the three trading strategies) and
    of the stake-sizing part of [pocket_option_bot.py] (trade bookkeeping and
    the martingale ladder), followed by the properties of the specification
    that concern them.

    Numbers.
    - Stakes are Python floats that are multiplied and rounded to cents.  They
      are modelled by the kernel's binary64 numbers, so the ladder is computed
      bit for bit as CPython computes it ([Binary64.py_round2] is
      [round(x, 2)]).
    - The cells of a pandas column are modelled by [cell]: IEEE-754 special
      values (NaN, the two infinities, the negative zero) around exact
      rationals.  Finite arithmetic on cells is exact: it has no rounding
      error.  What rounding does to the two moving averages of the
      trend-following strategy is the subject of [Float64], which computes
      them on doubles.
    - The strategy parameters read from the JSON dictionary are rationals. *)

From Stdlib Require Import ZArith QArith Qround Lqa Floats.
From stdpp Require Import gmap strings list.

Set Warnings "-inexact-float".
Local Open Scope Z_scope.

(** ** Exceptions and results *)

Inductive exn : Type :=
  | ConfigurationError
  | KeyError (key : string)
  | IndexError
  | ValueError
  | WebDriverException.

Inductive result (A : Type) : Type :=
  | Ok (a : A)
  | Raise (e : exn).
Arguments Ok {A} a.
Arguments Raise {A} e.

Definition rbind {A B : Type} (r : result A) (k : A -> result B) : result B :=
  match r with
  | Ok a => k a
  | Raise e => Raise e
  end.

Notation "'let*' x ':=' r 'in' k" := (rbind r (fun x => k))
  (at level 10, x name, r at level 100, k at level 200).

(** Python's [l[i]]: negative indices count from the end. *)
Definition getitem {A : Type} (l : list A) (i : Z) : result A :=
  let n := Z.of_nat (length l) in
  let j := if i <? 0 then n + i else i in
  if (0 <=? j) && (j <? n) then
    match l !! Z.to_nat j with
    | Some a => Ok a
    | None => Raise IndexError
    end
  else Raise IndexError.

(** Python's [range(a, b)]. *)
Definition range (a b : Z) : list Z :=
  map (fun k => a + Z.of_nat k) (seq 0 (Z.to_nat (b - a))).

(** ** binary64 helpers *)

Module Binary64.

(** [n / d] rounded to the nearest integer, ties to the even one
    ([0 < d]). *)
Definition round_half_even (n d : Z) : Z :=
  let q := n / d in
  let r := n mod d in
  match 2 * r ?= d with
  | Lt => q
  | Gt => q + 1
  | Eq => if Z.even q then q else q + 1
  end.

Definition of_pos_int (r : Z) : float :=
  match r with
  | Zpos p => SF2Prim (S754_finite false p 0)
  | _ => PrimFloat.zero
  end.

(** CPython's [round(x, 2)] on a float: the exact binary value is rounded
    half-even to two decimals, and the decimal is converted back to the
    nearest double.  NaN, infinities and zeros round to themselves.  A
    double of magnitude [2^53 / 100] or more has a spacing above one cent,
    so it is its own nearest double. *)
Definition py_round2 (x : float) : float :=
  match Prim2SF x with
  | S754_finite s m e =>
      if 0 <=? e then x
      else
        let r := round_half_even (Z.pos m * 100) (2 ^ (- e)) in
        if r <? 2 ^ 53 then
          let y := PrimFloat.div (of_pos_int r) (of_pos_int 100) in
          if s then PrimFloat.opp y else y
        else x
  | _ => x
  end.

End Binary64.

(** ** config.py *)

Module Config.

Record trading : Type := {
  asset : string;
  trade_amount : float;
  expiry_minutes : Z;
  trade_interval_minutes : Z;
  session_duration_minutes : Z
}.

Record strategy : Type := {
  type : string;
  parameters : gmap string Q
}.

Record risk_management : Type := {
  martingale_enabled : bool;
  martingale_coefficient : float;
  max_martingale_level : Z;
  max_daily_loss : float;
  max_daily_trades : Z
}.

Record t : Type := {
  cfg_trading : trading;
  cfg_strategy : strategy;
  cfg_risk_management : risk_management
}.

Definition get_default_config : t := {|
  cfg_trading := {|
    asset := "EUR/USD";
    trade_amount := 1%float;
    expiry_minutes := 1;
    trade_interval_minutes := 5;
    session_duration_minutes := 60 |};
  cfg_strategy := {|
    type := "trend_following";
    parameters :=
      <["short_period" := 5%Q]>
      (<["long_period" := 10%Q]>
      (<["rsi_period" := 14%Q]>
      (<["rsi_overbought" := 70%Q]>
      (<["rsi_oversold" := 30%Q]> ∅)))) |};
  cfg_risk_management := {|
    martingale_enabled := false;
    martingale_coefficient := 2.1%float;
    max_martingale_level := 5;
    max_daily_loss := 20%float;
    max_daily_trades := 20 |}
|}.

(** The configuration as the dictionary that [json.load] returns: any key
    of it and of its three sections can be missing. *)
Record trading_dict : Type := {
  d_asset : option string;
  d_trade_amount : option float;
  d_expiry_minutes : option Z;
  d_trade_interval_minutes : option Z;
  d_session_duration_minutes : option Z
}.

Record strategy_dict : Type := {
  d_type : option string;
  d_parameters : option (gmap string Q)
}.

Record risk_management_dict : Type := {
  d_martingale_enabled : option bool;
  d_martingale_coefficient : option float;
  d_max_martingale_level : option Z;
  d_max_daily_loss : option float;
  d_max_daily_trades : option Z
}.

Record dict : Type := {
  d_trading : option trading_dict;
  d_strategy : option strategy_dict;
  d_risk_management : option risk_management_dict
}.

(** [d[key]]: KeyError when the key is missing. *)
Definition subscript {A : Type} (key : string) (o : option A) : result A :=
  match o with
  | Some a => Ok a
  | None => Raise (KeyError key)
  end.

(** The dictionary with no key at all is false in Python's sense. *)
Definition is_empty (d : dict) : bool :=
  match d_trading d, d_strategy d, d_risk_management d with
  | None, None, None => true
  | _, _, _ => false
  end.

(** A complete configuration as a dictionary. *)
Definition to_dict (c : t) : dict :=
  let tr := cfg_trading c in
  let sc := cfg_strategy c in
  let rm := cfg_risk_management c in
  {| d_trading :=
       Some {| d_asset := Some (asset tr);
               d_trade_amount := Some (trade_amount tr);
               d_expiry_minutes := Some (expiry_minutes tr);
               d_trade_interval_minutes := Some (trade_interval_minutes tr);
               d_session_duration_minutes :=
                 Some (session_duration_minutes tr) |};
     d_strategy :=
       Some {| d_type := Some (type sc);
               d_parameters := Some (parameters sc) |};
     d_risk_management :=
       Some {| d_martingale_enabled := Some (martingale_enabled rm);
               d_martingale_coefficient := Some (martingale_coefficient rm);
               d_max_martingale_level := Some (max_martingale_level rm);
               d_max_daily_loss := Some (max_daily_loss rm);
               d_max_daily_trades := Some (max_daily_trades rm) |} |}.

(** [load_config]: [file] is [None] when the file does not exist, an
    exception when it cannot be read or parsed, and the parsed dictionary
    otherwise, which is returned as it is (not merged with the defaults). *)
Definition load_config (file : option (result dict)) : dict :=
  match file with
  | Some (Ok d) => d
  | Some (Raise _) => to_dict get_default_config
  | None => to_dict get_default_config
  end.

End Config.

(** A trading signal: the strings ["call"] (up) and ["put"] (down); Python's
    [None] is the [None] of [option signal]. *)
Inductive signal : Type := call | put.

(** ** Cells of a pandas column *)

Inductive cell : Type :=
  | NaN
  | PInf
  | NInf
  | NZero
  | Fin (q : Q).

Definition czero (neg : bool) : cell := if neg then NZero else Fin 0.
Definition cinf (neg : bool) : cell := if neg then NInf else PInf.

Definition Qltb (a b : Q) : bool := negb (Qle_bool b a).

(** The sign bit (of a cell that is not NaN). *)
Definition sign_bit (c : cell) : bool :=
  match c with
  | NInf | NZero => true
  | Fin q => Qltb q 0
  | _ => false
  end.

Definition is_zero (c : cell) : bool :=
  match c with
  | NZero => true
  | Fin q => Qeq_bool q 0
  | _ => false
  end.

Definition is_inf (c : cell) : bool :=
  match c with PInf | NInf => true | _ => false end.

Definition isna (c : cell) : bool :=
  match c with NaN => true | _ => false end.

Definition cneg (c : cell) : cell :=
  match c with
  | NaN => NaN
  | PInf => NInf
  | NInf => PInf
  | NZero => Fin 0
  | Fin q => if Qeq_bool q 0 then NZero else Fin (- q)
  end.

Definition cadd (x y : cell) : cell :=
  match x, y with
  | NaN, _ | _, NaN => NaN
  | PInf, NInf | NInf, PInf => NaN
  | PInf, _ | _, PInf => PInf
  | NInf, _ | _, NInf => NInf
  | NZero, NZero => NZero
  | NZero, Fin q | Fin q, NZero => Fin q
  | Fin a, Fin b => Fin (a + b)
  end.

Definition csub (x y : cell) : cell := cadd x (cneg y).

Definition cdiv (x y : cell) : cell :=
  match x, y with
  | NaN, _ | _, NaN => NaN
  | _, _ =>
      let s := xorb (sign_bit x) (sign_bit y) in
      if is_inf x then (if is_inf y then NaN else cinf s)
      else if is_inf y then czero s
      else if is_zero y then (if is_zero x then NaN else cinf s)
      else if is_zero x then czero s
      else match x, y with
           | Fin a, Fin b => Fin (a / b)
           | _, _ => NaN
           end
  end.

(** Comparison of two cells; [None] when one of them is NaN (every
    comparison with NaN is false). *)
Definition ccompare (x y : cell) : option comparison :=
  match x, y with
  | NaN, _ | _, NaN => None
  | PInf, PInf | NInf, NInf => Some Eq
  | PInf, _ | _, NInf => Some Gt
  | NInf, _ | _, PInf => Some Lt
  | NZero, NZero => Some Eq
  | NZero, Fin b => Some (0 ?= b)%Q
  | Fin a, NZero => Some (a ?= 0)%Q
  | Fin a, Fin b => Some (a ?= b)%Q
  end.

Definition cgt (x y : cell) : bool :=
  match ccompare x y with Some Gt => true | _ => false end.
Definition clt (x y : cell) : bool :=
  match ccompare x y with Some Lt => true | _ => false end.
Definition cle (x y : cell) : bool :=
  match ccompare x y with Some Lt | Some Eq => true | _ => false end.
Definition cge (x y : cell) : bool :=
  match ccompare x y with Some Gt | Some Eq => true | _ => false end.

(** Equality of cells as numbers ([==] of Python floats). *)
Definition ceq (x y : cell) : bool :=
  match ccompare x y with Some Eq => true | _ => false end.

(** ** pandas: Series and DataFrame *)

Module Pandas.

Definition Series : Type := list cell.

(** [s.diff()]: the first cell is NaN. *)
Definition diff (s : Series) : Series :=
  match s with
  | [] => []
  | _ :: tl => NaN :: zip_with (fun prev cur => csub cur prev) s tl
  end.

(** [s.where(cond, other)] with [cond] computed cell by cell from [s]. *)
Definition where_ (cond : cell -> bool) (other : cell) (s : Series) : Series :=
  map (fun d => if cond d then d else other) s.

(** A cell that counts as an observation of a rolling window: NaN is
    missing, and the rolling code turns infinities into NaN first. *)
Definition is_obs (c : cell) : bool :=
  match c with
  | NZero | Fin _ => true
  | _ => false
  end.

Definition cell_value (c : cell) : Q :=
  match c with Fin q => q | _ => 0%Q end.

Definition Qsum (l : list Q) : Q := fold_right Qplus 0%Q l.

(** The mean of one window with [min_periods = w], as an exact quotient
    (pandas rounds the sum and the quotient to doubles: see
    [Float64.roll_mean]).  The sign of a zero mean is not tracked: it is the
    positive zero. *)
Definition window_mean (w : nat) (win : list cell) : cell :=
  let obs := List.filter is_obs win in
  let nobs := length obs in
  if (w <=? nobs)%nat && (0 <? nobs)%nat then
    Fin (Qsum (map cell_value obs) / inject_Z (Z.of_nat nobs))
  else NaN.

(** The window that ends at row [i]: the rows [i - w + 1 .. i]. *)
Definition window_at (w : nat) (s : Series) (i : nat) : list cell :=
  drop (i + 1 - w) (take (i + 1) s).

Definition is_integer (q : Q) : bool :=
  Qeq_bool q (inject_Z (Qfloor q)).

(** [rolling(window=...)] refuses a window that is not an integer [>= 0]. *)
Definition validate_window (window : Q) : result nat :=
  if is_integer window && Qle_bool 0 window then Ok (Z.to_nat (Qfloor window))
  else Raise ValueError.

(** [s.rolling(window=window).mean()]. *)
Definition rolling_mean (window : Q) (s : Series) : result Series :=
  let* w := validate_window window in
  Ok (map (fun i => window_mean w (window_at w s i)) (seq 0 (length s))).

Record DataFrame : Type := {
  nrows : nat;
  columns : gmap string Series
}.

Definition len (df : DataFrame) : Q := inject_Z (Z.of_nat (nrows df)).

(** One bar of the price series, as [get_market_data] builds it. *)
Record candle : Type := {
  timestamp : Q;
  open : Q;
  high : Q;
  low : Q;
  close : Q;
  volume : Q
}.

Definition column_of (f : candle -> Q) (candles : list candle) : Series :=
  map (fun c => Fin (f c)) candles.

(** [pd.DataFrame(candles)]: one column per key; no column at all for an
    empty list. *)
Definition DataFrame_of (candles : list candle) : DataFrame :=
  match candles with
  | [] => {| nrows := 0; columns := ∅ |}
  | _ =>
      {| nrows := length candles;
         columns :=
           <["timestamp" := column_of timestamp candles]>
           (<["open" := column_of open candles]>
           (<["high" := column_of high candles]>
           (<["low" := column_of low candles]>
           (<["close" := column_of close candles]>
           (<["volume" := column_of volume candles]> ∅))))) |}
  end.

(** Code that reads and writes the caller's frame and may raise. *)
Definition M (A : Type) : Type := DataFrame -> result A * DataFrame.

Definition ret {A : Type} (a : A) : M A := fun df => (Ok a, df).

Definition bind {A B : Type} (m : M A) (k : A -> M B) : M B :=
  fun df =>
    match m df with
    | (Ok a, df') => k a df'
    | (Raise e, df') => (Raise e, df')
    end.

Definition lift {A : Type} (r : result A) : M A := fun df => (r, df).

(** [len(data)] *)
Definition get_len : M Q := fun df => (Ok (len df), df).

(** [data[name]] *)
Definition get_column (name : string) : M Series :=
  fun df =>
    match columns df !! name with
    | Some s => (Ok s, df)
    | None => (Raise (KeyError name), df)
    end.

(** [data[name] = s] *)
Definition set_column (name : string) (s : Series) : M unit :=
  fun df => (Ok tt, {| nrows := nrows df; columns := <[name := s]> (columns df) |}).

(** [data.iloc[-1]]: the last row, as a map from column names to cells. *)
Definition iloc_last : M (gmap string cell) :=
  fun df =>
    match nrows df with
    | O => (Raise IndexError, df)
    | S _ => (Ok (omap last (columns df)), df)
    end.

(** [row[name]] *)
Definition row_get (row : gmap string cell) (name : string) : M cell :=
  match row !! name with
  | Some c => ret c
  | None => lift (Raise (KeyError name))
  end.

End Pandas.

Notation "'let!' x ':=' m 'in' k" := (Pandas.bind m (fun x => k))
  (at level 10, x name, m at level 100, k at level 200).

(** ** strategies.py *)

Module Strategies.
Import Pandas.

(** [parameters.get(key, default)] *)
Definition get (parameters : gmap string Q) (key : string) (default : Q) : Q :=
  match parameters !! key with
  | Some v => v
  | None => default
  end.

(** [self.parameters = parameters or {}] *)
Definition or_empty (parameters : option (gmap string Q)) : gmap string Q :=
  match parameters with
  | Some p => p
  | None => ∅
  end.

Record TrendFollowingStrategy : Type := {
  tf_parameters : gmap string Q;
  short_period : Q;
  long_period : Q
}.

Record RSIStrategy : Type := {
  rsi_parameters : gmap string Q;
  rsi_period : Q;
  overbought : Q;
  oversold : Q
}.

Record RandomStrategy : Type := {
  rnd_parameters : gmap string Q;
  win_probability : Q
}.

Module TrendFollowing.

(** The object that [__init__] fills in. *)
Definition new (parameters : option (gmap string Q)) : TrendFollowingStrategy :=
  let p := or_empty parameters in
  {| tf_parameters := p;
     short_period := get p "short_period" 5;
     long_period := get p "long_period" 10 |}.

(** [__init__] has no check: it returns normally for every dictionary. *)
Definition init (parameters : option (gmap string Q))
    : result TrendFollowingStrategy :=
  Ok (new parameters).

Definition analyze (self : TrendFollowingStrategy) : M (option signal) :=
  let! n := get_len in
  if Qltb n (long_period self) then ret None
  else
    let! close := get_column "close" in
    let! sma_short := lift (rolling_mean (short_period self) close) in
    let! _ := set_column "sma_short" sma_short in
    let! close := get_column "close" in
    let! sma_long := lift (rolling_mean (long_period self) close) in
    let! _ := set_column "sma_long" sma_long in
    let! last_row := iloc_last in
    let! s := row_get last_row "sma_short" in
    let! l := row_get last_row "sma_long" in
    if isna s || isna l then ret None
    else if cgt s l then ret (Some call)
    else ret (Some put).

End TrendFollowing.

Module RSI.

Definition new (parameters : option (gmap string Q)) : RSIStrategy :=
  let p := or_empty parameters in
  {| rsi_parameters := p;
     rsi_period := get p "rsi_period" 14;
     overbought := get p "rsi_overbought" 70;
     oversold := get p "rsi_oversold" 30 |}.

Definition init (parameters : option (gmap string Q)) : result RSIStrategy :=
  Ok (new parameters).

(** The last two lines of [calculate_rsi], cell by cell:
    [rs = avg_gain / avg_loss] and [rsi = 100 - (100 / (1 + rs))]. *)
Definition rsi_of (avg_gain avg_loss : cell) : cell :=
  let rs := cdiv avg_gain avg_loss in
  csub (Fin 100) (cdiv (Fin 100) (cadd (Fin 1) rs)).

Definition calculate_rsi (self : RSIStrategy) : M Series :=
  let! close := get_column "close" in
  let delta := diff close in
  let gain := where_ (fun d => cgt d (Fin 0)) (Fin 0) delta in
  let loss := map cneg (where_ (fun d => clt d (Fin 0)) (Fin 0) delta) in
  let! avg_gain := lift (rolling_mean (rsi_period self) gain) in
  let! avg_loss := lift (rolling_mean (rsi_period self) loss) in
  ret (zip_with rsi_of avg_gain avg_loss).

Definition analyze (self : RSIStrategy) : M (option signal) :=
  let! n := get_len in
  if Qltb n (rsi_period self + 1) then ret None
  else
    let! rsi := calculate_rsi self in
    let! _ := set_column "rsi" rsi in
    let! last_row := iloc_last in
    let! r := row_get last_row "rsi" in
    if isna r then ret None
    else if cle r (Fin (oversold self)) then ret (Some call)
    else if cge r (Fin (overbought self)) then ret (Some put)
    else ret None.

End RSI.

Module Random.

Definition new (parameters : option (gmap string Q)) : RandomStrategy :=
  let p := or_empty parameters in
  {| rnd_parameters := p;
     win_probability := get p "win_probability" (1 # 2) |}.

Definition init (parameters : option (gmap string Q)) : result RandomStrategy :=
  Ok (new parameters).

(** [u] is the number drawn by [random.random()]. *)
Definition analyze (self : RandomStrategy) (u : Q) : M (option signal) :=
  if Qltb u (win_probability self) then ret (Some call)
  else ret (Some put).

End Random.

(** The three subclasses of [TradingStrategy]. *)
Inductive strategy : Type :=
  | TrendFollowing (s : TrendFollowingStrategy)
  | Rsi (s : RSIStrategy)
  | Rand (s : RandomStrategy).

(** [strategy.analyze(data)], with the number [u] that [random.random()]
    would draw. *)
Definition analyze (st : strategy) (u : Q) : M (option signal) :=
  match st with
  | TrendFollowing s => TrendFollowing.analyze s
  | Rsi s => RSI.analyze s
  | Rand s => Random.analyze s u
  end.

(** The factory: an unknown type falls back to trend following. *)
Definition get_strategy (strategy_type : string)
    (parameters : option (gmap string Q)) : result strategy :=
  if String.eqb strategy_type "rsi" then
    let* s := RSI.init parameters in Ok (Rsi s)
  else if String.eqb strategy_type "random" then
    let* s := Random.init parameters in Ok (Rand s)
  else
    let* s := TrendFollowing.init parameters in Ok (TrendFollowing s).

End Strategies.

(** ** pocket_option_bot.py: trade bookkeeping and the martingale ladder *)

Module PocketOptionBot.

Inductive status : Type := pending | win | loss.

Definition status_eqb (a b : status) : bool :=
  match a, b with
  | pending, pending | win, win | loss, loss => true
  | _, _ => false
  end.

(** One entry of [trade_history] (the wall-clock timestamp is left out). *)
Record trade : Type := {
  t_asset : string;
  t_direction : signal;
  t_amount : float;
  t_expiry_minutes : Z;
  t_status : status;
  t_martingale_level : nat
}.

Definition set_status (t : trade) (s : status) : trade :=
  {| t_asset := t_asset t; t_direction := t_direction t;
     t_amount := t_amount t; t_expiry_minutes := t_expiry_minutes t;
     t_status := s; t_martingale_level := t_martingale_level t |}.

(** The fields of the bot that stake sizing reads and writes.  The browser
    driver, the credentials and the balance are left out. *)
Record bot : Type := {
  current_asset : string;
  trade_amount : float;
  expiry_minutes : Z;
  martingale_enabled : bool;
  martingale_coefficient : float;
  martingale_stack : list float;
  max_martingale_level : Z;
  max_daily_loss : float;
  max_daily_trades : Z;
  strategy_type : string;
  strategy_params : gmap string Q;
  strategy : Strategies.strategy;
  trade_history : list trade;
  daily_loss : float;
  daily_trades : Z
}.

Definition with_stack (b : bot) (st : list float) : bot :=
  {| current_asset := current_asset b; trade_amount := trade_amount b;
     expiry_minutes := expiry_minutes b;
     martingale_enabled := martingale_enabled b;
     martingale_coefficient := martingale_coefficient b;
     martingale_stack := st;
     max_martingale_level := max_martingale_level b;
     max_daily_loss := max_daily_loss b;
     max_daily_trades := max_daily_trades b;
     strategy_type := strategy_type b;
     strategy_params := strategy_params b;
     strategy := strategy b;
     trade_history := trade_history b;
     daily_loss := daily_loss b; daily_trades := daily_trades b |}.

Definition with_session (b : bot) (h : list trade) (dl : float) (dt : Z) : bot :=
  {| current_asset := current_asset b; trade_amount := trade_amount b;
     expiry_minutes := expiry_minutes b;
     martingale_enabled := martingale_enabled b;
     martingale_coefficient := martingale_coefficient b;
     martingale_stack := martingale_stack b;
     max_martingale_level := max_martingale_level b;
     max_daily_loss := max_daily_loss b;
     max_daily_trades := max_daily_trades b;
     strategy_type := strategy_type b;
     strategy_params := strategy_params b;
     strategy := strategy b;
     trade_history := h; daily_loss := dl; daily_trades := dt |}.

(** The object that [__init__] fills in: every field is copied from the
    configuration as it is. *)
Definition new (c : Config.t) (st : Strategies.strategy) : bot :=
  let tr := Config.cfg_trading c in
  let rm := Config.cfg_risk_management c in
  let sc := Config.cfg_strategy c in
  {| current_asset := Config.asset tr;
     trade_amount := Config.trade_amount tr;
     expiry_minutes := Config.expiry_minutes tr;
     martingale_enabled := Config.martingale_enabled rm;
     martingale_coefficient := Config.martingale_coefficient rm;
     martingale_stack := [];
     max_martingale_level := Config.max_martingale_level rm;
     max_daily_loss := Config.max_daily_loss rm;
     max_daily_trades := Config.max_daily_trades rm;
     strategy_type := Config.type sc;
     strategy_params := Config.parameters sc;
     strategy := st;
     trade_history := [];
     daily_loss := 0%float;
     daily_trades := 0 |}.

(** [__init__].  [config] is the argument ([None] for the default
    [None]), [file_config] what [BotConfig().get_config()] returns when the
    argument is false in Python's sense, and [driver_ok] says whether
    [setup_driver] succeeds.  The keys are read in the order of the source,
    each with [self.config[section][key]]; nothing is checked. *)
Definition init (config : option Config.dict) (file_config : Config.dict)
    (driver_ok : bool) : result bot :=
  let cfg :=
    match config with
    | Some d => if Config.is_empty d then file_config else d
    | None => file_config
    end in
  let trading := Config.subscript "trading" (Config.d_trading cfg) in
  let risk :=
    Config.subscript "risk_management" (Config.d_risk_management cfg) in
  let strat := Config.subscript "strategy" (Config.d_strategy cfg) in
  let* asset :=
    (let* d := trading in Config.subscript "asset" (Config.d_asset d)) in
  let* amount :=
    (let* d := trading in
     Config.subscript "trade_amount" (Config.d_trade_amount d)) in
  let* expiry :=
    (let* d := trading in
     Config.subscript "expiry_minutes" (Config.d_expiry_minutes d)) in
  let* enabled :=
    (let* d := risk in
     Config.subscript "martingale_enabled" (Config.d_martingale_enabled d)) in
  let* coefficient :=
    (let* d := risk in
     Config.subscript "martingale_coefficient"
       (Config.d_martingale_coefficient d)) in
  let* max_level :=
    (let* d := risk in
     Config.subscript "max_martingale_level"
       (Config.d_max_martingale_level d)) in
  let* max_loss :=
    (let* d := risk in
     Config.subscript "max_daily_loss" (Config.d_max_daily_loss d)) in
  let* max_trades :=
    (let* d := risk in
     Config.subscript "max_daily_trades" (Config.d_max_daily_trades d)) in
  let* ty :=
    (let* d := strat in Config.subscript "type" (Config.d_type d)) in
  let* params :=
    (let* d := strat in
     Config.subscript "parameters" (Config.d_parameters d)) in
  let* st := Strategies.get_strategy ty (Some params) in
  if driver_ok then
    Ok {| current_asset := asset;
          trade_amount := amount;
          expiry_minutes := expiry;
          martingale_enabled := enabled;
          martingale_coefficient := coefficient;
          martingale_stack := [];
          max_martingale_level := max_level;
          max_daily_loss := max_loss;
          max_daily_trades := max_trades;
          strategy_type := ty;
          strategy_params := params;
          strategy := st;
          trade_history := [];
          daily_loss := 0%float;
          daily_trades := 0 |}
  else Raise WebDriverException.

(** The [martingale_level] written into a new trade record:
    [len([t for t in self.trade_history if t['status'] == 'loss'])] with
    martingale enabled, [0] without. *)
Definition count_losses (h : list trade) : nat :=
  length (List.filter (fun t => status_eqb (t_status t) loss) h).

Definition new_martingale_level (b : bot) : nat :=
  if martingale_enabled b then count_losses (trade_history b) else 0%nat.

(** The block "Record the trade" of [place_trade]. *)
Definition record_trade (direction : signal) (amount : float) (b : bot) : bot :=
  let t := {| t_asset := current_asset b; t_direction := direction;
              t_amount := amount; t_expiry_minutes := expiry_minutes b;
              t_status := pending;
              t_martingale_level := new_martingale_level b |} in
  with_session b (trade_history b ++ [t]) (daily_loss b) (daily_trades b + 1).

(** [place_trade]: [ui_ok] says whether the clicks on the page went
    through (an exception there is caught and gives [False]). *)
Definition place_trade (direction : signal) (amount : float) (ui_ok : bool)
    (b : bot) : bool * bot :=
  if max_daily_trades b <=? daily_trades b then (false, b)
  else if PrimFloat.leb (max_daily_loss b) (daily_loss b) then (false, b)
  else if ui_ok then (true, record_trade direction amount b)
  else (false, b).

(** [check_trade_result]: [res] is the outcome drawn for the trade. *)
Definition check_trade_result (res : status) (b : bot) : bot :=
  match getitem (trade_history b) (-1) with
  | Ok last_trade =>
      let h := removelast (trade_history b) ++ [set_status last_trade res] in
      let dl := if status_eqb res loss
                then PrimFloat.add (daily_loss b) (t_amount last_trade)
                else daily_loss b in
      with_session b h dl (daily_trades b)
  | Raise _ => b
  end.

(** The loop that fills the martingale stack:
    [for i in range(1, max_level): stack.append(round(stack[i-1] * coef, 2))]. *)
Definition extend_stack (coef : float) (acc : result (list float)) (i : Z)
    : result (list float) :=
  let* stack := acc in
  let* prev := getitem stack (i - 1) in
  Ok (stack ++ [Binary64.py_round2 (PrimFloat.mul prev coef)]).

Definition build_stack (amount coef : float) (max_level : Z) : result (list float) :=
  fold_left (extend_stack coef) (range 1 max_level) (Ok [amount]).

Definition calculate_martingale_amount (last_result : status) (b : bot)
    : result float * bot :=
  if negb (martingale_enabled b) then (Ok (trade_amount b), b)
  else
    let built :=
      match martingale_stack b with
      | [] => build_stack (trade_amount b) (martingale_coefficient b)
                (max_martingale_level b)
      | st => Ok st
      end in
    match built with
    | Raise e => (Raise e, b)
    | Ok st =>
        let b' := with_stack b st in
        if status_eqb last_result win then (getitem st 0, b')
        else
          match getitem (trade_history b') (-1) with
          | Raise e => (Raise e, b')
          | Ok last_trade =>
              let current_level := Z.of_nat (t_martingale_level last_trade) in
              let next_level :=
                Z.min (current_level + 1) (max_martingale_level b' - 1) in
              (getitem st next_level, b')
          end
    end.

(** One pass of the loop of [run_trading_session]: [direction] is what the
    strategy answered, [res] the outcome drawn for the trade if it is
    placed.  The result is the stake asked for (if any) and the new state;
    an exception is caught by the loop and leaves the state as it is. *)
Definition trading_cycle (direction : option signal) (ui_ok : bool)
    (res : status) (b : bot) : option float * bot :=
  if max_daily_trades b <=? daily_trades b then (None, b)
  else if PrimFloat.leb (max_daily_loss b) (daily_loss b) then (None, b)
  else
    match direction with
    | None => (None, b)
    | Some d =>
        let '(amount, b1) :=
          match trade_history b with
          | _ :: _ =>
              if martingale_enabled b then
                match getitem (trade_history b) (-1) with
                | Ok last_trade =>
                    calculate_martingale_amount (t_status last_trade) b
                | Raise e => (Raise e, b)
                end
              else (Ok (trade_amount b), b)
          | [] => (Ok (trade_amount b), b)
          end in
        match amount with
        | Raise _ => (None, b1)
        | Ok a =>
            let '(placed, b2) := place_trade d a ui_ok b1 in
            if placed then (Some a, check_trade_result res b2)
            else (None, b2)
        end
    end.

(** A session in which every pass gets the signal ["call"], the clicks go
    through, and the outcomes are the given ones; the stakes asked for are
    collected. *)
Fixpoint session (outcomes : list status) (b : bot) : list (option float) * bot :=
  match outcomes with
  | [] => ([], b)
  | res :: rest =>
      let '(a, b1) := trading_cycle (Some call) true res b in
      let '(l, b2) := session rest b1 in
      (a :: l, b2)
  end.

End PocketOptionBot.

(** ** Predicates of the specification *)

(** The next rung of the ladder: [round(x * coefficient, 2)]. *)
Definition next_rung (coef x : float) : float :=
  Binary64.py_round2 (PrimFloat.mul x coef).

(** A ladder of [n + 1] rungs: it starts at [amount] and every rung is the
    rounded multiple of the one before. *)
Definition is_ladder (amount coef : float) (n : nat) (st : list float) : Prop :=
  length st = S n /\
  st !! 0%nat = Some amount /\
  forall i x, (i < n)%nat -> st !! i = Some x ->
    st !! S i = Some (next_rung coef x).

(** The stack of a bot is either not built yet or the ladder of its own
    configuration. *)
Definition stack_inv (b : PocketOptionBot.bot) : Prop :=
  PocketOptionBot.martingale_stack b = [] \/
  PocketOptionBot.build_stack (PocketOptionBot.trade_amount b)
    (PocketOptionBot.martingale_coefficient b)
    (PocketOptionBot.max_martingale_level b)
  = Ok (PocketOptionBot.martingale_stack b).

(** The specification's [consecutive_loss_count]: the losses since the last
    win, or since the start of the session. *)
Definition consecutive_loss_count (h : list PocketOptionBot.trade) : nat :=
  fold_left
    (fun n t =>
       match PocketOptionBot.t_status t with
       | PocketOptionBot.loss => S n
       | PocketOptionBot.win => 0%nat
       | PocketOptionBot.pending => n
       end) h 0%nat.

(** The default configuration with another risk section (what the command
    line flag [--martingale] or the interactive set-up produce). *)
Definition with_risk (enabled : bool) (coef : float) (max_level : Z) : Config.t :=
  {| Config.cfg_trading := Config.cfg_trading Config.get_default_config;
     Config.cfg_strategy := Config.cfg_strategy Config.get_default_config;
     Config.cfg_risk_management :=
       {| Config.martingale_enabled := enabled;
          Config.martingale_coefficient := coef;
          Config.max_martingale_level := max_level;
          Config.max_daily_loss := 20%float;
          Config.max_daily_trades := 20 |} |}.

(** The bot that [__init__] builds from that configuration. *)
Definition new_bot (enabled : bool) (coef : float) (max_level : Z)
    : PocketOptionBot.bot :=
  let c := with_risk enabled coef max_level in
  PocketOptionBot.new c
    (Strategies.TrendFollowing
       (Strategies.TrendFollowing.new
          (Some (Config.parameters (Config.cfg_strategy c))))).

(** The columns that the strategies write into the caller's frame. *)
Definition indicator_columns : list string := ["sma_short"; "sma_long"; "rsi"].

(** [df'] is [df] except for the indicator columns. *)
Definition same_but_indicators (df df' : Pandas.DataFrame) : Prop :=
  Pandas.nrows df' = Pandas.nrows df /\
  forall c, c ∉ indicator_columns ->
    Pandas.columns df' !! c = Pandas.columns df !! c.

(** A piece of code that leaves everything but the indicator columns. *)
Definition preserves {A : Type} (m : Pandas.M A) : Prop :=
  forall df, same_but_indicators df (snd (m df)).

(** A bar whose four prices are [c]. *)
Definition bar (c : Q) : Pandas.candle :=
  {| Pandas.timestamp := 0; Pandas.open := c; Pandas.high := c;
     Pandas.low := c; Pandas.close := c; Pandas.volume := 1 |}.

(** The simple moving average of the last [w] prices. *)
Definition trailing_mean (w : nat) (l : list Q) : Q :=
  Pandas.Qsum (drop (length l - w) l) / inject_Z (Z.of_nat w).

(** The length of a list, as a rational. *)
Definition Qlen (l : list Q) : Q := inject_Z (Z.of_nat (length l)).

(** Every price is below the next one. *)
Definition strictly_increasing (l : list Q) : Prop :=
  forall i x y, l !! i = Some x -> l !! S i = Some y -> (x < y)%Q.

(** Every price is above the next one. *)
Definition strictly_decreasing (l : list Q) : Prop :=
  forall i x y, l !! i = Some x -> l !! S i = Some y -> (y < x)%Q.

(** Every price equals the next one: all close-to-close deltas are zero. *)
Definition flat (l : list Q) : Prop :=
  forall i x y, l !! i = Some x -> l !! S i = Some y -> (y == x)%Q.

(** The gain and loss series of [calculate_rsi], from the closing prices. *)
Definition gain_series (closes : Pandas.Series) : Pandas.Series :=
  Pandas.where_ (fun d => cgt d (Fin 0)) (Fin 0) (Pandas.diff closes).

Definition loss_series (closes : Pandas.Series) : Pandas.Series :=
  map cneg (Pandas.where_ (fun d => clt d (Fin 0)) (Fin 0) (Pandas.diff closes)).

(** The last branch of [RSIStrategy.analyze], from the last RSI cell. *)
Definition rsi_verdict (self : Strategies.RSIStrategy) (r : cell) : option signal :=
  if isna r then None
  else if cle r (Fin (Strategies.oversold self)) then Some call
  else if cge r (Fin (Strategies.overbought self)) then Some put
  else None.

(** One cell of the gain series and of the loss series, from the delta. *)
Definition gain_cell (d : cell) : cell := if cgt d (Fin 0) then d else Fin 0.
Definition loss_cell (d : cell) : cell :=
  cneg (if clt d (Fin 0) then d else Fin 0).

(** A zero of either sign. *)
Definition zero_cell (c : cell) : Prop :=
  c = NZero \/ exists q, c = Fin q /\ (q == 0)%Q.

(** ** pocket_option_bot.py: the trading loop and the simulated market data *)

Module Session.
Import PocketOptionBot.

(** What one pass of the loop of [run_trading_session] gets from outside:
    the answer of the strategy ([None] also stands for market data that
    could not be fetched), whether the clicks went through, and the outcome
    drawn for the trade. *)
Record cycle_input : Type := {
  ci_direction : option signal;
  ci_ui_ok : bool;
  ci_result : status
}.

(** The passes of the loop, one per input; the stakes asked for are
    collected ([None] for a pass that placed no trade).  A pass that finds a
    daily limit reached leaves the state as it is, and so does every later
    one: that is the [break] of the source. *)
Fixpoint run_cycles (inputs : list cycle_input) (b : bot)
    : list (option float) * bot :=
  match inputs with
  | [] => ([], b)
  | i :: rest =>
      let '(a, b1) :=
        trading_cycle (ci_direction i) (ci_ui_ok i) (ci_result i) b in
      let '(l, b2) := run_cycles rest b1 in
      (a :: l, b2)
  end.

(** [run_trading_session]: the session counters are reset (the history is
    not), then the loop runs if the login and the selection of the asset
    succeed. *)
Definition run_trading_session (login_ok select_ok : bool)
    (inputs : list cycle_input) (b : bot) : list (option float) * bot :=
  let b0 := with_session b (trade_history b) 0%float 0 in
  if negb login_ok then ([], b0)
  else if negb select_ok then ([], b0)
  else run_cycles inputs b0.

(** The number of passes that placed a trade. *)
Definition placed (stakes : list (option float)) : nat :=
  length (List.filter (fun a => match a with Some _ => true | None => false end)
            stakes).

End Session.

Module MarketData.
Import Pandas.
Local Open Scope Q_scope.

(** [random.uniform(a, b)] from the number [u] drawn by [random.random()]. *)
Definition uniform (a b u : Q) : Q := a + (b - a) * u.

(** The clock reading and the five random numbers that one candle uses. *)
Record draw : Type := {
  now : Q;
  u_open : Q;
  u_high : Q;
  u_low : Q;
  u_close : Q;
  u_volume : Q
}.

(** The body of the loop of [get_market_data] for the candle number [i] of
    [num_candles]. *)
Definition simulate_candle (num_candles i : nat) (d : draw) : candle :=
  let open_price := (11 # 10) + uniform (- (5 # 1000)) (5 # 1000) (u_open d) in
  let high_price := open_price + uniform (1 # 10000) (20 # 10000) (u_high d) in
  let low_price := open_price - uniform (1 # 10000) (20 # 10000) (u_low d) in
  let close_price :=
    open_price + uniform (- (15 # 10000)) (15 # 10000) (u_close d) in
  {| timestamp := now d - inject_Z (Z.of_nat (num_candles - i)) * 60;
     open := open_price;
     high := high_price;
     low := low_price;
     close := close_price;
     volume := uniform 10 100 (u_volume d) |}.

Definition simulate_candles (draws : list draw) : list candle :=
  imap (simulate_candle (length draws)) draws.

(** [get_market_data] with one draw per candle ([num_candles] is the number
    of draws). *)
Definition get_market_data (draws : list draw) : DataFrame :=
  DataFrame_of (simulate_candles draws).

(** A number that [random.random()] can return. *)
Definition unit_draw (u : Q) : Prop := 0 <= u /\ u < 1.

Definition unit_draws (d : draw) : Prop :=
  unit_draw (u_open d) /\ unit_draw (u_high d) /\ unit_draw (u_low d)
  /\ unit_draw (u_close d) /\ unit_draw (u_volume d).

End MarketData.

(** ** main.py: the command line overrides *)

Module Main.

(** The result of [parse_arguments]. *)
Record args : Type := {
  configure : bool;
  duration : option Z;
  interval : option Z;
  asset : option string;
  amount : option float;
  strategy : option string;
  martingale : bool;
  no_martingale : bool
}.

(** Python's truth value of an optional int, string and float. *)
Definition truthy_int (o : option Z) : option Z :=
  match o with
  | Some z => if z =? 0 then None else Some z
  | None => None
  end.

Definition truthy_str (o : option string) : option string :=
  match o with
  | Some s => if String.eqb s "" then None else Some s
  | None => None
  end.

Definition truthy_float (o : option float) : option float :=
  match o with
  | Some x => if PrimFloat.eqb x 0%float then None else Some x
  | None => None
  end.

Definition set_trading (c : Config.t) (tr : Config.trading) : Config.t :=
  {| Config.cfg_trading := tr;
     Config.cfg_strategy := Config.cfg_strategy c;
     Config.cfg_risk_management := Config.cfg_risk_management c |}.

Definition set_asset (c : Config.t) (v : string) : Config.t :=
  let tr := Config.cfg_trading c in
  set_trading c
    {| Config.asset := v;
       Config.trade_amount := Config.trade_amount tr;
       Config.expiry_minutes := Config.expiry_minutes tr;
       Config.trade_interval_minutes := Config.trade_interval_minutes tr;
       Config.session_duration_minutes := Config.session_duration_minutes tr |}.

Definition set_trade_amount (c : Config.t) (v : float) : Config.t :=
  let tr := Config.cfg_trading c in
  set_trading c
    {| Config.asset := Config.asset tr;
       Config.trade_amount := v;
       Config.expiry_minutes := Config.expiry_minutes tr;
       Config.trade_interval_minutes := Config.trade_interval_minutes tr;
       Config.session_duration_minutes := Config.session_duration_minutes tr |}.

Definition set_duration (c : Config.t) (v : Z) : Config.t :=
  let tr := Config.cfg_trading c in
  set_trading c
    {| Config.asset := Config.asset tr;
       Config.trade_amount := Config.trade_amount tr;
       Config.expiry_minutes := Config.expiry_minutes tr;
       Config.trade_interval_minutes := Config.trade_interval_minutes tr;
       Config.session_duration_minutes := v |}.

Definition set_interval (c : Config.t) (v : Z) : Config.t :=
  let tr := Config.cfg_trading c in
  set_trading c
    {| Config.asset := Config.asset tr;
       Config.trade_amount := Config.trade_amount tr;
       Config.expiry_minutes := Config.expiry_minutes tr;
       Config.trade_interval_minutes := v;
       Config.session_duration_minutes := Config.session_duration_minutes tr |}.

Definition set_strategy_type (c : Config.t) (v : string) : Config.t :=
  {| Config.cfg_trading := Config.cfg_trading c;
     Config.cfg_strategy :=
       {| Config.type := v;
          Config.parameters := Config.parameters (Config.cfg_strategy c) |};
     Config.cfg_risk_management := Config.cfg_risk_management c |}.

Definition set_martingale_enabled (c : Config.t) (v : bool) : Config.t :=
  let rm := Config.cfg_risk_management c in
  {| Config.cfg_trading := Config.cfg_trading c;
     Config.cfg_strategy := Config.cfg_strategy c;
     Config.cfg_risk_management :=
       {| Config.martingale_enabled := v;
          Config.martingale_coefficient := Config.martingale_coefficient rm;
          Config.max_martingale_level := Config.max_martingale_level rm;
          Config.max_daily_loss := Config.max_daily_loss rm;
          Config.max_daily_trades := Config.max_daily_trades rm |} |}.

(** [if value: cfg[...] = value] *)
Definition override {A : Type} (o : option A) (set : Config.t -> A -> Config.t)
    (c : Config.t) : Config.t :=
  match o with
  | Some v => set c v
  | None => c
  end.

(** The branch of [main] without [--configure]: the overrides are applied
    in the order of the source. *)
Definition apply_overrides (a : args) (cfg : Config.t) : Config.t :=
  let cfg := override (truthy_str (asset a)) set_asset cfg in
  let cfg := override (truthy_float (amount a)) set_trade_amount cfg in
  let cfg := override (truthy_int (duration a)) set_duration cfg in
  let cfg := override (truthy_int (interval a)) set_interval cfg in
  let cfg := override (truthy_str (strategy a)) set_strategy_type cfg in
  let cfg := if martingale a then set_martingale_enabled cfg true else cfg in
  let cfg := if no_martingale a then set_martingale_enabled cfg false else cfg in
  cfg.

End Main.

(** ** The moving averages in binary64 *)

(** The [close] column holds doubles, and pandas computes a rolling mean in
    binary64.  This module is the counterpart of [Pandas.rolling_mean] and of
    [Strategies.TrendFollowing.analyze] for a column of finite doubles and
    whole-number windows, with every operation rounded as the hardware rounds
    it. *)
Module Float64.
Local Open Scope float_scope.

(** The running state of pandas' [roll_mean]. *)
Record state : Type := {
  nobs : nat;
  sum_x : float;
  compensation_add : float;
  compensation_remove : float
}.

Definition setup : state :=
  {| nobs := 0; sum_x := 0; compensation_add := 0; compensation_remove := 0 |}.

(** [add_mean]: one value enters the window (Kahan summation). *)
Definition add_mean (st : state) (val : float) : state :=
  let y := val - compensation_add st in
  let t := sum_x st + y in
  {| nobs := S (nobs st);
     sum_x := t;
     compensation_add := (t - sum_x st) - y;
     compensation_remove := compensation_remove st |}.

(** [remove_mean]: one value leaves the window. *)
Definition remove_mean (st : state) (val : float) : state :=
  let y := (- val) - compensation_remove st in
  let t := sum_x st + y in
  {| nobs := pred (nobs st);
     sum_x := t;
     compensation_add := compensation_add st;
     compensation_remove := (t - sum_x st) - y |}.

(** [calc_mean]: the sum over the number of observations, NaN below
    [minp].  (Later pandas versions also return the value itself for a
    window of equal values and clip a mean whose sign differs from that of
    all its values; on a window of distinct positive values, or of one
    value, the result is the quotient below.) *)
Definition calc_mean (minp : nat) (st : state) : float :=
  if (minp <=? nobs st)%nat && (0 <? nobs st)%nat
  then sum_x st / Binary64.of_pos_int (Z.of_nat (nobs st))
  else nan.

(** [values[s:e]] *)
Definition slice (s e : nat) (values : list float) : list float :=
  take (e - s) (drop s values).

(** The first row of the window that ends at row [i]. *)
Definition window_start (w i : nat) : nat := (i + 1 - w)%nat.

(** One row of [roll_mean]: the first row, and every row of a window that
    does not overlap the previous one, sums its window afresh; any other
    row removes the values that left the window and adds the new one. *)
Definition roll_step (w : nat) (values : list float)
    (acc : state * list float) (i : nat) : state * list float :=
  let '(st, output) := acc in
  let s := window_start w i in
  let e := (i + 1)%nat in
  let st' :=
    if (i =? 0)%nat || (i <=? s)%nat
    then fold_left add_mean (slice s e values) setup
    else fold_left add_mean (slice i e values)
           (fold_left remove_mean (slice (window_start w (i - 1)) s values) st) in
  (st', output ++ [calc_mean w st']).

(** [s.rolling(window=w).mean()] as pandas computes it. *)
Definition roll_mean (w : nat) (values : list float) : list float :=
  snd (fold_left (roll_step w values) (seq 0 (length values)) (setup, [])).

(** The same column with every window summed from left to right, without
    compensation. *)
Definition naive_roll_mean (w : nat) (values : list float) : list float :=
  map (fun i =>
         let win := slice (window_start w i) (i + 1) values in
         if (w <=? length win)%nat && (0 <? length win)%nat
         then fold_left PrimFloat.add win 0
              / Binary64.of_pos_int (Z.of_nat (length win))
         else nan)
      (seq 0 (length values)).

(** [TrendFollowingStrategy.analyze] on the [close] column, for a given way
    to compute the rolling mean. *)
Definition analyze (roll : nat -> list float -> list float)
    (short_period long_period : nat) (close : list float)
    : result (option signal) :=
  if (length close <? long_period)%nat then Ok None
  else
    let sma_short := roll short_period close in
    let sma_long := roll long_period close in
    let* s := getitem sma_short (-1) in
    let* l := getitem sma_long (-1) in
    if is_nan s || is_nan l then Ok None
    else if l <? s then Ok (Some call)
    else Ok (Some put).

(** Every value is below the next one. *)
Fixpoint increasing (values : list float) : bool :=
  match values with
  | x :: (y :: _) as tl => (x <? y) && increasing tl
  | _ => true
  end.

(** Every value is above the next one. *)
Fixpoint decreasing (values : list float) : bool :=
  match values with
  | x :: (y :: _) as tl => (y <? x) && decreasing tl
  | _ => true
  end.

End Float64.

(** ** More predicates *)

(** The level recorded with every trade is the number of losses before it
    (with martingale enabled; 0 without). *)
Definition levels_ok (enabled : bool) (h : list PocketOptionBot.trade) : Prop :=
  forall i t, h !! i = Some t ->
    PocketOptionBot.t_martingale_level t
    = if enabled then PocketOptionBot.count_losses (take i h) else 0%nat.

(** The configuration fields of two bots agree. *)
Definition same_settings (b b' : PocketOptionBot.bot) : Prop :=
  PocketOptionBot.current_asset b' = PocketOptionBot.current_asset b
  /\ PocketOptionBot.trade_amount b' = PocketOptionBot.trade_amount b
  /\ PocketOptionBot.expiry_minutes b' = PocketOptionBot.expiry_minutes b
  /\ PocketOptionBot.martingale_enabled b' = PocketOptionBot.martingale_enabled b
  /\ PocketOptionBot.martingale_coefficient b'
     = PocketOptionBot.martingale_coefficient b
  /\ PocketOptionBot.max_martingale_level b'
     = PocketOptionBot.max_martingale_level b
  /\ PocketOptionBot.max_daily_loss b' = PocketOptionBot.max_daily_loss b
  /\ PocketOptionBot.max_daily_trades b' = PocketOptionBot.max_daily_trades b
  /\ PocketOptionBot.strategy_type b' = PocketOptionBot.strategy_type b
  /\ PocketOptionBot.strategy_params b' = PocketOptionBot.strategy_params b
  /\ PocketOptionBot.strategy b' = PocketOptionBot.strategy b.

(** An RSI cell is NaN or a number between 0 and 100. *)
Definition rsi_cell_ok (c : cell) : Prop :=
  c = NaN \/ exists r, c = Fin r /\ (0 <= r)%Q /\ (r <= 100)%Q.

(** A cell that is a number [>= 0] (the negative zero counts as 0). *)
Definition nonneg_cell (c : cell) : Prop :=
  c = NZero \/ exists q, c = Fin q /\ (0 <= q)%Q.

(** The trade that a pass of the loop records, once it is settled. *)
Definition settled_trade (d : signal) (a : float) (res : PocketOptionBot.status)
    (b : PocketOptionBot.bot) : PocketOptionBot.trade :=
  {| PocketOptionBot.t_asset := PocketOptionBot.current_asset b;
     PocketOptionBot.t_direction := d;
     PocketOptionBot.t_amount := a;
     PocketOptionBot.t_expiry_minutes := PocketOptionBot.expiry_minutes b;
     PocketOptionBot.t_status := res;
     PocketOptionBot.t_martingale_level :=
       PocketOptionBot.new_martingale_level b |}.

(** The end of [TrendFollowingStrategy.analyze], from the last row on. *)
Definition trend_tail : Pandas.M (option signal) :=
  let! last_row := Pandas.iloc_last in
  let! s := Pandas.row_get last_row "sma_short" in
  let! l := Pandas.row_get last_row "sma_long" in
  if isna s || isna l then Pandas.ret None
  else if cgt s l then Pandas.ret (Some call)
  else Pandas.ret (Some put).

(** The end of [RSIStrategy.analyze], from the last row on. *)
Definition rsi_tail (self : Strategies.RSIStrategy) : Pandas.M (option signal) :=
  let! last_row := Pandas.iloc_last in
  let! r := Pandas.row_get last_row "rsi" in
  if isna r then Pandas.ret None
  else if cle r (Fin (Strategies.oversold self)) then Pandas.ret (Some call)
  else if cge r (Fin (Strategies.overbought self)) then Pandas.ret (Some put)
  else Pandas.ret None.

(** * Properties *)

(** ** Indexing *)

Lemma getitem_nonneg {A : Type} (l : list A) (i : Z) (a : A) :
  0 <= i -> l !! Z.to_nat i = Some a -> getitem l i = Ok a.
Proof.
  intros Hi Hl. unfold getitem. cbv zeta.
  assert (Hlt : (Z.to_nat i < length l)%nat) by (eapply lookup_lt_Some; eauto).
  destruct (i <? 0) eqn:E; [apply Z.ltb_lt in E; lia|].
  replace ((0 <=? i) && (i <? Z.of_nat (length l))) with true.
  - now rewrite Hl.
  - symmetry. apply andb_true_iff. split; [apply Z.leb_le | apply Z.ltb_lt]; lia.
Qed.

Lemma getitem_last {A : Type} (l : list A) (a : A) :
  last l = Some a -> getitem l (-1) = Ok a.
Proof.
  intros Hl. unfold getitem. cbv zeta.
  change (-1 <? 0) with true. cbv iota.
  assert (Hn : (0 < length l)%nat).
  { destruct l; [discriminate | simpl; lia]. }
  rewrite last_lookup in Hl.
  replace ((0 <=? Z.of_nat (length l) + -1) &&
           (Z.of_nat (length l) + -1 <? Z.of_nat (length l))) with true.
  - replace (Z.to_nat (Z.of_nat (length l) + -1)) with (pred (length l)) by lia.
    now rewrite Hl.
  - symmetry. apply andb_true_iff. split; [apply Z.leb_le | apply Z.ltb_lt]; lia.
Qed.

Lemma getitem_empty {A : Type} (i : Z) : getitem (@nil A) i = Raise IndexError.
Proof.
  unfold getitem. cbv zeta.
  destruct (_ && _); [|reflexivity].
  now rewrite lookup_nil.
Qed.

(** ** The martingale ladder *)

Section Ladder.
Import PocketOptionBot.
Variables (amount coef : float).

Lemma build_turns (n : nat) :
  exists st,
    fold_left (extend_stack coef)
      (map (fun k => 1 + Z.of_nat k) (seq 0 n)) (Ok [amount]) = Ok st
    /\ is_ladder amount coef n st.
Proof.
  induction n as [|n [st [Hfold [Hlen [H0 Hstep]]]]].
  - exists [amount]. repeat split; simpl; auto. intros; lia.
  - assert (Hn : is_Some (st !! n)) by (apply lookup_lt_is_Some; lia).
    destruct Hn as [prev Hprev].
    exists (st ++ [next_rung coef prev]).
    split.
    + rewrite seq_S, map_app, fold_left_app, Hfold. simpl.
      replace (1 + Z.of_nat n - 1) with (Z.of_nat n) by lia.
      erewrite getitem_nonneg; [reflexivity | lia |].
      now rewrite Nat2Z.id.
    + repeat split.
      * rewrite length_app, Hlen. simpl. lia.
      * rewrite lookup_app_l by lia. exact H0.
      * intros i x Hi Hx.
        destruct (decide (i = n)) as [->|Hne].
        -- rewrite lookup_app_l in Hx by lia.
           assert (x = prev) by congruence. subst x.
           rewrite lookup_app_r by lia.
           now replace (S n - length st)%nat with 0%nat by lia.
        -- rewrite lookup_app_l in Hx by lia.
           rewrite lookup_app_l by lia.
           apply Hstep; [lia | exact Hx].
Qed.

Lemma build_stack_ladder (max_level : Z) :
  exists st,
    build_stack amount coef max_level = Ok st
    /\ is_ladder amount coef (Z.to_nat (max_level - 1)) st.
Proof.
  unfold build_stack, range.
  apply build_turns.
Qed.

End Ladder.

(** ** The stake sizer *)

Section StakeSizer.
Import PocketOptionBot.

Lemma rbind_ok {A B : Type} (r : result A) (k : A -> result B) (b : B) :
  rbind r k = Ok b -> exists a, r = Ok a /\ k a = Ok b.
Proof. destruct r as [a|e]; simpl; [eauto | discriminate]. Qed.

Lemma init_stack_inv (config : option Config.dict) (file_config : Config.dict)
    (driver_ok : bool) (b : bot) :
  init config file_config driver_ok = Ok b -> stack_inv b.
Proof.
  unfold init. intros H.
  repeat (apply rbind_ok in H; destruct H as [? [_ H]]).
  destruct driver_ok; [|discriminate].
  injection H as <-. now left.
Qed.

Lemma with_session_stack_inv (b : bot) h dl dt :
  stack_inv b -> stack_inv (with_session b h dl dt).
Proof. exact (fun H => H). Qed.

Lemma record_trade_stack_inv d a (b : bot) :
  stack_inv b -> stack_inv (record_trade d a b).
Proof. exact (fun H => H). Qed.

Lemma check_trade_result_stack_inv res (b : bot) :
  stack_inv b -> stack_inv (check_trade_result res b).
Proof. unfold check_trade_result. destruct (getitem _ _); exact (fun H => H). Qed.

(** The ladder that a call materializes (or finds). *)
Lemma materialized_ladder (b : bot) :
  stack_inv b ->
  exists ladder,
    match martingale_stack b with
    | [] => build_stack (trade_amount b) (martingale_coefficient b)
              (max_martingale_level b)
    | st => Ok st
    end = Ok ladder
    /\ build_stack (trade_amount b) (martingale_coefficient b)
         (max_martingale_level b) = Ok ladder
    /\ is_ladder (trade_amount b) (martingale_coefficient b)
         (Z.to_nat (max_martingale_level b - 1)) ladder.
Proof.
  intros Hinv.
  destruct (build_stack_ladder (trade_amount b) (martingale_coefficient b)
              (max_martingale_level b)) as [st [Hb Hl]].
  exists st. split; [|split]; auto.
  destruct Hinv as [-> | Hinv]; [exact Hb|].
  rewrite Hb in Hinv. injection Hinv as <-.
  destruct st; [|reflexivity]. exact Hb.
Qed.

Lemma calculate_stack_inv res (b : bot) :
  stack_inv b -> stack_inv (snd (calculate_martingale_amount res b)).
Proof.
  intros Hinv. unfold calculate_martingale_amount.
  destruct (martingale_enabled b); simpl; [|exact Hinv].
  destruct (materialized_ladder b Hinv) as [st [-> [Hb _]]].
  assert (Hst : stack_inv (with_stack b st)) by (right; exact Hb).
  destruct (status_eqb res win); [exact Hst|].
  destruct (getitem _ _); exact Hst.
Qed.

End StakeSizer.

(** C5. With [max_level >= 1], the first call with martingale enabled fills
    the stack with a ladder of length [max_level] whose first entry is the
    base stake and whose entry [i >= 1] is [round(ladder[i-1] * coefficient, 2)];
    for base stake 1, coefficient 2.1 and five levels the ladder is
    [1, 2.1, 4.41, 9.26, 19.45]. *)
Theorem martingale_ladder_built (b : PocketOptionBot.bot)
    (last_result : PocketOptionBot.status) :
  PocketOptionBot.martingale_enabled b = true ->
  PocketOptionBot.martingale_stack b = [] ->
  1 <= PocketOptionBot.max_martingale_level b ->
  let ladder :=
    PocketOptionBot.martingale_stack
      (snd (PocketOptionBot.calculate_martingale_amount last_result b)) in
  Z.of_nat (length ladder) = PocketOptionBot.max_martingale_level b
  /\ ladder !! 0%nat = Some (PocketOptionBot.trade_amount b)
  /\ (forall i prev,
        (1 <= i)%nat -> Z.of_nat i < PocketOptionBot.max_martingale_level b ->
        ladder !! (i - 1)%nat = Some prev ->
        ladder !! i =
          Some (Binary64.py_round2
                  (PrimFloat.mul prev (PocketOptionBot.martingale_coefficient b))))
  /\ PocketOptionBot.build_stack 1%float 2.1%float 5
     = Ok [1%float; 2.1%float; 4.41%float; 9.26%float; 19.45%float].
Proof.
  intros Hen Hempty Hmax ladder.
  assert (Hinv : stack_inv b) by (left; exact Hempty).
  destruct (materialized_ladder b Hinv) as [st [Hm [_ [Hlen [H0 Hstep]]]]].
  assert (Hladder : ladder = st).
  { unfold ladder, PocketOptionBot.calculate_martingale_amount.
    rewrite Hen, Hm. simpl.
    destruct (PocketOptionBot.status_eqb last_result PocketOptionBot.win);
      [reflexivity|].
    destruct (getitem _ _); reflexivity. }
  rewrite Hladder. split; [|split; [|split]].
  - rewrite Hlen. lia.
  - exact H0.
  - intros i prev Hi Hlt Hprev.
    destruct i as [|i]; [lia|].
    replace (S i - 1)%nat with i in Hprev by lia.
    apply Hstep; [lia | exact Hprev].
  - vm_compute. reflexivity.
Qed.


Lemma martingale_ladder_built_witness :
  let b := new_bot true 2.1%float 5 in
  PocketOptionBot.martingale_stack
    (snd (PocketOptionBot.calculate_martingale_amount PocketOptionBot.loss b))
  !! 4%nat = Some 19.45%float.
Proof.
  intros b.
  destruct (martingale_ladder_built b PocketOptionBot.loss)
    as [_ [_ [Hstep _]]]; [reflexivity | reflexivity | simpl; lia |].
  apply (Hstep 4%nat 9.26%float); [lia | simpl; lia | reflexivity].
Defined.


(** The level recorded with a trade counts every loss of the history so far,
    whether or not a win came in between. *)
Lemma recorded_level_counts_all_losses d a res (b : PocketOptionBot.bot) :
  PocketOptionBot.martingale_enabled b = true ->
  exists t,
    last (PocketOptionBot.trade_history
            (PocketOptionBot.check_trade_result res
               (PocketOptionBot.record_trade d a b))) = Some t
    /\ PocketOptionBot.t_status t = res
    /\ PocketOptionBot.t_martingale_level t
       = PocketOptionBot.count_losses (PocketOptionBot.trade_history b).
Proof.
  intros Hen. unfold PocketOptionBot.check_trade_result.
  set (t := {| PocketOptionBot.t_asset := PocketOptionBot.current_asset b;
               PocketOptionBot.t_direction := d;
               PocketOptionBot.t_amount := a;
               PocketOptionBot.t_expiry_minutes := PocketOptionBot.expiry_minutes b;
               PocketOptionBot.t_status := PocketOptionBot.pending;
               PocketOptionBot.t_martingale_level :=
                 PocketOptionBot.new_martingale_level b |}).
  assert (Hh : PocketOptionBot.trade_history (PocketOptionBot.record_trade d a b)
               = PocketOptionBot.trade_history b ++ [t]) by reflexivity.
  rewrite (getitem_last _ t) by (rewrite Hh; apply last_snoc).
  exists (PocketOptionBot.set_status t res). simpl. split; [|split].
  - apply last_snoc.
  - reflexivity.
  - unfold PocketOptionBot.new_martingale_level. now rewrite Hen.
Qed.

(** C2. After the outcomes loss, win, loss (default configuration with
    martingale enabled) the specification's consecutive-loss count is 1, so
    the claimed stake is [ladder[1] = 2.1]; the code asks for
    [ladder[2] = 4.41], because the level it recorded with the last trade
    counts the loss before the win too. *)
Theorem martingale_level_not_reset_by_win :
  let b := snd (PocketOptionBot.session
                  [PocketOptionBot.loss; PocketOptionBot.win; PocketOptionBot.loss]
                  (new_bot true 2.1%float 5)) in
  map PocketOptionBot.t_status (PocketOptionBot.trade_history b)
    = [PocketOptionBot.loss; PocketOptionBot.win; PocketOptionBot.loss]
  /\ consecutive_loss_count (PocketOptionBot.trade_history b) = 1%nat
  /\ PocketOptionBot.martingale_stack b
     = [1%float; 2.1%float; 4.41%float; 9.26%float; 19.45%float]
  /\ map PocketOptionBot.t_martingale_level (PocketOptionBot.trade_history b)
     = [0%nat; 1%nat; 1%nat]
  /\ fst (PocketOptionBot.calculate_martingale_amount PocketOptionBot.loss b)
     = Ok 4.41%float
  /\ fst (PocketOptionBot.session
            [PocketOptionBot.loss; PocketOptionBot.win; PocketOptionBot.loss;
             PocketOptionBot.win]
            (new_bot true 2.1%float 5))
     = [Some 1%float; Some 2.1%float; Some 1%float; Some 4.41%float].
Proof.
  vm_compute. repeat split; reflexivity.
Qed.

(** ** Construction *)


Section Construction.
Import PocketOptionBot.



(** A configuration file that lacks a section is loaded as it is, and the
    constructor stops at the first key that it misses. *)
Lemma partial_configuration_file (d : Config.dict) (driver_ok : bool) :
  Config.d_trading d = None ->
  init None (Config.load_config (Some (Ok d))) driver_ok
  = Raise (KeyError "trading").
Proof.
  intros H. unfold init. simpl. rewrite H. reflexivity.
Qed.

(** Without a configuration file the defaults are used, and they are
    complete. *)
Lemma default_configuration_file :
  exists b, init None (Config.load_config None) true = Ok b.
Proof.
  eexists. vm_compute. reflexivity.
Qed.

End Construction.


(** ** What [analyze] does to the caller's frame *)

Section Frame.
Import Pandas.

Lemma same_but_indicators_refl df : same_but_indicators df df.
Proof. split; auto. Qed.

Lemma same_but_indicators_trans df1 df2 df3 :
  same_but_indicators df1 df2 -> same_but_indicators df2 df3 ->
  same_but_indicators df1 df3.
Proof.
  intros [Hn Hc] [Hn' Hc']. split; [congruence|].
  intros c Hnot. rewrite Hc', Hc; auto.
Qed.

Lemma preserves_ret {A : Type} (a : A) : preserves (ret a).
Proof. intros df. apply same_but_indicators_refl. Qed.

Lemma preserves_lift {A : Type} (r : result A) : preserves (lift r).
Proof. intros df. apply same_but_indicators_refl. Qed.

Lemma preserves_get_len : preserves get_len.
Proof. intros df. apply same_but_indicators_refl. Qed.

Lemma preserves_get_column name : preserves (get_column name).
Proof.
  intros df. unfold get_column.
  destruct (columns df !! name); apply same_but_indicators_refl.
Qed.

Lemma preserves_iloc_last : preserves iloc_last.
Proof.
  intros df. unfold iloc_last.
  destruct (nrows df); apply same_but_indicators_refl.
Qed.

Lemma preserves_row_get row name : preserves (row_get row name).
Proof.
  unfold row_get. destruct (row !! name);
    [apply preserves_ret | apply preserves_lift].
Qed.

Lemma preserves_set_column name s :
  name ∈ indicator_columns -> preserves (set_column name s).
Proof.
  intros Hin df. split; [reflexivity|]. simpl.
  intros c Hnot. apply lookup_insert_ne. intros ->. contradiction.
Qed.

Lemma preserves_bind {A B : Type} (m : M A) (k : A -> M B) :
  preserves m -> (forall a, preserves (k a)) -> preserves (bind m k).
Proof.
  intros Hm Hk df. unfold bind.
  specialize (Hm df). destruct (m df) as [[a|e] df']; simpl in *.
  - eapply same_but_indicators_trans; [exact Hm | apply Hk].
  - exact Hm.
Qed.

Ltac frame :=
  repeat first
    [ apply preserves_ret
    | apply preserves_lift
    | apply preserves_get_len
    | apply preserves_get_column
    | apply preserves_iloc_last
    | apply preserves_row_get
    | apply preserves_set_column; unfold indicator_columns; set_solver
    | apply preserves_bind; [|intros ?]
    | match goal with
      | |- preserves (if ?b then _ else _) => destruct b
      end ].

Lemma trend_following_preserves self :
  preserves (Strategies.TrendFollowing.analyze self).
Proof. unfold Strategies.TrendFollowing.analyze. frame. Qed.

Lemma rsi_preserves self : preserves (Strategies.RSI.analyze self).
Proof.
  unfold Strategies.RSI.analyze, Strategies.RSI.calculate_rsi. frame.
Qed.

Lemma random_leaves_frame self u df :
  snd (Strategies.Random.analyze self u df) = df.
Proof.
  unfold Strategies.Random.analyze.
  destruct (Qltb u (Strategies.win_probability self)); reflexivity.
Qed.

End Frame.

(** The trend-following strategy with the default periods adds the column
    [sma_short] to a frame of ten bars: the frame is not what it was. *)
Lemma analyze_writes_into_the_frame :
  let data := Pandas.DataFrame_of (map bar [1; 2; 3; 4; 5; 6; 7; 8; 9; 10]%Q) in
  let data' :=
    snd (Strategies.analyze
           (Strategies.TrendFollowing (Strategies.TrendFollowing.new None))
           0%Q data) in
  Pandas.columns data !! "sma_short" = None
  /\ is_Some (Pandas.columns data' !! "sma_short")
  /\ data' <> data.
Proof.
  intros data data'.
  assert (H0 : Pandas.columns data !! "sma_short" = None)
    by (vm_compute; reflexivity).
  assert (H1 : is_Some (Pandas.columns data' !! "sma_short"))
    by (vm_compute; eexists; reflexivity).
  split; [exact H0 | split; [exact H1 |]].
  intros Heq. rewrite Heq, H0 in H1. destruct H1 as [x Hx]. discriminate.
Qed.

(** ** Rolling means *)

Section Rolling.
Import Pandas.

Lemma validate_window_int (w : Z) :
  0 <= w -> validate_window (inject_Z w) = Ok (Z.to_nat w).
Proof.
  intros Hw. unfold validate_window, is_integer.
  rewrite Qfloor_Z.
  assert (H1 : Qeq_bool (inject_Z w) (inject_Z w) = true)
    by (apply Qeq_bool_iff; reflexivity).
  assert (H2 : Qle_bool 0 (inject_Z w) = true).
  { apply Qle_bool_iff. change 0%Q with (inject_Z 0). now rewrite <- Zle_Qle. }
  now rewrite H1, H2.
Qed.

Lemma last_seq (n : nat) : last (seq 0 (S n)) = Some n.
Proof. rewrite seq_S. apply last_snoc. Qed.

(** The last cell of a rolling mean is the mean of the trailing window. *)
Lemma rolling_mean_last (window : Q) (w : nat) (s r : Series) :
  validate_window window = Ok w ->
  s <> [] ->
  rolling_mean window s = Ok r ->
  last r = Some (window_mean w (window_at w s (length s - 1))).
Proof.
  intros Hw Hne. unfold rolling_mean. rewrite Hw. simpl.
  intros [= <-].
  destruct s as [|x s]; [contradiction|].
  rewrite fmap_last. simpl length. rewrite last_seq. simpl.
  now replace (length s - 0)%nat with (length s) by lia.
Qed.

Lemma filter_is_obs_fin (l : list Q) :
  List.filter is_obs (map Fin l) = map Fin l.
Proof. induction l; simpl; [reflexivity | now rewrite IHl]. Qed.

Lemma cell_value_fin (l : list Q) : map cell_value (map Fin l) = l.
Proof. induction l; simpl; [reflexivity | now rewrite IHl]. Qed.

(** On finite prices a full trailing window has a finite mean. *)
Lemma window_mean_full (w : nat) (l : list Q) :
  (1 <= w <= length l)%nat ->
  window_mean w (window_at w (map Fin l) (length (map Fin l) - 1))
  = Fin (Qsum (drop (length l - w) l) / inject_Z (Z.of_nat w)).
Proof.
  intros Hw. unfold window_at, window_mean.
  rewrite length_map.
  replace (length l - 1 + 1)%nat with (length l) by lia.
  rewrite take_ge by (rewrite length_map; lia).
  rewrite <- fmap_drop.
  change (Fin <$> drop (length l - w) l) with (map Fin (drop (length l - w) l)).
  rewrite filter_is_obs_fin, cell_value_fin, length_map, length_drop.
  replace (length l - (length l - w))%nat with w by lia.
  assert (H1 : (w <=? w)%nat = true) by (apply Nat.leb_le; lia).
  assert (H2 : (0 <? w)%nat = true) by (apply Nat.ltb_lt; lia).
  now rewrite H1, H2.
Qed.

(** A window that is not full has no mean. *)
Lemma window_mean_short (w : nat) (s : Series) (i : nat) :
  window_mean w (window_at w s i) <> NaN -> (1 <= w <= i + 1)%nat /\ (i < length s)%nat.
Proof.
  unfold window_mean, window_at.
  set (obs := List.filter is_obs _).
  destruct ((w <=? length obs)%nat && (0 <? length obs)%nat) eqn:E;
    [|intros H; now contradiction H].
  intros _. apply andb_true_iff in E. destruct E as [E1 E2].
  apply Nat.leb_le in E1. apply Nat.ltb_lt in E2.
  assert (Hobs : (length obs <= length (drop (i + 1 - w) (take (i + 1) s)))%nat).
  { unfold obs. rewrite <- (List.filter_length is_obs (drop _ _)). lia. }
  rewrite length_drop, length_take in Hobs.
  split; [lia|].
  destruct (decide (i < length s)%nat); [assumption|].
  exfalso. 
  assert (w = 0%nat \/ (1 <= w)%nat) as [->|Hw] by lia; lia.
Qed.

End Rolling.

(** ** Trend following *)

Section Trend.
Import Pandas Strategies.

Lemma close_column (candles : list candle) :
  candles <> [] ->
  columns (DataFrame_of candles) !! "close" = Some (column_of close candles)
  /\ nrows (DataFrame_of candles) = length candles.
Proof.
  destruct candles as [|c cs]; [contradiction|]. intros _.
  split; [|reflexivity]. simpl columns.
  repeat (rewrite lookup_insert_ne by discriminate).
  apply lookup_insert_eq.
Qed.

(** The run of [analyze] on a frame with enough rows, in terms of the last
    cells of the two rolling means. *)
Lemma trend_run (self : TrendFollowingStrategy) (df : DataFrame)
    (closes ss ls : Series) (s l : cell) :
  columns df !! "close" = Some closes ->
  nrows df <> 0%nat ->
  Qltb (len df) (long_period self) = false ->
  rolling_mean (short_period self) closes = Ok ss ->
  rolling_mean (long_period self) closes = Ok ls ->
  last ss = Some s ->
  last ls = Some l ->
  TrendFollowing.analyze self df
  = (Ok (if isna s || isna l then None
         else if cgt s l then Some call else Some put),
     {| nrows := nrows df;
        columns := <["sma_long" := ls]> (<["sma_short" := ss]> (columns df)) |}).
Proof.
  intros Hclose Hrows Hlen Hss Hls Hs Hl.
  unfold TrendFollowing.analyze, bind, get_len. rewrite Hlen.
  unfold get_column at 1. rewrite Hclose.
  unfold lift at 1. rewrite Hss.
  unfold set_column at 1.
  unfold get_column at 1. simpl columns.
  rewrite lookup_insert_ne by discriminate. rewrite Hclose.
  unfold lift at 1. rewrite Hls.
  unfold set_column, iloc_last. simpl nrows. simpl columns.
  destruct (nrows df) as [|k]; [contradiction|].
  unfold row_get.
  rewrite !lookup_omap.
  rewrite lookup_insert_ne by discriminate.
  rewrite !lookup_insert_eq. simpl. rewrite Hs, Hl. simpl.
  unfold ret.
  destruct (isna s || isna l); [reflexivity|].
  destruct (cgt s l); reflexivity.
Qed.

Lemma len_not_below (candles : list candle) (lp : Z) :
  lp <= Z.of_nat (length candles) ->
  candles <> [] ->
  Qltb (len (DataFrame_of candles)) (inject_Z lp) = false.
Proof.
  intros Hlp Hne. unfold Qltb, len.
  rewrite (proj2 (close_column candles Hne)).
  apply negb_false_iff, Qle_bool_iff. now rewrite <- Zle_Qle.
Qed.

End Trend.

Section TrendTie.
Import Pandas Strategies.

Lemma validate_window_inv (q : Q) (w : nat) :
  validate_window q = Ok w -> (q == inject_Z (Z.of_nat w))%Q.
Proof.
  unfold validate_window, is_integer.
  destruct (Qeq_bool q (inject_Z (Qfloor q))) eqn:E1; [|discriminate].
  destruct (Qle_bool 0 q) eqn:E2; [|discriminate].
  simpl. intros [= <-].
  apply Qeq_bool_iff in E1. apply Qle_bool_iff in E2.
  assert (H0 : 0 <= Qfloor q).
  { change 0 with (Qfloor 0). now apply Qfloor_resp_le. }
  rewrite Z2Nat.id by exact H0. exact E1.
Qed.

Lemma rolling_mean_window (q : Q) (s r : Series) :
  rolling_mean q s = Ok r ->
  exists w, validate_window q = Ok w /\ length r = length s.
Proof.
  unfold rolling_mean. destruct (validate_window q) as [w|e]; [|discriminate].
  simpl. intros [= <-]. exists w. split; [reflexivity|].
  now rewrite length_map, length_seq.
Qed.

(** A defined last mean tells that the series is as long as the window. *)
Lemma defined_mean_has_rows (q : Q) (closes r : Series) (c : cell) :
  rolling_mean q closes = Ok r ->
  last r = Some c ->
  isna c = false ->
  closes <> [] /\ Qltb (inject_Z (Z.of_nat (length closes))) q = false.
Proof.
  intros Hr Hlast Hna.
  destruct (rolling_mean_window _ _ _ Hr) as [w [Hw Hlen]].
  assert (Hne : closes <> []).
  { intros ->. destruct r; [discriminate | simpl in Hlen; lia]. }
  split; [exact Hne|].
  rewrite (rolling_mean_last q w closes r Hw Hne Hr) in Hlast.
  injection Hlast as <-.
  assert (Hnan : window_mean w (window_at w closes (length closes - 1)) <> NaN).
  { intros E. rewrite E in Hna. discriminate. }
  destruct (window_mean_short _ _ _ Hnan) as [Hwn Hin].
  unfold Qltb. apply negb_false_iff, Qle_bool_iff.
  rewrite (validate_window_inv q w Hw). rewrite <- Zle_Qle. lia.
Qed.

End TrendTie.

(** C7. Whenever the last cells of the two rolling means are defined (not
    NaN) and equal, the trend-following strategy returns ["put"]. *)
Theorem trend_following_tie_is_put (self : Strategies.TrendFollowingStrategy)
    (candles : list Pandas.candle) (ss ls : Pandas.Series) (s l : cell) :
  Pandas.rolling_mean (Strategies.short_period self)
    (Pandas.column_of Pandas.close candles) = Ok ss ->
  Pandas.rolling_mean (Strategies.long_period self)
    (Pandas.column_of Pandas.close candles) = Ok ls ->
  last ss = Some s ->
  last ls = Some l ->
  isna s = false ->
  isna l = false ->
  ceq s l = true ->
  fst (Strategies.TrendFollowing.analyze self (Pandas.DataFrame_of candles))
  = Ok (Some put).
Proof.
  intros Hss Hls Hs Hl Hnas Hnal Heq.
  destruct (defined_mean_has_rows _ _ _ _ Hls Hl Hnal) as [Hne Hlen].
  assert (Hc : candles <> []).
  { intros ->. now apply Hne. }
  destruct (close_column candles Hc) as [Hclose Hrows].
  unfold Pandas.column_of in Hlen. rewrite length_map in Hlen.
  rewrite (trend_run self _ _ ss ls s l Hclose); try assumption.
  - rewrite Hnas, Hnal. simpl.
    unfold cgt. unfold ceq in Heq.
    destruct (ccompare s l) as [[| |]|]; try discriminate. reflexivity.
  - rewrite Hrows. destruct candles; [contradiction | discriminate].
  - unfold Pandas.len. now rewrite Hrows.
Qed.

Lemma trend_following_tie_is_put_witness :
  fst (Strategies.TrendFollowing.analyze
         {| Strategies.tf_parameters := ∅;
            Strategies.short_period := 1;
            Strategies.long_period := 2 |}
         (Pandas.DataFrame_of (map bar [3; 3]%Q)))
  = Ok (Some put).
Proof.
  apply (trend_following_tie_is_put _ _
           [Fin 3; Fin 3] [NaN; Fin (6 # 2)] (Fin 3) (Fin (6 # 2)));
    vm_compute; reflexivity.
Defined.

Section TrendWindows.
Import Pandas Strategies.

(** With both windows inside the series, the verdict compares the two
    trailing means of the closing prices. *)
Lemma trend_full_windows (self : TrendFollowingStrategy)
    (candles : list candle) (sp lp : Z) :
  short_period self = inject_Z sp ->
  long_period self = inject_Z lp ->
  1 <= sp <= Z.of_nat (length candles) ->
  1 <= lp <= Z.of_nat (length candles) ->
  let closes := map close candles in
  let s := Fin (trailing_mean (Z.to_nat sp) closes) in
  let l := Fin (trailing_mean (Z.to_nat lp) closes) in
  exists ss ls,
    TrendFollowing.analyze self (DataFrame_of candles)
    = (Ok (Some (if cgt s l then call else put)),
       {| nrows := length candles;
          columns := <["sma_long" := ls]>
                       (<["sma_short" := ss]> (columns (DataFrame_of candles))) |})
    /\ last ss = Some s /\ last ls = Some l.
Proof.
  intros Hsp Hlp Hs Hl closes s l.
  assert (Hne : candles <> []) by (intros ->; simpl in Hs; lia).
  destruct (close_column candles Hne) as [Hclose Hrows].
  assert (Hcol : column_of close candles = map Fin closes).
  { unfold column_of, closes. now rewrite map_map. }
  assert (Hcne : map Fin closes <> []).
  { unfold closes. destruct candles; [contradiction | discriminate]. }
  assert (Hn : length closes = length candles) by apply length_map.
  assert (Hmean : forall w, 1 <= w <= Z.of_nat (length candles) ->
            exists r, rolling_mean (inject_Z w) (map Fin closes) = Ok r
                      /\ last r = Some (Fin (trailing_mean (Z.to_nat w) closes))).
  { intros w Hw.
    assert (Hv : validate_window (inject_Z w) = Ok (Z.to_nat w))
      by (apply validate_window_int; lia).
    destruct (rolling_mean (inject_Z w) (map Fin closes)) as [r|e] eqn:Hr.
    - exists r. split; [reflexivity|].
      rewrite (rolling_mean_last _ _ _ _ Hv Hcne Hr).
      rewrite window_mean_full by lia. reflexivity.
    - unfold rolling_mean in Hr. rewrite Hv in Hr. discriminate. }
  destruct (Hmean sp Hs) as [ss [Hss Hlast_s]].
  destruct (Hmean lp Hl) as [ls [Hls Hlast_l]].
  exists ss, ls. split; [|split; assumption].
  rewrite Hcol in Hclose.
  rewrite (trend_run self _ _ ss ls s l Hclose).
  - rewrite Hrows. unfold s, l. simpl. now destruct (cgt _ _).
  - rewrite Hrows. destruct candles; [contradiction | discriminate].
  - rewrite Hlp. apply len_not_below; [lia | exact Hne].
  - now rewrite Hsp.
  - now rewrite Hlp.
  - exact Hlast_s.
  - exact Hlast_l.
Qed.

End TrendWindows.



(** ** Sums and means of monotone windows *)

Section Means.
Import Pandas.
Local Open Scope Q_scope.

Lemma Qlen_cons (x : Q) (l : list Q) : Qlen (x :: l) == 1 + Qlen l.
Proof.
  unfold Qlen. simpl length. rewrite Nat2Z.inj_succ.
  unfold Z.succ. rewrite inject_Z_plus.
  change (inject_Z 1) with 1. ring.
Qed.

Lemma Qlen_nonneg (l : list Q) : 0 <= Qlen l.
Proof.
  unfold Qlen. change 0 with (inject_Z 0). rewrite <- Zle_Qle. lia.
Qed.

Lemma Qlen_pos (l : list Q) : l <> [] -> 0 < Qlen l.
Proof.
  destruct l as [|x l]; [contradiction|]. intros _.
  rewrite Qlen_cons. pose proof (Qlen_nonneg l). lra.
Qed.

Lemma Qsum_app (l1 l2 : list Q) : Qsum (l1 ++ l2) == Qsum l1 + Qsum l2.
Proof.
  induction l1 as [|x l1 IH]; simpl; [lra|]. rewrite IH. lra.
Qed.

Lemma Qsum_lower (m : Q) (l : list Q) :
  Forall (fun x => m <= x) l -> Qlen l * m <= Qsum l.
Proof.
  induction 1 as [|x l Hx _ IH].
  - change (0 * m <= 0). lra.
  - rewrite Qlen_cons. simpl.
    assert (E : (1 + Qlen l) * m == m + Qlen l * m) by ring. rewrite E. lra.
Qed.

Lemma Qsum_upper_strict (m : Q) (l : list Q) :
  l <> [] -> Forall (fun x => x < m) l -> Qsum l < Qlen l * m.
Proof.
  intros Hne H. induction H as [|x l Hx Hl IH]; [contradiction|].
  rewrite Qlen_cons.
  assert (E : (1 + Qlen l) * m == m + Qlen l * m) by ring. rewrite E.
  change (Qsum (x :: l)) with (x + Qsum l).
  destruct l as [|y l].
  - change (x + 0 < m + 0 * m). lra.
  - assert (IH' : Qsum (y :: l) < Qlen (y :: l) * m) by (apply IH; discriminate).
    lra.
Qed.

(** The mean of a low part followed by a high part is below the mean of the
    high part. *)
Lemma mean_of_whole_below_high_part (m : Q) (low hi : list Q) :
  low <> [] -> hi <> [] ->
  Forall (fun x => x < m) low ->
  Forall (fun x => m <= x) hi ->
  Qsum (low ++ hi) / Qlen (low ++ hi) < Qsum hi / Qlen hi.
Proof.
  intros Hl Hh Flow Fhi.
  pose proof (Qsum_upper_strict m low Hl Flow) as Hlow.
  pose proof (Qsum_lower m hi Fhi) as Hhi.
  pose proof (Qlen_pos low Hl) as Pl.
  pose proof (Qlen_pos hi Hh) as Ph.
  assert (Hlen : Qlen (low ++ hi) == Qlen low + Qlen hi).
  { unfold Qlen. rewrite length_app, Nat2Z.inj_add, inject_Z_plus. reflexivity. }
  rewrite Qsum_app, Hlen.
  set (a := Qlen low) in *. set (s := Qlen hi) in *.
  set (A := Qsum low) in *. set (B := Qsum hi) in *.
  assert (Hcross : A * s < B * a).
  { apply Qlt_le_trans with (a * m * s).
    - apply Qmult_lt_compat_r; assumption.
    - assert (E : a * m * s == s * m * a) by ring. rewrite E.
      apply Qmult_le_compat_r; [assumption | lra]. }
  apply Qlt_shift_div_r; [lra|].
  assert (E : B / s * (a + s) == (B * (a + s)) / s) by (field; lra).
  rewrite E.
  apply Qlt_shift_div_l; [assumption|].
  lra.
Qed.

Lemma increasing_lookup (l : list Q) (i j : nat) (x y : Q) :
  strictly_increasing l -> (i < j)%nat ->
  l !! i = Some x -> l !! j = Some y -> x < y.
Proof.
  intros Hinc. revert y. induction j as [|j IH]; intros y Hij Hx Hy; [lia|].
  destruct (decide (i = j)) as [->|Hne].
  - eapply Hinc; eassumption.
  - assert (Hj : is_Some (l !! j)).
    { apply lookup_lt_is_Some. apply lookup_lt_Some in Hy. lia. }
    destruct Hj as [z Hz].
    apply Qlt_trans with z.
    + apply IH; [lia | assumption | assumption].
    + eapply Hinc; eassumption.
Qed.

(** In a strictly increasing series the mean of the last [s] prices is
    above the mean of the last [w] prices, for [1 <= s < w <= length]. *)
Lemma increasing_means (l : list Q) (s w : nat) :
  strictly_increasing l ->
  (1 <= s)%nat -> (s < w)%nat -> (w <= length l)%nat ->
  trailing_mean w l < trailing_mean s l.
Proof.
  intros Hinc Hs Hsw Hw. unfold trailing_mean.
  set (n := length l) in *.
  assert (Hm : is_Some (l !! (n - s)%nat)) by (apply lookup_lt_is_Some; lia).
  destruct Hm as [m Hm].
  set (low := take (w - s) (drop (n - w) l)).
  set (hi := drop (n - s) l).
  assert (Hsplit : drop (n - w) l = low ++ hi).
  { unfold low, hi. rewrite <- (take_drop (w - s) (drop (n - w) l)) at 1.
    rewrite drop_drop. f_equal. f_equal. lia. }
  assert (Hlen_low : length low = (w - s)%nat).
  { unfold low. rewrite length_take, length_drop. lia. }
  assert (Hlen_hi : length hi = s).
  { unfold hi. rewrite length_drop. lia. }
  assert (Hlow : Forall (fun x => x < m) low).
  { apply Forall_lookup. intros i x Hx. unfold low in Hx.
    apply lookup_take_Some in Hx. destruct Hx as [Hx Hi].
    rewrite lookup_drop in Hx.
    apply (increasing_lookup l (n - w + i) (n - s)); auto. lia. }
  assert (Hhi : Forall (fun x => m <= x) hi).
  { apply Forall_lookup. intros i x Hx. unfold hi in Hx.
    rewrite lookup_drop in Hx.
    destruct i as [|i].
    - rewrite Nat.add_0_r in Hx. assert (E : x = m) by congruence.
      rewrite E. apply Qle_refl.
    - apply Qlt_le_weak.
      apply (increasing_lookup l (n - s) (n - s + S i)); auto. lia. }
  assert (Hw_len : inject_Z (Z.of_nat w) = Qlen (low ++ hi)).
  { unfold Qlen. rewrite length_app, Hlen_low, Hlen_hi. do 2 f_equal. lia. }
  assert (Hs_len : inject_Z (Z.of_nat s) = Qlen hi).
  { unfold Qlen. now rewrite Hlen_hi. }
  rewrite Hsplit, Hw_len, Hs_len.
  apply (mean_of_whole_below_high_part m).
  - intros E. apply (f_equal length) in E. simpl in E. lia.
  - intros E. apply (f_equal length) in E. simpl in E. lia.
  - exact Hlow.
  - exact Hhi.
Qed.

End Means.

Section Decreasing.
Import Pandas.
Local Open Scope Q_scope.

Lemma Qsum_opp (l : list Q) : Qsum (map Qopp l) == - Qsum l.
Proof. induction l as [|x l IH]; simpl; [lra|]. rewrite IH. lra. Qed.

Lemma trailing_mean_opp (w : nat) (l : list Q) :
  trailing_mean w (map Qopp l) == - trailing_mean w l.
Proof.
  unfold trailing_mean. rewrite length_map.
  change (map Qopp l) with (Qopp <$> l).
  rewrite <- fmap_drop.
  change (Qopp <$> drop (length l - w) l)
    with (map Qopp (drop (length l - w) l)).
  rewrite Qsum_opp. unfold Qdiv. ring.
Qed.

Lemma decreasing_opp (l : list Q) :
  strictly_decreasing l -> strictly_increasing (map Qopp l).
Proof.
  intros Hdec i x y Hx Hy.
  change (map Qopp l) with (Qopp <$> l) in Hx, Hy.
  rewrite list_lookup_fmap in Hx, Hy.
  destruct (l !! i) as [x'|] eqn:Ex; [|discriminate].
  destruct (l !! S i) as [y'|] eqn:Ey; [|discriminate].
  simpl in Hx, Hy. injection Hx as <-. injection Hy as <-.
  pose proof (Hdec i x' y' Ex Ey). lra.
Qed.

(** In a strictly decreasing series the mean of the last [s] prices is
    below the mean of the last [w] prices, for [1 <= s < w <= length]. *)
Lemma decreasing_means (l : list Q) (s w : nat) :
  strictly_decreasing l ->
  (1 <= s)%nat -> (s < w)%nat -> (w <= length l)%nat ->
  trailing_mean s l < trailing_mean w l.
Proof.
  intros Hdec Hs Hsw Hw.
  pose proof (increasing_means (map Qopp l) s w (decreasing_opp l Hdec) Hs Hsw) as H.
  rewrite length_map in H. specialize (H Hw).
  rewrite !trailing_mean_opp in H. lra.
Qed.

Lemma cgt_fin (a b : Q) : cgt (Fin a) (Fin b) = true <-> b < a.
Proof.
  unfold cgt. simpl. rewrite Qlt_alt.
  rewrite <- (Qcompare_antisym a b).
  destruct (a ?= b); simpl; split; intros H; try discriminate; reflexivity.
Qed.

End Decreasing.

(** C6 (amended).  When the two moving averages are computed exactly, without
    the rounding of binary64: with [1 <= short_period < long_period] and at
    least [long_period] bars, the trend-following strategy returns ["call"]
    on every series of strictly increasing closes and ["put"] on every
    series of strictly decreasing closes. *)
Theorem trend_following_monotone (self : Strategies.TrendFollowingStrategy)
    (candles : list Pandas.candle) (sp lp : Z) :
  Strategies.short_period self = inject_Z sp ->
  Strategies.long_period self = inject_Z lp ->
  1 <= sp < lp ->
  lp <= Z.of_nat (length candles) ->
  let closes := map Pandas.close candles in
  let answer :=
    fst (Strategies.TrendFollowing.analyze self (Pandas.DataFrame_of candles)) in
  (strictly_increasing closes -> answer = Ok (Some call))
  /\ (strictly_decreasing closes -> answer = Ok (Some put)).
Proof.
  intros Hsp Hlp Hs Hl closes answer.
  destruct (trend_full_windows self candles sp lp Hsp Hlp)
    as [ss [ls [Hrun _]]]; [lia | lia |].
  assert (Hlen : length closes = length candles) by apply length_map.
  unfold answer. rewrite Hrun. simpl fst. fold closes. split; intros Hmono.
  - assert (H : cgt (Fin (trailing_mean (Z.to_nat sp) closes))
                    (Fin (trailing_mean (Z.to_nat lp) closes)) = true).
    { apply cgt_fin. apply increasing_means; [assumption | lia | lia | lia]. }
    now rewrite H.
  - assert (H : cgt (Fin (trailing_mean (Z.to_nat sp) closes))
                    (Fin (trailing_mean (Z.to_nat lp) closes)) = false).
    { apply not_true_is_false. intros H. apply cgt_fin in H.
      pose proof (decreasing_means closes (Z.to_nat sp) (Z.to_nat lp) Hmono) as D.
      assert (trailing_mean (Z.to_nat sp) closes
              < trailing_mean (Z.to_nat lp) closes)%Q by (apply D; lia).
      lra. }
    now rewrite H.
Qed.

Lemma trend_following_monotone_witness :
  fst (Strategies.TrendFollowing.analyze
         (Strategies.TrendFollowing.new None)
         (Pandas.DataFrame_of (map bar [1; 2; 3; 4; 5; 6; 7; 8; 9; 10]%Q)))
  = Ok (Some call).
Proof.
  apply (trend_following_monotone
           (Strategies.TrendFollowing.new None)
           (map bar [1; 2; 3; 4; 5; 6; 7; 8; 9; 10]%Q) 5 10);
    [reflexivity | reflexivity | lia | simpl; lia |].
  intros i x y Hx Hy.
  do 10 (destruct i as [|i];
         [vm_compute in Hx, Hy;
          first [discriminate
                | injection Hx as <-; injection Hy as <-; reflexivity]|]).
  discriminate.
Defined.

(** C6, as stated, fails in binary64, where the rounding of the two moving
    averages can make them equal or swap them.  The closes
    1.0000000000000002, 1.0000000000000004 increase strictly, and with the
    periods 1 and 2 both averages are 1.0000000000000004: the answer is
    ["put"].  The closes 100.0, 99.99999999999999, 99.99999999999997,
    99.99999999999996 decrease strictly, and with the periods 2 and 3 the
    short average 99.99999999999997 is above the long average
    99.99999999999996: the answer is ["call"].  Both hold for pandas'
    compensated summation and for plain summation. *)
Lemma monotone_closes_with_rounded_means :
  let rising := [1.0000000000000002; 1.0000000000000004]%float in
  let falling :=
    [100.0; 99.99999999999999; 99.99999999999997; 99.99999999999996]%float in
  Float64.increasing rising = true
  /\ Float64.roll_mean 1 rising = [1.0000000000000002; 1.0000000000000004]%float
  /\ Float64.roll_mean 2 rising = [nan; 1.0000000000000004]%float
  /\ Float64.analyze Float64.roll_mean 1 2 rising = Ok (Some put)
  /\ Float64.analyze Float64.naive_roll_mean 1 2 rising = Ok (Some put)
  /\ Float64.decreasing falling = true
  /\ Float64.roll_mean 2 falling
     = [nan; 100.0; 99.99999999999997; 99.99999999999997]%float
  /\ Float64.roll_mean 3 falling
     = [nan; nan; 99.99999999999999; 99.99999999999996]%float
  /\ Float64.analyze Float64.roll_mean 2 3 falling = Ok (Some call)
  /\ Float64.analyze Float64.naive_roll_mean 2 3 falling = Ok (Some call).
Proof.
  vm_compute.
  split; [reflexivity|]. split; [reflexivity|]. split; [reflexivity|].
  split; [reflexivity|]. split; [reflexivity|]. split; [reflexivity|].
  split; [reflexivity|]. split; [reflexivity|]. split; reflexivity.
Qed.

(** On closes whose sums and means are doubles, the binary64 answers are
    those of exact arithmetic. *)
Lemma rounded_means_small_integers :
  Float64.roll_mean 2 [1; 2; 3; 4; 5]%float = [nan; 1.5; 2.5; 3.5; 4.5]%float
  /\ Float64.roll_mean 3 [1; 2; 3; 4; 5]%float = [nan; nan; 2; 3; 4]%float
  /\ Float64.naive_roll_mean 3 [1; 2; 3; 4; 5]%float = [nan; nan; 2; 3; 4]%float
  /\ Float64.analyze Float64.roll_mean 2 3 [1; 2; 3; 4; 5]%float = Ok (Some call)
  /\ Float64.analyze Float64.roll_mean 2 3 [5; 4; 3; 2; 1]%float = Ok (Some put)
  /\ Float64.analyze Float64.roll_mean 2 9 [5; 4; 3; 2; 1]%float = Ok None.
Proof.
  vm_compute.
  split; [reflexivity|]. split; [reflexivity|]. split; [reflexivity|].
  split; [reflexivity|]. split; reflexivity.
Qed.

(** ** Relative strength index *)

Section RsiRun.
Import Pandas Strategies.

Lemma last_zip_with {A B C : Type} (f : A -> B -> C) (l : list A) (k : list B)
    (a : A) (b : B) :
  length l = length k -> last l = Some a -> last k = Some b ->
  last (zip_with f l k) = Some (f a b).
Proof.
  intros Hlen Ha Hb. rewrite last_lookup in Ha. rewrite last_lookup in Hb.
  rewrite last_lookup.
  rewrite length_zip_with, <- Hlen, Nat.min_id.
  rewrite lookup_zip_with, Ha. simpl. rewrite Hlen, Hb. reflexivity.
Qed.

(** The run of [analyze] on a frame with enough rows, in terms of the last
    cells of the two averages. *)
Lemma rsi_run (self : RSIStrategy) (df : DataFrame)
    (closes avg_gain avg_loss : Series) (g l : cell) :
  columns df !! "close" = Some closes ->
  nrows df <> 0%nat ->
  Qltb (len df) (rsi_period self + 1) = false ->
  rolling_mean (rsi_period self) (gain_series closes) = Ok avg_gain ->
  rolling_mean (rsi_period self) (loss_series closes) = Ok avg_loss ->
  last avg_gain = Some g ->
  last avg_loss = Some l ->
  RSI.analyze self df
  = (Ok (rsi_verdict self (RSI.rsi_of g l)),
     {| nrows := nrows df;
        columns := <["rsi" := zip_with RSI.rsi_of avg_gain avg_loss]> (columns df) |})
  /\ last (zip_with RSI.rsi_of avg_gain avg_loss) = Some (RSI.rsi_of g l).
Proof.
  intros Hclose Hrows Hlen Hg Hl Hlast_g Hlast_l.
  assert (Hlast : last (zip_with RSI.rsi_of avg_gain avg_loss)
                  = Some (RSI.rsi_of g l)).
  { apply last_zip_with; [|assumption|assumption].
    destruct (rolling_mean_window _ _ _ Hg) as [_ [_ Eg]].
    destruct (rolling_mean_window _ _ _ Hl) as [_ [_ El]].
    rewrite Eg, El. unfold gain_series, loss_series, where_.
    now rewrite !length_map. }
  split; [|exact Hlast].
  unfold RSI.analyze, bind, get_len. rewrite Hlen.
  unfold RSI.calculate_rsi, bind.
  unfold get_column at 1. rewrite Hclose.
  fold (gain_series closes). fold (loss_series closes).
  unfold lift. rewrite Hg, Hl.
  unfold ret at 1. unfold set_column, iloc_last. simpl nrows. simpl columns.
  destruct (nrows df) as [|k]; [contradiction|].
  unfold row_get. rewrite lookup_omap, lookup_insert_eq. simpl.
  rewrite Hlast. simpl. unfold rsi_verdict, ret.
  destruct (isna _); [reflexivity|].
  destruct (cle _ _); [reflexivity|].
  destruct (cge _ _); reflexivity.
Qed.

End RsiRun.

Section RsiWindows.
Import Pandas Strategies.
Local Open Scope Q_scope.

Lemma length_diff (s : Series) : length (diff s) = length s.
Proof.
  destruct s as [|x s]; [reflexivity|]. unfold diff.
  rewrite length_cons, length_zip_with, length_cons. lia.
Qed.

Lemma gain_series_cells (s : Series) : gain_series s = map gain_cell (diff s).
Proof. reflexivity. Qed.

Lemma loss_series_cells (s : Series) : loss_series s = map loss_cell (diff s).
Proof. unfold loss_series, where_. now rewrite map_map. Qed.

(** A delta is NaN in the first row and the difference of two neighbours
    everywhere else. *)
Lemma diff_lookup (l : list Q) (j : nat) (d : cell) :
  diff (map Fin l) !! j = Some d ->
  (j = 0%nat /\ d = NaN)
  \/ exists j' x y, j = S j' /\ l !! j' = Some x /\ l !! S j' = Some y
                    /\ d = csub (Fin y) (Fin x).
Proof.
  destruct l as [|a l]; [discriminate|].
  change (diff (map Fin (a :: l)))
    with (NaN :: zip_with (fun prev cur => csub cur prev)
                   (Fin <$> (a :: l)) (Fin <$> l)).
  destruct j as [|j].
  - intros [= <-]. now left.
  - intros H. right.
    change (zip_with (fun prev cur => csub cur prev)
              (Fin <$> (a :: l)) (Fin <$> l) !! j = Some d) in H.
    apply lookup_zip_with_Some in H.
    destruct H as [cx [cy [-> [Hx Hy]]]].
    rewrite list_lookup_fmap in Hx, Hy.
    destruct ((a :: l) !! j) as [x|] eqn:Ex; [|discriminate].
    destruct (l !! j) as [y|] eqn:Ey; [|discriminate].
    simpl in Hx, Hy. injection Hx as <-. injection Hy as <-.
    exists j, x, y. repeat split; auto.
Qed.

Lemma csub_fin (x y : Q) : exists q, csub (Fin y) (Fin x) = Fin q /\ q == y - x.
Proof.
  unfold csub, cneg. destruct (Qeq_bool x 0) eqn:E; simpl.
  - apply Qeq_bool_iff in E. exists y. split; [reflexivity | lra].
  - exists (y + - x). split; [reflexivity | lra].
Qed.

Lemma gain_loss_of_zero (q : Q) :
  q == 0 -> gain_cell (Fin q) = Fin 0 /\ loss_cell (Fin q) = NZero.
Proof.
  intros Hq. unfold gain_cell, loss_cell, cgt, clt. simpl.
  assert (E : (q ?= 0) = Eq) by (apply Qeq_alt; exact Hq).
  rewrite E. split; reflexivity.
Qed.


Lemma filter_all_obs (win : list cell) :
  Forall (fun c => is_obs c = true) win -> List.filter is_obs win = win.
Proof.
  induction 1 as [|c win Hc _ IH]; simpl; [reflexivity|].
  now rewrite Hc, IH.
Qed.

Lemma window_mean_all_obs (w : nat) (win : list cell) :
  (1 <= w)%nat -> length win = w ->
  Forall (fun c => is_obs c = true) win ->
  window_mean w win
  = Fin (Qsum (map cell_value win) / inject_Z (Z.of_nat (length win))).
Proof.
  intros Hw Hlen Hobs. unfold window_mean.
  rewrite (filter_all_obs win Hobs), Hlen.
  assert (H1 : (w <=? w)%nat = true) by (apply Nat.leb_le; lia).
  assert (H2 : (0 <? w)%nat = true) by (apply Nat.ltb_lt; lia).
  rewrite H1, H2. reflexivity.
Qed.

(** A full window of zeros has a zero mean. *)
Lemma window_mean_zero (w : nat) (win : list cell) :
  (1 <= w)%nat -> length win = w ->
  Forall (fun c => c = Fin 0 \/ c = NZero) win ->
  exists q, window_mean w win = Fin q /\ q == 0.
Proof.
  intros Hw Hlen Hz.
  assert (Hobs : Forall (fun c => is_obs c = true) win).
  { eapply Forall_impl; [exact Hz|]. intros c [-> | ->]; reflexivity. }
  rewrite (window_mean_all_obs w win Hw Hlen Hobs).
  eexists. split; [reflexivity|].
  assert (Hsum : Qsum (map cell_value win) == 0).
  { clear Hlen Hobs. induction Hz as [|c win Hc _ IH]; simpl; [reflexivity|].
    rewrite IH. destruct Hc as [-> | ->]; simpl; lra. }
  rewrite Hsum. unfold Qdiv. ring.
Qed.


(** The last cell of a rolling mean over [p] rows, [1 <= p <= length]. *)
Lemma rolling_mean_trailing (p : Z) (s : Series) :
  (1 <= p <= Z.of_nat (length s))%Z ->
  exists r,
    rolling_mean (inject_Z p) s = Ok r
    /\ last r = Some (window_mean (Z.to_nat p)
                        (drop (length s - Z.to_nat p) s)).
Proof.
  intros Hp.
  assert (Hv : validate_window (inject_Z p) = Ok (Z.to_nat p))
    by (apply validate_window_int; lia).
  assert (Hne : s <> []) by (intros ->; simpl in Hp; lia).
  destruct (rolling_mean (inject_Z p) s) as [r|e] eqn:Hr.
  - exists r. split; [reflexivity|].
    rewrite (rolling_mean_last _ _ _ _ Hv Hne Hr).
    unfold window_at.
    replace (length s - 1 + 1)%nat with (length s)
      by (destruct s; [contradiction | simpl; lia]).
    rewrite take_ge by lia. reflexivity.
  - unfold rolling_mean in Hr. rewrite Hv in Hr. discriminate.
Qed.

End RsiWindows.

Section RsiTrailing.
Import Pandas Strategies.

Lemma length_gain_series (s : Series) : length (gain_series s) = length s.
Proof. rewrite gain_series_cells, length_map. apply length_diff. Qed.

Lemma length_loss_series (s : Series) : length (loss_series s) = length s.
Proof. rewrite loss_series_cells, length_map. apply length_diff. Qed.

(** With [period + 1] bars or more, the verdict is computed from the means
    of the last [period] gains and of the last [period] losses. *)
Lemma rsi_full_window (self : RSIStrategy) (candles : list candle) (p : Z) :
  rsi_period self = inject_Z p ->
  1 <= p ->
  p + 1 <= Z.of_nat (length candles) ->
  let cs := map Fin (map close candles) in
  let k := (length candles - Z.to_nat p)%nat in
  let g := window_mean (Z.to_nat p) (drop k (gain_series cs)) in
  let l := window_mean (Z.to_nat p) (drop k (loss_series cs)) in
  exists avg_gain avg_loss rsi,
    RSI.analyze self (DataFrame_of candles)
    = (Ok (rsi_verdict self (RSI.rsi_of g l)),
       {| nrows := length candles;
          columns := <["rsi" := rsi]> (columns (DataFrame_of candles)) |})
    /\ rolling_mean (rsi_period self) (gain_series cs) = Ok avg_gain
    /\ rolling_mean (rsi_period self) (loss_series cs) = Ok avg_loss
    /\ last avg_gain = Some g
    /\ last avg_loss = Some l
    /\ last rsi = Some (RSI.rsi_of g l).
Proof.
  intros Hp Hp1 Hn cs k g l.
  assert (Hne : candles <> []) by (intros ->; simpl in Hn; lia).
  destruct (close_column candles Hne) as [Hclose Hrows].
  assert (Hcol : column_of close candles = cs).
  { unfold column_of, cs. now rewrite map_map. }
  assert (Hlen : length cs = length candles).
  { unfold cs. now rewrite !length_map. }
  destruct (rolling_mean_trailing p (gain_series cs)) as [ag [Hag Hlg]];
    [rewrite length_gain_series, Hlen; lia|].
  destruct (rolling_mean_trailing p (loss_series cs)) as [al [Hal Hll]];
    [rewrite length_loss_series, Hlen; lia|].
  rewrite length_gain_series, Hlen in Hlg.
  rewrite length_loss_series, Hlen in Hll.
  rewrite <- Hp in Hag, Hal. rewrite Hcol in Hclose.
  destruct (rsi_run self (DataFrame_of candles) cs ag al g l) as [Hrun Hlast];
    try assumption.
  - rewrite Hrows. destruct candles; [contradiction | discriminate].
  - unfold Qltb, len. rewrite Hrows, Hp.
    apply negb_false_iff, Qle_bool_iff.
    change 1%Q with (inject_Z 1). rewrite <- inject_Z_plus, <- Zle_Qle. lia.
  - exists ag, al, (zip_with RSI.rsi_of ag al).
    rewrite Hrun, Hrows. repeat split; assumption.
Qed.

(** The cells of the gain and loss series, row by row. *)
Lemma trailing_cells (P : cell -> Prop) (f : cell -> cell) (l : list Q) (k : nat) :
  (forall j d, (k <= j)%nat -> diff (map Fin l) !! j = Some d -> P (f d)) ->
  Forall P (drop k (map f (diff (map Fin l)))).
Proof.
  intros H. apply Forall_lookup. intros i c Hc.
  rewrite lookup_drop in Hc.
  change (map f (diff (map Fin l))) with (f <$> diff (map Fin l)) in Hc.
  rewrite list_lookup_fmap in Hc.
  apply fmap_Some in Hc. destruct Hc as [d [E ->]].
  apply (H (k + i)%nat); [lia | exact E].
Qed.

Lemma flat_cells (l : list Q) (j : nat) (d : cell) :
  flat l -> diff (map Fin l) !! j = Some d ->
  gain_cell d = Fin 0 /\ loss_cell d = NZero.
Proof.
  intros Hflat Hd. destruct (diff_lookup l j d Hd) as [[_ ->] | H].
  - split; reflexivity.
  - destruct H as [j' [x [y [_ [Hx [Hy ->]]]]]].
    destruct (csub_fin x y) as [q [-> Hq]].
    apply gain_loss_of_zero. rewrite Hq.
    pose proof (Hflat j' x y Hx Hy). lra.
Qed.


End RsiTrailing.

Section RsiVerdicts.
Import Pandas Strategies.
Local Open Scope Q_scope.

(** [0 / 0] is NaN, and so is the RSI computed from it. *)
Lemma rsi_of_zero_zero (g z : Q) :
  g == 0 -> z == 0 -> RSI.rsi_of (Fin g) (Fin z) = NaN.
Proof.
  intros Hg Hz. unfold RSI.rsi_of, cdiv at 2. simpl.
  assert (Eg : Qeq_bool g 0 = true) by (apply Qeq_bool_iff; exact Hg).
  assert (Ez : Qeq_bool z 0 = true) by (apply Qeq_bool_iff; exact Hz).
  rewrite Eg, Ez. reflexivity.
Qed.

(** A positive average gain over a zero average loss gives the RSI 100. *)
Lemma rsi_of_positive_zero (g z : Q) :
  0 < g -> z == 0 -> RSI.rsi_of (Fin g) (Fin z) = Fin 100.
Proof.
  intros Hg Hz. unfold RSI.rsi_of, cdiv at 2. simpl.
  assert (Eg : Qeq_bool g 0 = false).
  { apply not_true_is_false. intros E. apply Qeq_bool_iff in E. lra. }
  assert (Ez : Qeq_bool z 0 = true) by (apply Qeq_bool_iff; exact Hz).
  assert (Sg : Qltb g 0 = false).
  { unfold Qltb. apply negb_false_iff, Qle_bool_iff. lra. }
  assert (Sz : Qltb z 0 = false).
  { unfold Qltb. apply negb_false_iff, Qle_bool_iff. lra. }
  rewrite Eg, Ez, Sg, Sz. reflexivity.
Qed.

(** The same with the negative zero: the sign of the zero does not matter. *)
Lemma rsi_of_positive_negative_zero (g : Q) :
  0 < g -> ceq (RSI.rsi_of (Fin g) NZero) (Fin 100) = true.
Proof.
  intros Hg. unfold RSI.rsi_of, cdiv at 2. simpl.
  assert (Eg : Qeq_bool g 0 = false).
  { apply not_true_is_false. intros E. apply Qeq_bool_iff in E. lra. }
  assert (Sg : Qltb g 0 = false).
  { unfold Qltb. apply negb_false_iff, Qle_bool_iff. lra. }
  rewrite Eg, Sg. reflexivity.
Qed.


End RsiVerdicts.

(** With the default RSI configuration (period 14, overbought 70 <= 100) and
    fifteen flat bars, the last RSI cell is NaN, not 100, and the answer is
    [None], not ["put"]. *)
Lemma rsi_flat_series_is_not_put :
  let run :=
    Strategies.RSI.analyze (Strategies.RSI.new None)
      (Pandas.DataFrame_of (map bar (repeat 1%Q 15))) in
  fst run = Ok None
  /\ fst run <> Ok (Some put)
  /\ (exists rsi, Pandas.columns (snd run) !! "rsi" = Some rsi
                  /\ last rsi = Some NaN).
Proof.
  intros run.
  assert (H : fst run = Ok None) by (vm_compute; reflexivity).
  split; [exact H | split].
  - rewrite H. discriminate.
  - eexists. split; vm_compute; reflexivity.
Qed.

(** C3 (amended). For every flat series of at least [period + 1] bars
    ([period >= 1]), the average gain and the average loss of the last row
    are both zero, [0 / 0] makes the last RSI cell NaN (there is no zero-loss
    rule), and the RSI strategy returns [None]. *)
Theorem rsi_flat_series_gives_no_signal (self : Strategies.RSIStrategy)
    (candles : list Pandas.candle) (p : Z) :
  Strategies.rsi_period self = inject_Z p ->
  1 <= p ->
  p + 1 <= Z.of_nat (length candles) ->
  flat (map Pandas.close candles) ->
  let closes := Pandas.column_of Pandas.close candles in
  let run := Strategies.RSI.analyze self (Pandas.DataFrame_of candles) in
  exists avg_gain avg_loss rsi g z,
    Pandas.rolling_mean (Strategies.rsi_period self) (gain_series closes)
      = Ok avg_gain
    /\ Pandas.rolling_mean (Strategies.rsi_period self) (loss_series closes)
       = Ok avg_loss
    /\ last avg_gain = Some (Fin g) /\ (g == 0)%Q
    /\ last avg_loss = Some (Fin z) /\ (z == 0)%Q
    /\ Pandas.columns (snd run) !! "rsi" = Some rsi
    /\ last rsi = Some NaN
    /\ fst run = Ok None.
Proof.
  intros Hp Hp1 Hn Hflat closes run.
  destruct (rsi_full_window self candles p Hp Hp1 Hn)
    as [ag [al [rsi [Hrun [Hag [Hal [Hlg [Hll Hlr]]]]]]]].
  set (cs := map Fin (map Pandas.close candles)) in *.
  set (k := (length candles - Z.to_nat p)%nat) in *.
  assert (Hcs : closes = cs).
  { unfold closes, Pandas.column_of, cs. now rewrite map_map. }
  assert (Hlen : length cs = length candles).
  { unfold cs. now rewrite !length_map. }
  destruct (window_mean_zero (Z.to_nat p) (drop k (gain_series cs)))
    as [g [Hg Hg0]].
  { lia. }
  { rewrite length_drop, length_gain_series, Hlen. unfold k. lia. }
  { rewrite gain_series_cells. apply trailing_cells. intros j d _ Hd.
    left. eapply flat_cells; eassumption. }
  destruct (window_mean_zero (Z.to_nat p) (drop k (loss_series cs)))
    as [z [Hz Hz0]].
  { lia. }
  { rewrite length_drop, length_loss_series, Hlen. unfold k. lia. }
  { rewrite loss_series_cells. apply trailing_cells. intros j d _ Hd.
    right. eapply flat_cells; eassumption. }
  rewrite Hg in Hrun, Hlg, Hlr. rewrite Hz in Hrun, Hll, Hlr.
  rewrite (rsi_of_zero_zero g z Hg0 Hz0) in Hrun, Hlr.
  exists ag, al, rsi, g, z. rewrite Hcs.
  unfold run. rewrite Hrun. simpl fst. simpl snd. simpl Pandas.columns.
  rewrite lookup_insert_eq. repeat split; assumption.
Qed.

Lemma rsi_flat_series_gives_no_signal_witness :
  fst (Strategies.RSI.analyze (Strategies.RSI.new None)
         (Pandas.DataFrame_of (map bar (repeat 1%Q 15))))
  = Ok None.
Proof.
  destruct (rsi_flat_series_gives_no_signal (Strategies.RSI.new None)
              (map bar (repeat 1%Q 15)) 14)
    as [ag [al [rsi [g [z H]]]]];
    [reflexivity | lia | simpl; lia | | apply H].
  intros i x y Hx Hy.
  do 15 (destruct i as [|i];
         [vm_compute in Hx, Hy;
          first [discriminate
                | injection Hx as <-; injection Hy as <-; reflexivity]|]).
  discriminate.
Defined.



(** ** Remarks on the edges of the properties above *)

(** Asked for a stake after a loss before any trade was recorded, the
    function fails on [self.trade_history[-1]]; the session loop only calls
    it with a history that is not empty. *)
Example empty_history_raises_index_error :
  fst (PocketOptionBot.calculate_martingale_amount PocketOptionBot.loss
         (new_bot true 2.1%float 5))
  = Raise IndexError.
Proof. vm_compute. reflexivity. Qed.

(** With a maximal level of 0 the loop does not run and the ladder keeps its
    first rung. *)
Example ladder_of_level_zero :
  PocketOptionBot.build_stack 1%float 2.1%float 0 = Ok [1%float].
Proof. reflexivity. Qed.

(** With [oversold = 100] the first test of [analyze] already answers
    ["call"] on an RSI of 100. *)
Example rsi_all_gains_with_oversold_100_is_call :
  fst (Strategies.RSI.analyze
         {| Strategies.rsi_parameters := ∅; Strategies.rsi_period := 3;
            Strategies.overbought := 100; Strategies.oversold := 100 |}
         (Pandas.DataFrame_of (map bar [5; 1; 2; 3; 4]%Q)))
  = Ok (Some call).
Proof. vm_compute. reflexivity. Qed.

(** * Further properties of the code *)

(** ** One pass of the trading loop *)

Section Cycle.
Import PocketOptionBot.

Lemma same_settings_refl (b : bot) : same_settings b b.
Proof. repeat split. Qed.

Lemma same_settings_trans (b1 b2 b3 : bot) :
  same_settings b1 b2 -> same_settings b2 b3 -> same_settings b1 b3.
Proof.
  unfold same_settings. intros H1 H2.
  destruct H1 as (?&?&?&?&?&?&?&?&?&?&?), H2 as (?&?&?&?&?&?&?&?&?&?&?).
  repeat split; congruence.
Qed.

Lemma with_stack_id (b : bot) : with_stack b (martingale_stack b) = b.
Proof. destruct b. reflexivity. Qed.

(** The state after [calculate_martingale_amount]: only the stack can have
    changed, and only from empty to the ladder of the configuration. *)
Lemma calculate_state (res : status) (b : bot) :
  exists st,
    snd (calculate_martingale_amount res b) = with_stack b st
    /\ (st = martingale_stack b
        \/ (martingale_stack b = [] /\ martingale_enabled b = true
            /\ build_stack (trade_amount b) (martingale_coefficient b)
                 (max_martingale_level b) = Ok st)).
Proof.
  unfold calculate_martingale_amount.
  destruct (martingale_enabled b) eqn:Hen; simpl.
  - destruct (martingale_stack b) as [|x st] eqn:Hst.
    + destruct (build_stack_ladder (trade_amount b) (martingale_coefficient b)
                  (max_martingale_level b)) as [st [Hb _]].
      rewrite Hb. exists st. split.
      * destruct (status_eqb res win); [reflexivity|].
        destruct (getitem _ _); reflexivity.
      * right. auto.
    + exists (x :: st). split; [|now left].
      destruct (status_eqb res win); [reflexivity|].
      destruct (getitem _ _); reflexivity.
  - exists (martingale_stack b). split; [|now left].
    now rewrite with_stack_id.
Qed.

Lemma check_after_record (d : signal) (a : float) (res : status) (b : bot) :
  trade_history (check_trade_result res (record_trade d a b))
  = trade_history b ++ [settled_trade d a res b]
  /\ daily_trades (check_trade_result res (record_trade d a b))
     = daily_trades b + 1
  /\ same_settings b (check_trade_result res (record_trade d a b))
  /\ martingale_stack (check_trade_result res (record_trade d a b))
     = martingale_stack b.
Proof.
  unfold check_trade_result.
  set (t := settled_trade d a pending b).
  assert (Hh : trade_history (record_trade d a b) = trade_history b ++ [t])
    by reflexivity.
  rewrite (getitem_last _ t) by (rewrite Hh; apply last_snoc).
  simpl. rewrite removelast_last. repeat split.
Qed.

End Cycle.

Section CycleCases.
Import PocketOptionBot.

(** The stake that a pass asks for, as the loop computes it. *)
Lemma cycle_amount (b : bot) :
  exists r b1 st,
    match trade_history b with
    | _ :: _ =>
        if martingale_enabled b then
          match getitem (trade_history b) (-1) with
          | Ok last_trade => calculate_martingale_amount (t_status last_trade) b
          | Raise e => (Raise e, b)
          end
        else (Ok (trade_amount b), b)
    | [] => (Ok (trade_amount b), b)
    end = (r, b1)
    /\ b1 = with_stack b st
    /\ (st = martingale_stack b
        \/ (martingale_stack b = [] /\ martingale_enabled b = true
            /\ build_stack (trade_amount b) (martingale_coefficient b)
                 (max_martingale_level b) = Ok st))
    /\ (martingale_enabled b = false \/ trade_history b = [] ->
        r = Ok (trade_amount b))
    /\ (martingale_enabled b = true ->
        forall t, last (trade_history b) = Some t ->
                  r = fst (calculate_martingale_amount (t_status t) b)).
Proof.
  destruct (trade_history b) as [|t0 h] eqn:Hh.
  - exists (Ok (trade_amount b)), b, (martingale_stack b).
    rewrite with_stack_id. repeat split; auto. intros _ t Ht. discriminate.
  - destruct (martingale_enabled b) eqn:Hen.
    + assert (Hl : is_Some (last (t0 :: h))).
      { rewrite last_lookup. apply lookup_lt_is_Some. simpl. lia. }
      destruct Hl as [t Ht]. rewrite (getitem_last _ t Ht).
      destruct (calculate_state (t_status t) b) as [st [Hs Hst]].
      exists (fst (calculate_martingale_amount (t_status t) b)),
             (snd (calculate_martingale_amount (t_status t) b)), st.
      split; [now destruct (calculate_martingale_amount _ _)|].
      split; [exact Hs|]. split; [rewrite Hen in Hst; exact Hst|].
      split.
      * intros [H|H]; discriminate.
      * intros _ t' Ht'. congruence.
    + exists (Ok (trade_amount b)), b, (martingale_stack b).
      rewrite with_stack_id. repeat split; auto. intros H; discriminate.
Qed.

(** What one pass does: it leaves the settings alone, the stack changes only
    from empty to the ladder, and either nothing is recorded or exactly one
    settled trade is appended to the history. *)
Lemma trading_cycle_cases (dir : option signal) (ui : bool) (res : status)
    (b : bot) :
  exists a b',
    trading_cycle dir ui res b = (a, b')
    /\ same_settings b b'
    /\ (martingale_stack b' = martingale_stack b
        \/ (martingale_stack b = [] /\ martingale_enabled b = true
            /\ build_stack (trade_amount b) (martingale_coefficient b)
                 (max_martingale_level b) = Ok (martingale_stack b')))
    /\ match a with
       | None =>
           trade_history b' = trade_history b
           /\ daily_trades b' = daily_trades b
           /\ daily_loss b' = daily_loss b
       | Some x =>
           exists d,
             dir = Some d /\ ui = true
             /\ daily_trades b < max_daily_trades b
             /\ trade_history b' = trade_history b ++ [settled_trade d x res b]
             /\ daily_trades b' = daily_trades b + 1
             /\ (martingale_enabled b = false \/ trade_history b = [] ->
                 x = trade_amount b)
             /\ (martingale_enabled b = true ->
                 forall t, last (trade_history b) = Some t ->
                   fst (calculate_martingale_amount (t_status t) b) = Ok x)
       end.
Proof.
  unfold trading_cycle.
  destruct (max_daily_trades b <=? daily_trades b) eqn:Hcap.
  { exists None, b. repeat split; auto. }
  destruct (PrimFloat.leb (max_daily_loss b) (daily_loss b)) eqn:Hloss.
  { exists None, b. repeat split; auto. }
  destruct dir as [d|]; [|exists None, b; repeat split; auto].
  destruct (cycle_amount b) as [r [b1 [st [Hamt [Hb1 [Hst [Hbase Hcalc]]]]]]].
  rewrite Hamt.
  assert (Hset : same_settings b b1) by (rewrite Hb1; repeat split).
  assert (Hstack : martingale_stack b1 = martingale_stack b
                   \/ (martingale_stack b = [] /\ martingale_enabled b = true
                       /\ build_stack (trade_amount b) (martingale_coefficient b)
                            (max_martingale_level b) = Ok (martingale_stack b1))).
  { rewrite Hb1. simpl. destruct Hst as [-> | H]; [now left | now right]. }
  assert (Hh1 : trade_history b1 = trade_history b) by (now rewrite Hb1).
  assert (Hdt1 : daily_trades b1 = daily_trades b) by (now rewrite Hb1).
  assert (Hdl1 : daily_loss b1 = daily_loss b) by (now rewrite Hb1).
  destruct r as [x|e].
  2:{ exists None, b1. split; [reflexivity|]. split; [exact Hset|].
      split; [exact Hstack|]. repeat split; assumption. }
  unfold place_trade.
  assert (Hcap1 : (max_daily_trades b1 <=? daily_trades b1) = false)
    by (rewrite Hb1; exact Hcap).
  assert (Hloss1 : PrimFloat.leb (max_daily_loss b1) (daily_loss b1) = false)
    by (rewrite Hb1; exact Hloss).
  rewrite Hcap1, Hloss1.
  destruct ui.
  2:{ exists None, b1. split; [reflexivity|]. split; [exact Hset|].
      split; [exact Hstack|]. repeat split; assumption. }
  destruct (check_after_record d x res b1) as [Hh [Hdt [Hs' Hst']]].
  exists (Some x), (check_trade_result res (record_trade d x b1)).
  split; [reflexivity|]. split; [eapply same_settings_trans; eassumption|].
  split; [rewrite Hst'; exact Hstack|].
  exists d. apply Z.leb_gt in Hcap.
  repeat split; auto.
  - rewrite Hh, Hb1. reflexivity.
  - rewrite Hdt, Hdt1. reflexivity.
  - intros H. specialize (Hbase H). congruence.
  - intros Hen t Ht. rewrite <- (Hcalc Hen t Ht). reflexivity.
Qed.

End CycleCases.

(** ** The trading loop *)

Section Loop.
Import PocketOptionBot Session.

Lemma run_cycles_cons (i : cycle_input) (rest : list cycle_input) (b : bot) :
  let step := trading_cycle (ci_direction i) (ci_ui_ok i) (ci_result i) b in
  run_cycles (i :: rest) b
  = (fst step :: fst (run_cycles rest (snd step)),
     snd (run_cycles rest (snd step))).
Proof.
  simpl. destruct (trading_cycle _ _ _ b) as [a b1]. simpl.
  destruct (run_cycles rest b1) as [l b2]. reflexivity.
Qed.

(** A property of the state that every pass keeps holds after the loop. *)
Lemma run_cycles_invariant (P : bot -> Prop) :
  (forall dir ui res b, P b -> P (snd (trading_cycle dir ui res b))) ->
  forall inputs b, P b -> P (snd (run_cycles inputs b)).
Proof.
  intros Hstep inputs. induction inputs as [|i rest IH]; intros b Hb.
  - exact Hb.
  - rewrite run_cycles_cons. simpl. apply IH, Hstep, Hb.
Qed.

(** A property of the stakes that every pass from a good state ensures
    holds for all the stakes of the loop. *)
Lemma run_cycles_stakes (P : bot -> Prop) (S : option float -> Prop) :
  (forall dir ui res b, P b -> P (snd (trading_cycle dir ui res b))) ->
  (forall dir ui res b, P b -> S (fst (trading_cycle dir ui res b))) ->
  forall inputs b, P b -> Forall S (fst (run_cycles inputs b)).
Proof.
  intros Hstep Hstake inputs. induction inputs as [|i rest IH]; intros b Hb.
  - constructor.
  - rewrite run_cycles_cons. simpl. constructor.
    + apply Hstake, Hb.
    + apply IH, Hstep, Hb.
Qed.

Lemma cycle_same_settings dir ui res (b : bot) :
  same_settings b (snd (trading_cycle dir ui res b)).
Proof.
  destruct (trading_cycle_cases dir ui res b) as [a [b' [-> [H _]]]]. exact H.
Qed.

Lemma cycle_stack_inv dir ui res (b : bot) :
  stack_inv b -> stack_inv (snd (trading_cycle dir ui res b)).
Proof.
  intros Hinv.
  destruct (trading_cycle_cases dir ui res b)
    as [a [b' [-> [Hset [Hstack _]]]]]. simpl.
  destruct Hset as (_&Ha&_&_&Hc&Hm&_).
  unfold stack_inv. rewrite Ha, Hc, Hm.
  destruct Hstack as [-> | [_ [_ Hb]]]; [exact Hinv | now right].
Qed.

Lemma cycle_stack_kept dir ui res (b : bot) :
  martingale_stack b <> [] ->
  martingale_stack (snd (trading_cycle dir ui res b)) = martingale_stack b.
Proof.
  intros Hne.
  destruct (trading_cycle_cases dir ui res b) as [a [b' [-> [_ [Hstack _]]]]].
  simpl. destruct Hstack as [H | [H _]]; [exact H | contradiction].
Qed.

End Loop.

(** X1. A run of the trading loop never changes the settings of the bot
    (asset, base stake, expiry, martingale switch, coefficient, maximal
    level, daily limits, strategy). *)
Theorem run_cycles_keeps_settings (inputs : list Session.cycle_input)
    (b : PocketOptionBot.bot) :
  same_settings b (snd (Session.run_cycles inputs b)).
Proof.
  apply (run_cycles_invariant (same_settings b)).
  - intros dir ui res b1 H.
    eapply same_settings_trans; [exact H | apply cycle_same_settings].
  - apply same_settings_refl.
Qed.

(** X2. The martingale stack of a bot stays either empty or the ladder of
    its configuration through every run of the loop, and once it is
    materialized no pass changes it. *)
Theorem run_cycles_ladder_immutable (inputs : list Session.cycle_input)
    (b : PocketOptionBot.bot) :
  stack_inv b ->
  stack_inv (snd (Session.run_cycles inputs b))
  /\ (PocketOptionBot.martingale_stack b <> [] ->
      PocketOptionBot.martingale_stack (snd (Session.run_cycles inputs b))
      = PocketOptionBot.martingale_stack b).
Proof.
  intros Hinv. split.
  - apply (run_cycles_invariant stack_inv); [|exact Hinv].
    intros dir ui res b1. apply cycle_stack_inv.
  - intros Hne.
    apply (run_cycles_invariant
             (fun b' => PocketOptionBot.martingale_stack b'
                        = PocketOptionBot.martingale_stack b));
      [|reflexivity].
    intros dir ui res b1 H. rewrite <- H. apply cycle_stack_kept. congruence.
Qed.

Lemma run_cycles_ladder_immutable_witness :
  stack_inv
    (snd (Session.run_cycles
            [{| Session.ci_direction := Some call; Session.ci_ui_ok := true;
                Session.ci_result := PocketOptionBot.loss |};
             {| Session.ci_direction := Some put; Session.ci_ui_ok := true;
                Session.ci_result := PocketOptionBot.win |}]
            (new_bot true 2.1%float 5))).
Proof.
  apply run_cycles_ladder_immutable. left. reflexivity.
Defined.

Section Bookkeeping.
Import PocketOptionBot Session.

Lemma placed_cons (a : option float) (l : list (option float)) :
  placed (a :: l)
  = (match a with Some _ => 1 | None => 0 end + placed l)%nat.
Proof. unfold placed. simpl. destruct a; reflexivity. Qed.

Lemma cycle_daily_cap (M d0 : Z) dir ui res (b : bot) :
  max_daily_trades b = M /\ daily_trades b <= Z.max d0 M ->
  max_daily_trades (snd (trading_cycle dir ui res b)) = M
  /\ daily_trades (snd (trading_cycle dir ui res b)) <= Z.max d0 M.
Proof.
  intros [HM Hd].
  destruct (trading_cycle_cases dir ui res b) as [a [b' [-> [Hset [_ Ha]]]]].
  simpl. destruct Hset as (_&_&_&_&_&_&_&Hmax&_).
  split; [congruence|].
  destruct a as [x|].
  - destruct Ha as [d [_ [_ [Hlt [_ [Hdt _]]]]]]. lia.
  - destruct Ha as [_ [Hdt _]]. lia.
Qed.

End Bookkeeping.

(** X3. A run of the loop only appends to the trade history: the history
    before is a prefix of the history after, the number of appended trades
    is the number of passes that placed a trade, and [daily_trades] grows by
    the same number. *)
Theorem run_cycles_appends (inputs : list Session.cycle_input)
    (b : PocketOptionBot.bot) :
  let stakes := fst (Session.run_cycles inputs b) in
  let b' := snd (Session.run_cycles inputs b) in
  exists new,
    PocketOptionBot.trade_history b' = PocketOptionBot.trade_history b ++ new
    /\ length new = Session.placed stakes
    /\ PocketOptionBot.daily_trades b'
       = PocketOptionBot.daily_trades b + Z.of_nat (Session.placed stakes).
Proof.
  revert b. induction inputs as [|i rest IH]; intros b.
  - exists []. unfold Session.placed. simpl. rewrite app_nil_r.
    repeat split; lia.
  - rewrite run_cycles_cons. simpl.
    destruct (trading_cycle_cases (Session.ci_direction i) (Session.ci_ui_ok i)
                (Session.ci_result i) b) as [a [b1 [E [_ [_ Ha]]]]].
    rewrite E. simpl.
    destruct (IH b1) as [new [Hh [Hlen Hdt]]].
    rewrite placed_cons.
    destruct a as [x|].
    + destruct Ha as [d [_ [_ [_ [Hh1 [Hdt1 _]]]]]].
      exists (settled_trade d x (Session.ci_result i) b :: new).
      rewrite Hh, Hh1, Hdt, Hdt1, <- app_assoc. simpl.
      repeat split; lia.
    + destruct Ha as [Hh1 [Hdt1 _]].
      exists new. rewrite Hh, Hh1, Hdt, Hdt1. repeat split; lia.
Qed.

(** X4. Once the daily trade limit is reached, the loop places no trade and
    leaves the bot as it is, whatever the strategy answers. *)
Theorem run_cycles_stops_at_daily_limit (inputs : list Session.cycle_input)
    (b : PocketOptionBot.bot) :
  PocketOptionBot.max_daily_trades b <= PocketOptionBot.daily_trades b ->
  Session.run_cycles inputs b = (repeat None (length inputs), b).
Proof.
  intros Hcap. induction inputs as [|i rest IH]; [reflexivity|].
  simpl. unfold PocketOptionBot.trading_cycle.
  assert (H : (PocketOptionBot.max_daily_trades b
               <=? PocketOptionBot.daily_trades b) = true)
    by (apply Z.leb_le; exact Hcap).
  rewrite H, IH. reflexivity.
Qed.

Lemma run_cycles_stops_at_daily_limit_witness :
  Session.run_cycles
    [{| Session.ci_direction := Some call; Session.ci_ui_ok := true;
        Session.ci_result := PocketOptionBot.win |}]
    (PocketOptionBot.with_session (new_bot false 2.1%float 5) [] 0%float 20)
  = ([None],
     PocketOptionBot.with_session (new_bot false 2.1%float 5) [] 0%float 20).
Proof.
  apply (run_cycles_stops_at_daily_limit
           [{| Session.ci_direction := Some call; Session.ci_ui_ok := true;
               Session.ci_result := PocketOptionBot.win |}]).
  simpl. lia.
Defined.

(** X5. A trading session never places more trades than [max_daily_trades]
    (none if the limit is not positive), whatever the counters of the bot
    were before: the session resets them and every pass checks the limit. *)
Theorem session_respects_daily_limit (login_ok select_ok : bool)
    (inputs : list Session.cycle_input) (b : PocketOptionBot.bot) :
  Z.of_nat (Session.placed
              (fst (Session.run_trading_session login_ok select_ok inputs b)))
  <= Z.max 0 (PocketOptionBot.max_daily_trades b).
Proof.
  unfold Session.run_trading_session.
  destruct login_ok; simpl; [|unfold Session.placed; simpl; lia].
  destruct select_ok; simpl; [|unfold Session.placed; simpl; lia].
  set (b0 := PocketOptionBot.with_session b (PocketOptionBot.trade_history b)
               0%float 0).
  destruct (run_cycles_appends inputs b0) as [new [_ [_ Hdt]]].
  pose proof (run_cycles_invariant
                (fun b' => PocketOptionBot.max_daily_trades b'
                           = PocketOptionBot.max_daily_trades b
                           /\ PocketOptionBot.daily_trades b'
                              <= Z.max 0 (PocketOptionBot.max_daily_trades b))
                (cycle_daily_cap (PocketOptionBot.max_daily_trades b) 0)
                inputs b0) as Hcap.
  destruct Hcap as [_ Hcap]; [split; [reflexivity | simpl; lia]|].
  simpl in Hdt. lia.
Qed.

Section Stakes.
Import PocketOptionBot Session.

Lemma getitem_elem {A : Type} (l : list A) (i : Z) (x : A) :
  getitem l i = Ok x -> x ∈ l.
Proof.
  unfold getitem. cbv zeta.
  destruct (_ && _); [|discriminate].
  destruct (l !! _) as [a|] eqn:E; [|discriminate].
  intros [= <-]. apply list_elem_of_lookup. eauto.
Qed.

(** Whatever [calculate_martingale_amount] returns is a rung of the ladder
    of the configuration. *)
Lemma calculate_in_ladder (res : status) (b : bot) (x : float) :
  stack_inv b ->
  fst (calculate_martingale_amount res b) = Ok x ->
  exists ladder,
    build_stack (trade_amount b) (martingale_coefficient b)
      (max_martingale_level b) = Ok ladder
    /\ x ∈ ladder.
Proof.
  intros Hinv.
  destruct (materialized_ladder b Hinv) as [st [Hm [Hb [_ [H0 _]]]]].
  unfold calculate_martingale_amount.
  destruct (martingale_enabled b); simpl.
  - rewrite Hm.
    destruct (status_eqb res win); simpl.
    + intros H. exists st. split; [exact Hb | eapply getitem_elem; exact H].
    + destruct (getitem (trade_history _) _); simpl; [|discriminate].
      intros H. exists st. split; [exact Hb | eapply getitem_elem; exact H].
  - intros [= <-]. exists st. split; [exact Hb|].
    apply list_elem_of_lookup. eauto.
Qed.

End Stakes.

(** X6. With martingale disabled, every stake that a run of the loop asks
    for is the base stake [trade_amount]. *)
Theorem run_cycles_flat_stakes (inputs : list Session.cycle_input)
    (b : PocketOptionBot.bot) :
  PocketOptionBot.martingale_enabled b = false ->
  Forall (fun a => forall x, a = Some x -> x = PocketOptionBot.trade_amount b)
    (fst (Session.run_cycles inputs b)).
Proof.
  intros Hoff.
  apply (run_cycles_stakes
           (fun b' => PocketOptionBot.martingale_enabled b' = false
                      /\ PocketOptionBot.trade_amount b'
                         = PocketOptionBot.trade_amount b)).
  - intros dir ui res b1 [Hen Hamt].
    destruct (cycle_same_settings dir ui res b1) as (_&Ha&_&He&_).
    split; congruence.
  - intros dir ui res b1 [Hen Hamt] x Hx.
    destruct (trading_cycle_cases dir ui res b1) as [a [b' [E [_ [_ Ha]]]]].
    rewrite E in Hx. simpl in Hx. subst a.
    destruct Ha as [d [_ [_ [_ [_ [_ [Hbase _]]]]]]].
    rewrite <- Hamt. apply Hbase. now left.
  - split; [exact Hoff | reflexivity].
Qed.

Lemma run_cycles_flat_stakes_witness :
  Forall (fun a => forall x, a = Some x -> x = 1%float)
    (fst (Session.run_cycles
            [{| Session.ci_direction := Some call; Session.ci_ui_ok := true;
                Session.ci_result := PocketOptionBot.loss |};
             {| Session.ci_direction := Some put; Session.ci_ui_ok := true;
                Session.ci_result := PocketOptionBot.loss |}]
            (new_bot false 2.1%float 5))).
Proof.
  apply (run_cycles_flat_stakes _ (new_bot false 2.1%float 5)). reflexivity.
Defined.

(** X7. Every stake that a run of the loop asks for is a rung of the ladder
    built from the base stake, the coefficient and the maximal level of the
    bot (the first rung is the base stake). *)
Theorem run_cycles_stakes_on_ladder (inputs : list Session.cycle_input)
    (b : PocketOptionBot.bot) :
  stack_inv b ->
  exists ladder,
    PocketOptionBot.build_stack (PocketOptionBot.trade_amount b)
      (PocketOptionBot.martingale_coefficient b)
      (PocketOptionBot.max_martingale_level b) = Ok ladder
    /\ ladder !! 0%nat = Some (PocketOptionBot.trade_amount b)
    /\ Forall (fun a => forall x, a = Some x -> x ∈ ladder)
         (fst (Session.run_cycles inputs b)).
Proof.
  intros Hinv.
  destruct (materialized_ladder b Hinv) as [ladder [_ [Hb [_ [H0 _]]]]].
  exists ladder. split; [exact Hb|]. split; [exact H0|].
  apply (run_cycles_stakes
           (fun b' => same_settings b b' /\ stack_inv b')).
  - intros dir ui res b1 [Hset Hi]. split.
    + eapply same_settings_trans; [exact Hset | apply cycle_same_settings].
    + now apply cycle_stack_inv.
  - intros dir ui res b1 [Hset Hi] x Hx.
    destruct Hset as (_&Hamt&_&_&Hc&Hm&_).
    destruct (trading_cycle_cases dir ui res b1) as [a [b' [E [_ [_ Ha]]]]].
    rewrite E in Hx. simpl in Hx. subst a.
    destruct Ha as [d [_ [_ [_ [_ [_ [Hbase Hcalc]]]]]]].
    destruct (PocketOptionBot.martingale_enabled b1) eqn:Hen.
    + destruct (PocketOptionBot.trade_history b1) as [|t0 h] eqn:Hh.
      * rewrite (Hbase (or_intror eq_refl)), Hamt.
        apply list_elem_of_lookup. eauto.
      * assert (Hl : is_Some (last (t0 :: h))).
        { rewrite last_lookup. apply lookup_lt_is_Some. simpl. lia. }
        destruct Hl as [t Ht].
        destruct (calculate_in_ladder _ b1 x Hi (Hcalc eq_refl t Ht))
          as [st [Hst Hin]].
        rewrite Hamt, Hc, Hm, Hb in Hst. now injection Hst as <-.
    + rewrite (Hbase (or_introl eq_refl)), Hamt.
      apply list_elem_of_lookup. eauto.
  - split; [apply same_settings_refl | exact Hinv].
Qed.

Lemma run_cycles_stakes_on_ladder_witness :
  exists ladder : list float,
    ladder !! 0%nat = Some 1%float
    /\ Forall (fun a => forall x, a = Some x -> x ∈ ladder)
         (fst (Session.run_cycles
                 [{| Session.ci_direction := Some call; Session.ci_ui_ok := true;
                     Session.ci_result := PocketOptionBot.loss |};
                  {| Session.ci_direction := Some put; Session.ci_ui_ok := true;
                     Session.ci_result := PocketOptionBot.loss |}]
                 (new_bot true 2.1%float 5))).
Proof.
  destruct (run_cycles_stakes_on_ladder
              [{| Session.ci_direction := Some call; Session.ci_ui_ok := true;
                  Session.ci_result := PocketOptionBot.loss |};
               {| Session.ci_direction := Some put; Session.ci_ui_ok := true;
                  Session.ci_result := PocketOptionBot.loss |}]
              (new_bot true 2.1%float 5)) as [ladder [_ H]];
    [left; reflexivity|].
  exists ladder. exact H.
Defined.

Section Levels.
Import PocketOptionBot Session.

Lemma count_losses_snoc (h : list trade) (t : trade) :
  count_losses (h ++ [t])
  = (count_losses h + if status_eqb (t_status t) loss then 1 else 0)%nat.
Proof.
  unfold count_losses. rewrite List.filter_app, length_app. simpl.
  destruct (status_eqb (t_status t) loss); reflexivity.
Qed.

Lemma levels_ok_snoc (enabled : bool) (h : list trade) (t : trade) :
  levels_ok enabled h ->
  t_martingale_level t = (if enabled then count_losses h else 0%nat) ->
  levels_ok enabled (h ++ [t]).
Proof.
  intros Hh Ht i t' Hi.
  destruct (decide (i < length h)%nat) as [Hlt|Hge].
  - rewrite lookup_app_l in Hi by exact Hlt.
    rewrite take_app_le by lia. apply Hh, Hi.
  - assert (Hlen : (i < length (h ++ [t]))%nat) by (eapply lookup_lt_Some; eauto).
    rewrite length_app in Hlen. simpl in Hlen.
    assert (i = length h) by lia. subst i.
    rewrite lookup_app_r in Hi by lia.
    replace (length h - length h)%nat with 0%nat in Hi by lia.
    injection Hi as <-.
    rewrite take_app_le by lia. rewrite take_ge by lia. exact Ht.
Qed.

Lemma cycle_levels_ok (en : bool) dir ui res (b : bot) :
  martingale_enabled b = en /\ levels_ok en (trade_history b) ->
  martingale_enabled (snd (trading_cycle dir ui res b)) = en
  /\ levels_ok en (trade_history (snd (trading_cycle dir ui res b))).
Proof.
  intros [Hen Hl].
  destruct (trading_cycle_cases dir ui res b) as [a [b' [-> [Hset [_ Ha]]]]].
  simpl. destruct Hset as (_&_&_&He&_). split; [congruence|].
  destruct a as [x|].
  - destruct Ha as [d [_ [_ [_ [Hh _]]]]]. rewrite Hh.
    apply levels_ok_snoc; [exact Hl|].
    simpl. unfold new_martingale_level. now rewrite Hen.
  - destruct Ha as [Hh _]. now rewrite Hh.
Qed.

(** The stake after a result that is not a win, from the level of the last
    trade. *)
Lemma calculate_after_non_win (res : status) (b : bot) (t : trade) :
  martingale_enabled b = true ->
  1 <= max_martingale_level b ->
  stack_inv b ->
  last (trade_history b) = Some t ->
  status_eqb res win = false ->
  exists ladder amount,
    build_stack (trade_amount b) (martingale_coefficient b)
      (max_martingale_level b) = Ok ladder
    /\ fst (calculate_martingale_amount res b) = Ok amount
    /\ ladder !! Z.to_nat (Z.min (Z.of_nat (t_martingale_level t) + 1)
                             (max_martingale_level b - 1)) = Some amount.
Proof.
  intros Hen Hmax Hinv Hlast Hres.
  destruct (materialized_ladder b Hinv) as [st [Hm [Hb [Hlen _]]]].
  set (k := Z.min (Z.of_nat (t_martingale_level t) + 1)
              (max_martingale_level b - 1)).
  assert (Hin : is_Some (st !! Z.to_nat k)).
  { apply lookup_lt_is_Some. rewrite Hlen. unfold k. lia. }
  destruct Hin as [amount Hamount].
  exists st, amount. split; [exact Hb|]. split; [|exact Hamount].
  unfold calculate_martingale_amount.
  rewrite Hen, Hm. simpl. rewrite Hres.
  rewrite (getitem_last _ _ Hlast). simpl.
  apply getitem_nonneg; [unfold k; lia | exact Hamount].
Qed.

Lemma consecutive_without_win (h : list trade) (n : nat) :
  Forall (fun t => t_status t <> win) h ->
  fold_left
    (fun n t =>
       match t_status t with
       | loss => S n
       | win => 0%nat
       | pending => n
       end) h n
  = (n + count_losses h)%nat.
Proof.
  intros H. revert n. induction H as [|t h Ht _ IH]; intros n.
  - simpl. unfold count_losses. simpl. lia.
  - simpl. rewrite IH. unfold count_losses. simpl.
    destruct (t_status t); simpl; try lia. contradiction.
Qed.

End Levels.

(** X8. In every history that the loop builds, the level recorded with a
    trade is the number of losses among all the trades before it (with
    martingale enabled; 0 without): a run of the loop keeps that property. *)
Theorem run_cycles_levels (inputs : list Session.cycle_input)
    (b : PocketOptionBot.bot) :
  levels_ok (PocketOptionBot.martingale_enabled b)
    (PocketOptionBot.trade_history b) ->
  levels_ok (PocketOptionBot.martingale_enabled b)
    (PocketOptionBot.trade_history (snd (Session.run_cycles inputs b))).
Proof.
  intros Hl.
  apply (run_cycles_invariant
           (fun b' => PocketOptionBot.martingale_enabled b'
                      = PocketOptionBot.martingale_enabled b
                      /\ levels_ok (PocketOptionBot.martingale_enabled b)
                           (PocketOptionBot.trade_history b'))).
  - intros dir ui res b1. apply cycle_levels_ok.
  - split; [reflexivity | exact Hl].
Qed.

Lemma run_cycles_levels_witness :
  levels_ok true
    (PocketOptionBot.trade_history
       (snd (Session.run_cycles
               [{| Session.ci_direction := Some call; Session.ci_ui_ok := true;
                   Session.ci_result := PocketOptionBot.loss |};
                {| Session.ci_direction := Some put; Session.ci_ui_ok := true;
                   Session.ci_result := PocketOptionBot.win |}]
               (new_bot true 2.1%float 5)))).
Proof.
  apply (run_cycles_levels _ (new_bot true 2.1%float 5)).
  intros i t Hi. destruct i; discriminate.
Defined.

(** X9. With martingale enabled and [max_level >= 1], after a last trade that
    was lost the stake is [ladder[min(n, max_level - 1)]] where [n] is the
    number of ALL losses in the history (wins in between do not reset it),
    for every history whose recorded levels are those of the loop. *)
Theorem stake_after_loss_counts_all_losses (b : PocketOptionBot.bot)
    (t : PocketOptionBot.trade) :
  PocketOptionBot.martingale_enabled b = true ->
  1 <= PocketOptionBot.max_martingale_level b ->
  stack_inv b ->
  levels_ok true (PocketOptionBot.trade_history b) ->
  last (PocketOptionBot.trade_history b) = Some t ->
  PocketOptionBot.t_status t = PocketOptionBot.loss ->
  exists ladder amount,
    PocketOptionBot.build_stack (PocketOptionBot.trade_amount b)
      (PocketOptionBot.martingale_coefficient b)
      (PocketOptionBot.max_martingale_level b) = Ok ladder
    /\ fst (PocketOptionBot.calculate_martingale_amount PocketOptionBot.loss b)
       = Ok amount
    /\ ladder !! Z.to_nat
                   (Z.min (Z.of_nat (PocketOptionBot.count_losses
                                       (PocketOptionBot.trade_history b)))
                      (PocketOptionBot.max_martingale_level b - 1))
       = Some amount.
Proof.
  intros Hen Hmax Hinv Hlev Hlast Hloss.
  destruct (calculate_after_non_win PocketOptionBot.loss b t
              Hen Hmax Hinv Hlast eq_refl) as [ladder [amount [Hb [Hc Hl]]]].
  exists ladder, amount. split; [exact Hb|]. split; [exact Hc|].
  assert (Hsplit : exists h0, PocketOptionBot.trade_history b = h0 ++ [t])
    by (apply last_Some; exact Hlast).
  destruct Hsplit as [h0 Hh].
  assert (Hlevel : PocketOptionBot.t_martingale_level t
                   = PocketOptionBot.count_losses h0).
  { rewrite (Hlev (length h0) t).
    - rewrite Hh, take_app_le by lia. now rewrite take_ge by lia.
    - rewrite Hh, lookup_app_r by lia.
      now replace (length h0 - length h0)%nat with 0%nat by lia. }
  rewrite Hh, count_losses_snoc, Hloss. simpl.
  rewrite Hlevel in Hl.
  replace (Z.of_nat (PocketOptionBot.count_losses h0 + 1))
    with (Z.of_nat (PocketOptionBot.count_losses h0) + 1) by lia.
  exact Hl.
Qed.

Lemma stake_after_loss_counts_all_losses_witness :
  let b := snd (PocketOptionBot.session
                  [PocketOptionBot.loss; PocketOptionBot.win; PocketOptionBot.loss]
                  (new_bot true 2.1%float 5)) in
  exists (ladder : list float) amount,
    fst (PocketOptionBot.calculate_martingale_amount PocketOptionBot.loss b)
      = Ok amount
    /\ ladder !! 2%nat = Some amount.
Proof.
  intros b.
  destruct (stake_after_loss_counts_all_losses b
              (settled_trade call 1%float PocketOptionBot.loss
                 (snd (PocketOptionBot.session
                         [PocketOptionBot.loss; PocketOptionBot.win]
                         (new_bot true 2.1%float 5)))))
    as [ladder [amount [_ [Hc Hl]]]].
  - reflexivity.
  - simpl. lia.
  - right. vm_compute. reflexivity.
  - intros i t Hi.
    do 3 (destruct i as [|i];
          [vm_compute in Hi; injection Hi as <-; reflexivity|]).
    discriminate.
  - vm_compute. reflexivity.
  - reflexivity.
  - exists ladder, amount. split; [exact Hc | exact Hl].
Defined.

(** X10. With martingale enabled and [max_level >= 1], as long as the history
    holds no win, the stake after a lost trade is
    [ladder[min(consecutive_loss_count, max_level - 1)]]: the rule of the
    specification holds until the first win. *)
Theorem stake_after_loss_before_first_win (b : PocketOptionBot.bot)
    (t : PocketOptionBot.trade) :
  PocketOptionBot.martingale_enabled b = true ->
  1 <= PocketOptionBot.max_martingale_level b ->
  stack_inv b ->
  levels_ok true (PocketOptionBot.trade_history b) ->
  last (PocketOptionBot.trade_history b) = Some t ->
  PocketOptionBot.t_status t = PocketOptionBot.loss ->
  Forall (fun t' => PocketOptionBot.t_status t' <> PocketOptionBot.win)
    (PocketOptionBot.trade_history b) ->
  exists ladder amount,
    PocketOptionBot.build_stack (PocketOptionBot.trade_amount b)
      (PocketOptionBot.martingale_coefficient b)
      (PocketOptionBot.max_martingale_level b) = Ok ladder
    /\ fst (PocketOptionBot.calculate_martingale_amount PocketOptionBot.loss b)
       = Ok amount
    /\ ladder !! Z.to_nat
                   (Z.min (Z.of_nat (consecutive_loss_count
                                       (PocketOptionBot.trade_history b)))
                      (PocketOptionBot.max_martingale_level b - 1))
       = Some amount.
Proof.
  intros Hen Hmax Hinv Hlev Hlast Hloss Hnowin.
  destruct (calculate_after_non_win PocketOptionBot.loss b t
              Hen Hmax Hinv Hlast eq_refl) as [ladder [amount [Hb [Hc Hl]]]].
  exists ladder, amount. split; [exact Hb|]. split; [exact Hc|].
  unfold consecutive_loss_count.
  rewrite (consecutive_without_win _ 0 Hnowin). simpl.
  assert (Hsplit : exists h0, PocketOptionBot.trade_history b = h0 ++ [t])
    by (apply last_Some; exact Hlast).
  destruct Hsplit as [h0 Hh].
  assert (Hlevel : PocketOptionBot.t_martingale_level t
                   = PocketOptionBot.count_losses h0).
  { rewrite (Hlev (length h0) t).
    - rewrite Hh, take_app_le by lia. now rewrite take_ge by lia.
    - rewrite Hh, lookup_app_r by lia.
      now replace (length h0 - length h0)%nat with 0%nat by lia. }
  rewrite Hh, count_losses_snoc, Hloss. simpl.
  rewrite Hlevel in Hl.
  replace (Z.of_nat (PocketOptionBot.count_losses h0 + 1))
    with (Z.of_nat (PocketOptionBot.count_losses h0) + 1) by lia.
  exact Hl.
Qed.

Lemma stake_after_loss_before_first_win_witness :
  let b := snd (PocketOptionBot.session
                  [PocketOptionBot.loss; PocketOptionBot.loss]
                  (new_bot true 2.1%float 5)) in
  exists (ladder : list float) amount,
    fst (PocketOptionBot.calculate_martingale_amount PocketOptionBot.loss b)
      = Ok amount
    /\ ladder !! 2%nat = Some amount.
Proof.
  intros b.
  destruct (stake_after_loss_before_first_win b
              (settled_trade call 2.1%float PocketOptionBot.loss
                 (snd (PocketOptionBot.session
                         [PocketOptionBot.loss]
                         (new_bot true 2.1%float 5)))))
    as [ladder [amount [_ [Hc Hl]]]].
  - reflexivity.
  - simpl. lia.
  - right. vm_compute. reflexivity.
  - intros i t Hi.
    do 2 (destruct i as [|i];
          [vm_compute in Hi; injection Hi as <-; reflexivity|]).
    discriminate.
  - vm_compute. reflexivity.
  - reflexivity.
  - repeat constructor; discriminate.
  - exists ladder, amount. split; [exact Hc | exact Hl].
Defined.

Section EdgeLevels.
Import PocketOptionBot.

Lemma build_stack_single (amount coef : float) (max_level : Z) :
  max_level <= 1 -> build_stack amount coef max_level = Ok [amount].
Proof.
  intros H. unfold build_stack, range.
  replace (Z.to_nat (max_level - 1)) with 0%nat by lia. reflexivity.
Qed.

Lemma materialized_single (b : bot) :
  stack_inv b -> max_martingale_level b <= 1 ->
  match martingale_stack b with
  | [] => build_stack (trade_amount b) (martingale_coefficient b)
            (max_martingale_level b)
  | st => Ok st
  end = Ok [trade_amount b].
Proof.
  intros Hinv Hmax.
  destruct (materialized_ladder b Hinv) as [st [Hm [Hb _]]].
  rewrite Hm, <- Hb. now apply build_stack_single.
Qed.

Lemma getitem_single_below {A : Type} (a : A) (i : Z) :
  i <= -2 -> getitem [a] i = Raise IndexError.
Proof.
  intros Hi. unfold getitem. cbv zeta. simpl length.
  assert (E1 : (i <? 0) = true) by (apply Z.ltb_lt; lia).
  rewrite E1.
  assert (E2 : (0 <=? Z.of_nat 1 + i) = false) by (apply Z.leb_gt; lia).
  now rewrite E2.
Qed.

End EdgeLevels.

(** X11. After a win the stake is the base stake again, for every state of
    the bot (martingale enabled or not, stack built or not, any maximal
    level). *)
Theorem stake_after_win_is_base (b : PocketOptionBot.bot) :
  stack_inv b ->
  fst (PocketOptionBot.calculate_martingale_amount PocketOptionBot.win b)
  = Ok (PocketOptionBot.trade_amount b).
Proof.
  intros Hinv.
  destruct (materialized_ladder b Hinv) as [st [Hm [_ [_ [H0 _]]]]].
  unfold PocketOptionBot.calculate_martingale_amount.
  destruct (PocketOptionBot.martingale_enabled b); simpl; [|reflexivity].
  rewrite Hm. simpl. now apply getitem_nonneg.
Qed.

Lemma stake_after_win_is_base_witness :
  fst (PocketOptionBot.calculate_martingale_amount PocketOptionBot.win
         (snd (PocketOptionBot.session
                 [PocketOptionBot.loss; PocketOptionBot.loss; PocketOptionBot.win]
                 (new_bot true 2.1%float 5))))
  = Ok 1%float.
Proof.
  apply (stake_after_win_is_base
           (snd (PocketOptionBot.session
                   [PocketOptionBot.loss; PocketOptionBot.loss;
                    PocketOptionBot.win]
                   (new_bot true 2.1%float 5)))).
  right. vm_compute. reflexivity.
Defined.

(** X12. The edge of the maximal level, with martingale enabled and a last
    trade in the history: with [max_level = 0] or [1] the stake is the base
    stake after every result (for 0 through the negative index [-1]); with
    [max_level < 0] every result other than a win raises IndexError. *)
Theorem degenerate_max_level (b : PocketOptionBot.bot)
    (res : PocketOptionBot.status) (t : PocketOptionBot.trade) :
  PocketOptionBot.martingale_enabled b = true ->
  stack_inv b ->
  last (PocketOptionBot.trade_history b) = Some t ->
  (0 <= PocketOptionBot.max_martingale_level b <= 1 ->
   fst (PocketOptionBot.calculate_martingale_amount res b)
   = Ok (PocketOptionBot.trade_amount b))
  /\ (PocketOptionBot.max_martingale_level b < 0 ->
      PocketOptionBot.status_eqb res PocketOptionBot.win = false ->
      fst (PocketOptionBot.calculate_martingale_amount res b)
      = Raise IndexError).
Proof.
  intros Hen Hinv Hlast. split.
  - intros Hmax.
    unfold PocketOptionBot.calculate_martingale_amount.
    rewrite Hen, (materialized_single b Hinv) by lia. simpl.
    destruct (PocketOptionBot.status_eqb res PocketOptionBot.win);
      [reflexivity|].
    rewrite (getitem_last _ _ Hlast). simpl.
    assert (Hk : Z.min (Z.of_nat (PocketOptionBot.t_martingale_level t) + 1)
                   (PocketOptionBot.max_martingale_level b - 1)
                 = PocketOptionBot.max_martingale_level b - 1) by lia.
    rewrite Hk.
    assert (Hcase : PocketOptionBot.max_martingale_level b = 0
                    \/ PocketOptionBot.max_martingale_level b = 1) by lia.
    destruct Hcase as [-> | ->]; reflexivity.
  - intros Hmax Hres.
    unfold PocketOptionBot.calculate_martingale_amount.
    rewrite Hen, (materialized_single b Hinv) by lia. simpl.
    rewrite Hres, (getitem_last _ _ Hlast). simpl.
    apply getitem_single_below. lia.
Qed.

Lemma degenerate_max_level_witness :
  fst (PocketOptionBot.calculate_martingale_amount PocketOptionBot.loss
         (snd (PocketOptionBot.session [PocketOptionBot.loss]
                 (new_bot true 2.1%float 0))))
  = Ok 1%float.
Proof.
  apply (degenerate_max_level
           (snd (PocketOptionBot.session [PocketOptionBot.loss]
                   (new_bot true 2.1%float 0)))
           PocketOptionBot.loss
           (settled_trade call 1%float PocketOptionBot.loss
              (new_bot true 2.1%float 0))).
  - reflexivity.
  - left. reflexivity.
  - vm_compute. reflexivity.
  - simpl. lia.
Defined.

(** X13. [check_trade_result] only rewrites the status of the last trade:
    the history keeps its length, every earlier trade and the other fields
    of the last one stay as they are, and on an empty history nothing
    changes at all. *)
Theorem check_trade_result_touches_last_status (res : PocketOptionBot.status)
    (b : PocketOptionBot.bot) :
  let b' := PocketOptionBot.check_trade_result res b in
  length (PocketOptionBot.trade_history b')
    = length (PocketOptionBot.trade_history b)
  /\ (forall i, (S i < length (PocketOptionBot.trade_history b))%nat ->
        PocketOptionBot.trade_history b' !! i
        = PocketOptionBot.trade_history b !! i)
  /\ (forall t, last (PocketOptionBot.trade_history b) = Some t ->
        last (PocketOptionBot.trade_history b')
        = Some (PocketOptionBot.set_status t res))
  /\ (PocketOptionBot.trade_history b = [] -> b' = b)
  /\ same_settings b b'
  /\ PocketOptionBot.daily_trades b' = PocketOptionBot.daily_trades b
  /\ PocketOptionBot.martingale_stack b' = PocketOptionBot.martingale_stack b.
Proof.
  intros b'. unfold b', PocketOptionBot.check_trade_result.
  destruct (PocketOptionBot.trade_history b) as [|t0 h] eqn:Hh.
  - rewrite getitem_empty, Hh. repeat split; auto.
    intros t Ht. discriminate.
  - assert (Hl : is_Some (last (t0 :: h))).
    { rewrite last_lookup. apply lookup_lt_is_Some. simpl. lia. }
    destruct Hl as [t Ht]. rewrite (getitem_last _ t Ht).
    apply last_Some in Ht. destruct Ht as [h0 Hsplit].
    rewrite Hsplit, removelast_last. simpl PocketOptionBot.trade_history.
    split; [rewrite !length_app; reflexivity|].
    split.
    { intros i Hi. rewrite length_app in Hi. simpl in Hi.
      rewrite !lookup_app_l by lia. reflexivity. }
    split.
    { intros t' Ht'. rewrite last_snoc in Ht'. injection Ht' as <-.
      apply last_snoc. }
    split; [intros H; destruct h0; discriminate|].
    repeat split.
Qed.

(** ** The strategies on short, odd and repeated input *)

Section StrategyEdges.
Import Pandas Strategies.

Lemma Qltb_lt (a b : Q) : Qltb a b = true <-> (a < b)%Q.
Proof.
  unfold Qltb. rewrite negb_true_iff. split.
  - intros H. apply Qnot_le_lt. intros Hle.
    apply Qle_bool_iff in Hle. congruence.
  - intros H. apply not_true_is_false. intros Hle.
    apply Qle_bool_iff in Hle. apply (Qlt_not_le _ _ H Hle).
Qed.

Lemma validate_window_negative (q : Q) :
  (q < 0)%Q -> validate_window q = Raise ValueError.
Proof.
  intros H. unfold validate_window.
  assert (E : Qle_bool 0 q = false).
  { apply not_true_is_false. intros Hle. apply Qle_bool_iff in Hle.
    apply (Qlt_not_le _ _ H Hle). }
  rewrite E. now rewrite andb_false_r.
Qed.

Lemma rolling_mean_invalid (q : Q) (s : Series) :
  validate_window q = Raise ValueError -> rolling_mean q s = Raise ValueError.
Proof. intros H. unfold rolling_mean. now rewrite H. Qed.

Lemma rolling_mean_valid (w : Z) (s : Series) :
  0 <= w ->
  exists r, rolling_mean (inject_Z w) s = Ok r /\ length r = length s.
Proof.
  intros Hw. unfold rolling_mean. rewrite validate_window_int by exact Hw.
  simpl. eexists. split; [reflexivity|].
  now rewrite length_map, length_seq.
Qed.

Lemma last_of_nonempty {A : Type} (l : list A) :
  l <> [] -> is_Some (last l).
Proof.
  intros H. rewrite last_lookup. apply lookup_lt_is_Some.
  destruct l; [contradiction | simpl; lia].
Qed.

End StrategyEdges.

(** X14. With fewer rows than the strategy needs ([len(data) < long_period]
    for trend following, [len(data) < rsi_period + 1] for RSI), [analyze]
    returns [None] and does not touch the frame, whatever the frame holds. *)
Theorem insufficient_data_gives_none (tf : Strategies.TrendFollowingStrategy)
    (rsi : Strategies.RSIStrategy) (data : Pandas.DataFrame) :
  ((Pandas.len data < Strategies.long_period tf)%Q ->
   Strategies.TrendFollowing.analyze tf data = (Ok None, data))
  /\ ((Pandas.len data < Strategies.rsi_period rsi + 1)%Q ->
      Strategies.RSI.analyze rsi data = (Ok None, data)).
Proof.
  split; intros H; apply Qltb_lt in H.
  - unfold Strategies.TrendFollowing.analyze, Pandas.bind, Pandas.get_len.
    now rewrite H.
  - unfold Strategies.RSI.analyze, Pandas.bind, Pandas.get_len.
    now rewrite H.
Qed.

Lemma insufficient_data_gives_none_witness :
  Strategies.TrendFollowing.analyze (Strategies.TrendFollowing.new None)
    (Pandas.DataFrame_of (map bar [1; 2; 3]%Q))
  = (Ok None, Pandas.DataFrame_of (map bar [1; 2; 3]%Q)).
Proof.
  apply (insufficient_data_gives_none
           (Strategies.TrendFollowing.new None) (Strategies.RSI.new None)).
  reflexivity.
Defined.

(** X15. On a series of bars with finite prices, trend following never
    raises when [short_period] is an integer [>= 0] and [long_period] an
    integer [>= 1]: the answer is a signal or [None], also for an empty
    series. *)
Theorem trend_following_never_raises (self : Strategies.TrendFollowingStrategy)
    (candles : list Pandas.candle) (sp lp : Z) :
  Strategies.short_period self = inject_Z sp ->
  Strategies.long_period self = inject_Z lp ->
  0 <= sp ->
  1 <= lp ->
  exists answer,
    fst (Strategies.TrendFollowing.analyze self (Pandas.DataFrame_of candles))
    = Ok answer.
Proof.
  intros Hsp Hlp Hs Hl.
  destruct (Qltb (Pandas.len (Pandas.DataFrame_of candles))
              (Strategies.long_period self)) eqn:Hlen.
  - exists None.
    unfold Strategies.TrendFollowing.analyze, Pandas.bind, Pandas.get_len.
    now rewrite Hlen.
  - assert (Hne : candles <> []).
    { intros ->. rewrite Hlp in Hlen. unfold Qltb, Pandas.len in Hlen.
      simpl in Hlen. apply negb_false_iff, Qle_bool_iff in Hlen.
      change 0%Q with (inject_Z 0) in Hlen. rewrite <- Zle_Qle in Hlen. lia. }
    destruct (close_column candles Hne) as [Hclose Hrows].
    set (closes := Pandas.column_of Pandas.close candles) in *.
    assert (Hcl : length closes = length candles)
      by (unfold closes, Pandas.column_of; apply length_map).
    destruct (rolling_mean_valid sp closes Hs) as [ss [Hss Hlss]].
    destruct (rolling_mean_valid lp closes) as [ls [Hls Hlls]]; [lia|].
    assert (Hn : length candles <> 0%nat) by (destruct candles; easy).
    destruct (last_of_nonempty ss) as [s Hlast_s].
    { intros ->. simpl in Hlss. lia. }
    destruct (last_of_nonempty ls) as [l Hlast_l].
    { intros ->. simpl in Hlls. lia. }
    rewrite <- Hsp in Hss. rewrite <- Hlp in Hls.
    rewrite (trend_run self _ closes ss ls s l Hclose); try assumption.
    + simpl. eexists. reflexivity.
    + now rewrite Hrows.
Qed.

Lemma trend_following_never_raises_witness :
  exists answer,
    fst (Strategies.TrendFollowing.analyze
           {| Strategies.tf_parameters := ∅; Strategies.short_period := 0;
              Strategies.long_period := 1 |}
           (Pandas.DataFrame_of [])) = Ok answer.
Proof.
  apply (trend_following_never_raises _ [] 0 1); [reflexivity | reflexivity | lia | lia].
Defined.

(** X16. The ways in which trend following raises on a frame with enough
    rows: KeyError when there is no column [close]; ValueError when
    [short_period] is negative, before anything is written; and ValueError
    when only [long_period] is negative, after the column [sma_short] has
    already been written into the frame. *)
Theorem trend_following_errors (self : Strategies.TrendFollowingStrategy)
    (data : Pandas.DataFrame) :
  ~ (Pandas.len data < Strategies.long_period self)%Q ->
  (Pandas.columns data !! "close" = None ->
   Strategies.TrendFollowing.analyze self data = (Raise (KeyError "close"), data))
  /\ (forall closes,
        Pandas.columns data !! "close" = Some closes ->
        (Strategies.short_period self < 0)%Q ->
        Strategies.TrendFollowing.analyze self data = (Raise ValueError, data))
  /\ (forall closes ss,
        Pandas.columns data !! "close" = Some closes ->
        Pandas.rolling_mean (Strategies.short_period self) closes = Ok ss ->
        (Strategies.long_period self < 0)%Q ->
        Strategies.TrendFollowing.analyze self data
        = (Raise ValueError,
           {| Pandas.nrows := Pandas.nrows data;
              Pandas.columns := <["sma_short" := ss]> (Pandas.columns data) |})).
Proof.
  intros Hlen.
  assert (Hguard : Qltb (Pandas.len data) (Strategies.long_period self) = false).
  { apply not_true_is_false. intros H. apply Qltb_lt in H. contradiction. }
  split; [|split].
  - intros Hclose.
    unfold Strategies.TrendFollowing.analyze, Pandas.bind, Pandas.get_len.
    rewrite Hguard. unfold Pandas.get_column at 1. now rewrite Hclose.
  - intros closes Hclose Hneg.
    unfold Strategies.TrendFollowing.analyze, Pandas.bind, Pandas.get_len.
    rewrite Hguard. unfold Pandas.get_column at 1. rewrite Hclose.
    unfold Pandas.lift at 1.
    now rewrite (rolling_mean_invalid _ _ (validate_window_negative _ Hneg)).
  - intros closes ss Hclose Hss Hneg.
    unfold Strategies.TrendFollowing.analyze, Pandas.bind, Pandas.get_len.
    rewrite Hguard. unfold Pandas.get_column at 1. rewrite Hclose.
    unfold Pandas.lift at 1. rewrite Hss.
    unfold Pandas.set_column at 1.
    unfold Pandas.get_column at 1. simpl Pandas.columns.
    rewrite lookup_insert_ne by discriminate. rewrite Hclose.
    unfold Pandas.lift at 1.
    now rewrite (rolling_mean_invalid _ _ (validate_window_negative _ Hneg)).
Qed.

Lemma trend_following_errors_witness :
  Strategies.TrendFollowing.analyze
    {| Strategies.tf_parameters := ∅; Strategies.short_period := 1;
       Strategies.long_period := -1 |}
    (Pandas.DataFrame_of (map bar [1; 2]%Q))
  = (Raise ValueError,
     {| Pandas.nrows := 2;
        Pandas.columns :=
          <["sma_short" := [Fin 1; Fin 2]]>
            (Pandas.columns (Pandas.DataFrame_of (map bar [1; 2]%Q))) |}).
Proof.
  destruct (trend_following_errors
              {| Strategies.tf_parameters := ∅; Strategies.short_period := 1;
                 Strategies.long_period := -1 |}
              (Pandas.DataFrame_of (map bar [1; 2]%Q))) as [_ [_ H]].
  - intros H. vm_compute in H. discriminate.
  - apply (H [Fin 1; Fin 2]); reflexivity.
Defined.

(** ** The range of the RSI *)

Section RsiRange.
Import Pandas Strategies.
Local Open Scope Q_scope.

Lemma gain_cell_nonneg (d : cell) :
  d = NaN \/ (exists q, d = Fin q) -> nonneg_cell (gain_cell d).
Proof.
  intros [-> | [q ->]].
  - right. exists 0. split; [reflexivity | lra].
  - unfold gain_cell, cgt. simpl.
    destruct (q ?= 0) eqn:E; right.
    + exists 0. split; [reflexivity | lra].
    + exists 0. split; [reflexivity | lra].
    + exists q. split; [reflexivity|]. apply Qgt_alt in E. lra.
Qed.

Lemma loss_cell_nonneg (d : cell) :
  d = NaN \/ (exists q, d = Fin q) -> nonneg_cell (loss_cell d).
Proof.
  intros [-> | [q ->]].
  - now left.
  - unfold loss_cell, clt. simpl.
    destruct (q ?= 0) eqn:E; try (now left).
    apply Qlt_alt in E. simpl.
    assert (Eq0 : Qeq_bool q 0 = false).
    { apply not_true_is_false. intros H. apply Qeq_bool_iff in H. lra. }
    rewrite Eq0. right. exists (- q). split; [reflexivity | lra].
Qed.

Lemma diff_cells (l : list Q) :
  Forall (fun d => d = NaN \/ exists q, d = Fin q) (diff (map Fin l)).
Proof.
  apply Forall_lookup. intros j d Hd.
  destruct (diff_lookup l j d Hd) as [[_ ->] | H]; [now left|].
  destruct H as [j' [x [y [_ [_ [_ ->]]]]]].
  destruct (csub_fin x y) as [q [-> _]]. right. now exists q.
Qed.

Lemma gain_series_nonneg (l : list Q) :
  Forall nonneg_cell (gain_series (map Fin l)).
Proof.
  rewrite gain_series_cells. apply Forall_map.
  eapply Forall_impl; [apply diff_cells|]. intros d. apply gain_cell_nonneg.
Qed.

Lemma loss_series_nonneg (l : list Q) :
  Forall nonneg_cell (loss_series (map Fin l)).
Proof.
  rewrite loss_series_cells. apply Forall_map.
  eapply Forall_impl; [apply diff_cells|]. intros d. apply loss_cell_nonneg.
Qed.

Lemma Qsum_values_nonneg (win : list cell) :
  Forall nonneg_cell win -> 0 <= Qsum (map cell_value win).
Proof.
  induction 1 as [|c win Hc _ IH]; simpl; [lra|].
  destruct Hc as [-> | [q [-> Hq]]]; simpl; lra.
Qed.

(** The mean of a window of numbers [>= 0] is NaN or a number [>= 0]. *)
Lemma window_mean_nonneg (w : nat) (win : list cell) :
  Forall nonneg_cell win ->
  window_mean w win = NaN \/ exists q, window_mean w win = Fin q /\ 0 <= q.
Proof.
  intros H.
  assert (Hobs : Forall (fun c => is_obs c = true) win).
  { eapply Forall_impl; [exact H|]. intros c [-> | [q [-> _]]]; reflexivity. }
  unfold window_mean. rewrite (filter_all_obs win Hobs).
  destruct ((w <=? length win)%nat && (0 <? length win)%nat) eqn:E;
    [|now left].
  right. eexists. split; [reflexivity|].
  apply andb_true_iff in E. destruct E as [_ E]. apply Nat.ltb_lt in E.
  apply Qle_shift_div_l.
  - change 0 with (inject_Z 0). rewrite <- Zlt_Qlt. lia.
  - pose proof (Qsum_values_nonneg win H). lra.
Qed.

Lemma rolling_mean_nonneg (q : Q) (s r : Series) :
  Forall nonneg_cell s ->
  rolling_mean q s = Ok r ->
  Forall (fun c => c = NaN \/ exists v, c = Fin v /\ 0 <= v) r.
Proof.
  intros Hs. unfold rolling_mean.
  destruct (validate_window q) as [w|e]; [|discriminate].
  simpl. intros [= <-]. apply Forall_map, Forall_forall. intros i _.
  simpl. apply window_mean_nonneg. unfold window_at.
  apply Forall_drop, Forall_take, Hs.
Qed.

(** The RSI of an average gain [g >= 0] over an average loss [l > 0]. *)
Lemma rsi_of_regular (g l : Q) :
  0 <= g -> 0 < l ->
  exists r, RSI.rsi_of (Fin g) (Fin l) = Fin r
            /\ r == 100 - 100 / (1 + g / l).
Proof.
  intros Hg Hl.
  assert (El : Qeq_bool l 0 = false).
  { apply not_true_is_false. intros H. apply Qeq_bool_iff in H. lra. }
  assert (Hx : 0 <= g / l) by (apply Qle_shift_div_l; lra).
  unfold RSI.rsi_of.
  assert (Hrs : exists x, cdiv (Fin g) (Fin l) = Fin x /\ x == g / l).
  { unfold cdiv. simpl. rewrite El.
    destruct (Qeq_bool g 0) eqn:Eg.
    - apply Qeq_bool_iff in Eg.
      assert (S1 : Qltb g 0 = false).
      { unfold Qltb. apply negb_false_iff, Qle_bool_iff. lra. }
      assert (S2 : Qltb l 0 = false).
      { unfold Qltb. apply negb_false_iff, Qle_bool_iff. lra. }
      rewrite S1, S2. exists 0. split; [reflexivity|].
      rewrite Eg. unfold Qdiv. ring.
    - exists (g / l). split; reflexivity. }
  destruct Hrs as [x [-> Ex]].
  change (cadd (Fin 1) (Fin x)) with (Fin (1 + x)).
  assert (Hpos : 0 < 1 + x) by lra.
  assert (E1 : Qeq_bool (1 + x) 0 = false).
  { apply not_true_is_false. intros H. apply Qeq_bool_iff in H. lra. }
  assert (Hd : cdiv (Fin 100) (Fin (1 + x)) = Fin (100 / (1 + x))).
  { unfold cdiv. simpl. now rewrite E1. }
  rewrite Hd.
  assert (Hq : 0 < 100 / (1 + x)) by (apply Qlt_shift_div_l; lra).
  assert (E2 : Qeq_bool (100 / (1 + x)) 0 = false).
  { apply not_true_is_false. intros H. apply Qeq_bool_iff in H. lra. }
  unfold csub, cneg. rewrite E2. simpl.
  eexists. split; [reflexivity|]. rewrite Ex. ring.
Qed.

Lemma rsi_of_range (a b : cell) :
  (a = NaN \/ exists g, a = Fin g /\ 0 <= g) ->
  (b = NaN \/ exists l, b = Fin l /\ 0 <= l) ->
  rsi_cell_ok (RSI.rsi_of a b).
Proof.
  intros [-> | [g [-> Hg]]] Hb; [now left|].
  destruct Hb as [-> | [l [-> Hl]]]; [now left|].
  destruct (Qlt_le_dec 0 l) as [Hpos | Hzero].
  - destruct (rsi_of_regular g l Hg Hpos) as [r [-> Hr]].
    right. exists r. split; [reflexivity|].
    assert (Hx : 0 <= g / l) by (apply Qle_shift_div_l; lra).
    assert (H1 : 0 < 100 / (1 + g / l)) by (apply Qlt_shift_div_l; lra).
    assert (H2 : 100 / (1 + g / l) <= 100).
    { apply Qle_shift_div_r; [lra|].
      assert (E : 100 * (1 + g / l) == 100 + 100 * (g / l)) by ring.
      rewrite E. lra. }
    rewrite Hr. split; lra.
  - assert (Hl0 : l == 0) by lra.
    destruct (Qlt_le_dec 0 g) as [Hgpos | Hgzero].
    + rewrite (rsi_of_positive_zero g l Hgpos Hl0).
      right. exists 100. repeat split; lra.
    + rewrite (rsi_of_zero_zero g l); [now left | lra | exact Hl0].
Qed.

End RsiRange.

(** X17. On every series of bars with finite prices, whatever the period,
    every cell of the RSI column that [calculate_rsi] returns is NaN or a
    number between 0 and 100, and the column has one cell per bar. *)
Theorem rsi_column_in_range (self : Strategies.RSIStrategy)
    (candles : list Pandas.candle) (rsi : Pandas.Series) :
  fst (Strategies.RSI.calculate_rsi self (Pandas.DataFrame_of candles)) = Ok rsi ->
  length rsi = length candles /\ Forall rsi_cell_ok rsi.
Proof.
  destruct candles as [|c cs].
  { unfold Strategies.RSI.calculate_rsi, Pandas.bind, Pandas.get_column.
    simpl. discriminate. }
  set (candles := c :: cs).
  assert (Hne : candles <> []) by discriminate.
  destruct (close_column candles Hne) as [Hclose _].
  assert (Hcol : Pandas.column_of Pandas.close candles
                 = map Fin (map Pandas.close candles)).
  { unfold Pandas.column_of. now rewrite map_map. }
  rewrite Hcol in Hclose.
  set (l := map Pandas.close candles) in *.
  unfold Strategies.RSI.calculate_rsi, Pandas.bind.
  unfold Pandas.get_column at 1. rewrite Hclose.
  fold (gain_series (map Fin l)). fold (loss_series (map Fin l)).
  unfold Pandas.lift.
  destruct (Pandas.rolling_mean (Strategies.rsi_period self)
              (gain_series (map Fin l))) as [ag|e] eqn:Hag; [|discriminate].
  destruct (Pandas.rolling_mean (Strategies.rsi_period self)
              (loss_series (map Fin l))) as [al|e] eqn:Hal; [|discriminate].
  simpl. intros [= <-].
  destruct (rolling_mean_window _ _ _ Hag) as [_ [_ Lg]].
  destruct (rolling_mean_window _ _ _ Hal) as [_ [_ Ll]].
  rewrite length_gain_series in Lg. rewrite length_loss_series in Ll.
  assert (Hl : length (map Fin l) = length candles).
  { unfold l. now rewrite !length_map. }
  split.
  - rewrite length_zip_with, Lg, Ll, Hl. apply Nat.min_id.
  - pose proof (rolling_mean_nonneg _ _ _ (gain_series_nonneg l) Hag) as Fg.
    pose proof (rolling_mean_nonneg _ _ _ (loss_series_nonneg l) Hal) as Fl.
    apply Forall_lookup. intros i x Hx.
    apply lookup_zip_with_Some in Hx.
    destruct Hx as [a [b [-> [Ha Hb]]]].
    apply rsi_of_range.
    + exact (proj1 (Forall_lookup _ _) Fg i a Ha).
    + exact (proj1 (Forall_lookup _ _) Fl i b Hb).
Qed.

Lemma rsi_column_in_range_witness :
  Forall rsi_cell_ok [NaN; Fin 0; Fin (400 # 6); Fin (400 # 6)].
Proof.
  apply (rsi_column_in_range
           {| Strategies.rsi_parameters := ∅; Strategies.rsi_period := 2;
              Strategies.overbought := 70; Strategies.oversold := 30 |}
           (map bar [3; 2; 4; 3]%Q)).
  vm_compute. reflexivity.
Defined.

Section RsiMore.
Import Pandas Strategies.
Local Open Scope Q_scope.



End RsiMore.

(** X18. On a series of bars with finite prices, the RSI strategy never
    raises when [rsi_period] is an integer [>= 0]: the answer is a signal or
    [None], also for an empty series. *)
Theorem rsi_never_raises (self : Strategies.RSIStrategy)
    (candles : list Pandas.candle) (p : Z) :
  Strategies.rsi_period self = inject_Z p ->
  0 <= p ->
  exists answer,
    fst (Strategies.RSI.analyze self (Pandas.DataFrame_of candles)) = Ok answer.
Proof.
  intros Hp Hp0.
  destruct (Qltb (Pandas.len (Pandas.DataFrame_of candles))
              (Strategies.rsi_period self + 1)) eqn:Hlen.
  - exists None.
    unfold Strategies.RSI.analyze, Pandas.bind, Pandas.get_len.
    now rewrite Hlen.
  - assert (Hne : candles <> []).
    { intros ->. rewrite Hp in Hlen. unfold Qltb, Pandas.len in Hlen.
      simpl in Hlen. apply negb_false_iff, Qle_bool_iff in Hlen.
      change 1%Q with (inject_Z 1) in Hlen.
      change 0%Q with (inject_Z 0) in Hlen.
      rewrite <- inject_Z_plus, <- Zle_Qle in Hlen. lia. }
    destruct (close_column candles Hne) as [Hclose Hrows].
    set (closes := Pandas.column_of Pandas.close candles) in *.
    assert (Hcl : length closes = length candles)
      by (unfold closes, Pandas.column_of; apply length_map).
    assert (Hn : length candles <> 0%nat) by (destruct candles; easy).
    destruct (rolling_mean_valid p (gain_series closes) Hp0) as [ag [Hag Lg]].
    destruct (rolling_mean_valid p (loss_series closes) Hp0) as [al [Hal Ll]].
    rewrite length_gain_series in Lg. rewrite length_loss_series in Ll.
    destruct (last_of_nonempty ag) as [g Hg].
    { intros ->. simpl in Lg. lia. }
    destruct (last_of_nonempty al) as [l Hl].
    { intros ->. simpl in Ll. lia. }
    rewrite <- Hp in Hag, Hal.
    destruct (rsi_run self _ closes ag al g l Hclose) as [Hrun _];
      try assumption.
    + now rewrite Hrows.
    + rewrite Hrun. simpl. eexists. reflexivity.
Qed.

Lemma rsi_never_raises_witness :
  exists answer,
    fst (Strategies.RSI.analyze
           {| Strategies.rsi_parameters := ∅; Strategies.rsi_period := 0;
              Strategies.overbought := 70; Strategies.oversold := 30 |}
           (Pandas.DataFrame_of (map bar [1]%Q))) = Ok answer.
Proof.
  apply (rsi_never_raises _ (map bar [1]%Q) 0); [reflexivity | lia].
Defined.



(** X20. The random strategy at its extremes: for every number that
    [random.random()] can draw ([0 <= u < 1]), a [win_probability] of 1 or
    more always answers ["call"] and a [win_probability] of 0 or less always
    answers ["put"]; the frame is never touched. *)
Theorem random_strategy_extremes (self : Strategies.RandomStrategy) (u : Q)
    (data : Pandas.DataFrame) :
  (0 <= u)%Q -> (u < 1)%Q ->
  ((1 <= Strategies.win_probability self)%Q ->
   Strategies.Random.analyze self u data = (Ok (Some call), data))
  /\ ((Strategies.win_probability self <= 0)%Q ->
      Strategies.Random.analyze self u data = (Ok (Some put), data)).
Proof.
  intros Hu0 Hu1. unfold Strategies.Random.analyze. split; intros Hp.
  - assert (E : Qltb u (Strategies.win_probability self) = true)
      by (apply Qltb_lt; lra).
    now rewrite E.
  - assert (E : Qltb u (Strategies.win_probability self) = false).
    { apply not_true_is_false. intros H. apply Qltb_lt in H. lra. }
    now rewrite E.
Qed.

Lemma random_strategy_extremes_witness :
  Strategies.Random.analyze
    {| Strategies.rnd_parameters := ∅; Strategies.win_probability := 1 |}
    (1 # 2) (Pandas.DataFrame_of [])
  = (Ok (Some call), Pandas.DataFrame_of []).
Proof.
  apply (random_strategy_extremes
           {| Strategies.rnd_parameters := ∅; Strategies.win_probability := 1 |}
           (1 # 2) (Pandas.DataFrame_of [])); [discriminate | reflexivity |].
  discriminate.
Defined.

(** ** Analysing the same frame twice *)

Section Twice.
Import Pandas Strategies.

Lemma trend_tail_frame (df : DataFrame) : snd (trend_tail df) = df.
Proof.
  unfold trend_tail, bind, iloc_last.
  destruct (nrows df); [reflexivity|].
  unfold row_get.
  destruct (omap last (columns df) !! "sma_short") as [s|]; [|reflexivity].
  unfold ret at 1.
  destruct (omap last (columns df) !! "sma_long") as [l|]; [|reflexivity].
  unfold ret at 1.
  destruct (isna s || isna l); [reflexivity|].
  destruct (cgt s l); reflexivity.
Qed.

Lemma rsi_tail_frame (self : RSIStrategy) (df : DataFrame) :
  snd (rsi_tail self df) = df.
Proof.
  unfold rsi_tail, bind, iloc_last.
  destruct (nrows df); [reflexivity|].
  unfold row_get.
  destruct (omap last (columns df) !! "rsi") as [r|]; [|reflexivity].
  unfold ret at 1.
  destruct (isna r); [reflexivity|].
  destruct (cle _ _); [reflexivity|].
  destruct (cge _ _); reflexivity.
Qed.

(** [TrendFollowingStrategy.analyze], branch by branch. *)
Lemma trend_analyze_branches (self : TrendFollowingStrategy) (df : DataFrame) :
  TrendFollowing.analyze self df
  = if Qltb (len df) (long_period self) then (Ok None, df)
    else
      match columns df !! "close" with
      | None => (Raise (KeyError "close"), df)
      | Some closes =>
          match rolling_mean (short_period self) closes with
          | Raise e => (Raise e, df)
          | Ok ss =>
              match rolling_mean (long_period self) closes with
              | Raise e =>
                  (Raise e,
                   {| nrows := nrows df;
                      columns := <["sma_short" := ss]> (columns df) |})
              | Ok ls =>
                  trend_tail
                    {| nrows := nrows df;
                       columns := <["sma_long" := ls]>
                                    (<["sma_short" := ss]> (columns df)) |}
              end
          end
      end.
Proof.
  unfold TrendFollowing.analyze, bind, get_len.
  destruct (Qltb _ _); [reflexivity|].
  unfold get_column at 1.
  destruct (columns df !! "close") as [closes|] eqn:Hclose; [|reflexivity].
  unfold lift at 1.
  destruct (rolling_mean (short_period self) closes) as [ss|e]; [|reflexivity].
  unfold set_column at 1. unfold get_column at 1. simpl columns.
  rewrite lookup_insert_ne by discriminate. rewrite Hclose.
  unfold lift at 1.
  destruct (rolling_mean (long_period self) closes) as [ls|e]; [|reflexivity].
  unfold set_column at 1. reflexivity.
Qed.

(** [RSIStrategy.analyze], branch by branch. *)
Lemma rsi_analyze_branches (self : RSIStrategy) (df : DataFrame) :
  RSI.analyze self df
  = if Qltb (len df) (rsi_period self + 1) then (Ok None, df)
    else
      match columns df !! "close" with
      | None => (Raise (KeyError "close"), df)
      | Some closes =>
          match rolling_mean (rsi_period self) (gain_series closes) with
          | Raise e => (Raise e, df)
          | Ok avg_gain =>
              match rolling_mean (rsi_period self) (loss_series closes) with
              | Raise e => (Raise e, df)
              | Ok avg_loss =>
                  rsi_tail self
                    {| nrows := nrows df;
                       columns := <["rsi" := zip_with RSI.rsi_of avg_gain avg_loss]>
                                    (columns df) |}
              end
          end
      end.
Proof.
  unfold RSI.analyze, bind, get_len.
  destruct (Qltb _ _); [reflexivity|].
  unfold RSI.calculate_rsi, bind. unfold get_column at 1.
  destruct (columns df !! "close") as [closes|] eqn:Hclose; [|reflexivity].
  fold (gain_series closes). fold (loss_series closes).
  unfold lift.
  destruct (rolling_mean (rsi_period self) (gain_series closes)) as [ag|e];
    [|reflexivity].
  destruct (rolling_mean (rsi_period self) (loss_series closes)) as [al|e];
    [|reflexivity].
  reflexivity.
Qed.

Lemma insert_pair_again (m : gmap string Series) (ss ls : Series) :
  <["sma_long" := ls]>
    (<["sma_short" := ss]> (<["sma_long" := ls]> (<["sma_short" := ss]> m)))
  = <["sma_long" := ls]> (<["sma_short" := ss]> m).
Proof.
  apply map_eq. intros k. rewrite !lookup_insert.
  repeat case_decide; reflexivity.
Qed.

Lemma trend_twice (self : TrendFollowingStrategy) (df : DataFrame) :
  TrendFollowing.analyze self (snd (TrendFollowing.analyze self df))
  = TrendFollowing.analyze self df.
Proof.
  rewrite (trend_analyze_branches self df).
  destruct (Qltb (len df) (long_period self)) eqn:Hguard.
  { simpl. rewrite trend_analyze_branches. now rewrite Hguard. }
  destruct (columns df !! "close") as [closes|] eqn:Hclose.
  2:{ simpl. rewrite trend_analyze_branches. now rewrite Hguard, Hclose. }
  destruct (rolling_mean (short_period self) closes) as [ss|e] eqn:Hss.
  2:{ simpl. rewrite trend_analyze_branches.
      now rewrite Hguard, Hclose, Hss. }
  destruct (rolling_mean (long_period self) closes) as [ls|e] eqn:Hls.
  - rewrite trend_tail_frame. rewrite trend_analyze_branches.
    change (len {| nrows := nrows df;
                   columns := <["sma_long" := ls]>
                                (<["sma_short" := ss]> (columns df)) |})
      with (len df).
    rewrite Hguard. simpl columns. simpl nrows.
    rewrite !lookup_insert_ne by discriminate.
    rewrite Hclose, Hss, Hls. now rewrite insert_pair_again.
  - simpl snd. rewrite trend_analyze_branches.
    change (len {| nrows := nrows df;
                   columns := <["sma_short" := ss]> (columns df) |})
      with (len df).
    rewrite Hguard. simpl columns. simpl nrows.
    rewrite lookup_insert_ne by discriminate.
    rewrite Hclose, Hss, Hls. now rewrite insert_insert_eq.
Qed.

Lemma rsi_twice (self : RSIStrategy) (df : DataFrame) :
  RSI.analyze self (snd (RSI.analyze self df)) = RSI.analyze self df.
Proof.
  rewrite (rsi_analyze_branches self df).
  destruct (Qltb (len df) (rsi_period self + 1)) eqn:Hguard.
  { simpl. rewrite rsi_analyze_branches. now rewrite Hguard. }
  destruct (columns df !! "close") as [closes|] eqn:Hclose.
  2:{ simpl. rewrite rsi_analyze_branches. now rewrite Hguard, Hclose. }
  destruct (rolling_mean (rsi_period self) (gain_series closes))
    as [ag|e] eqn:Hag.
  2:{ simpl. rewrite rsi_analyze_branches. now rewrite Hguard, Hclose, Hag. }
  destruct (rolling_mean (rsi_period self) (loss_series closes))
    as [al|e] eqn:Hal.
  2:{ simpl. rewrite rsi_analyze_branches.
      now rewrite Hguard, Hclose, Hag, Hal. }
  rewrite rsi_tail_frame. rewrite rsi_analyze_branches.
  change (len {| nrows := nrows df;
                 columns := <["rsi" := zip_with RSI.rsi_of ag al]> (columns df) |})
    with (len df).
  rewrite Hguard. simpl columns. simpl nrows.
  rewrite lookup_insert_ne by discriminate.
  rewrite Hclose, Hag, Hal. now rewrite insert_insert_eq.
Qed.

End Twice.

(** X21. Analysing a frame a second time (with the same random draw) gives
    the same answer or the same exception and leaves the frame as the first
    analysis left it, for every strategy and every frame: the indicator
    columns are overwritten with the same cells. *)
Theorem analyze_twice (st : Strategies.strategy) (u : Q) (data : Pandas.DataFrame) :
  Strategies.analyze st u (snd (Strategies.analyze st u data))
  = Strategies.analyze st u data.
Proof.
  destruct st as [s|s|s]; simpl.
  - apply trend_twice.
  - apply rsi_twice.
  - now rewrite random_leaves_frame.
Qed.

(** ** The simulated market data *)

Section Market.
Import Pandas MarketData.
Local Open Scope Q_scope.

Lemma uniform_range (a b u : Q) :
  a <= b -> unit_draw u -> a <= uniform a b u /\ uniform a b u <= b.
Proof.
  intros Hab [H0 H1]. unfold uniform.
  assert (Hm : 0 <= (b - a) * u) by (apply Qmult_le_0_compat; lra).
  assert (Hu : (b - a) * u <= (b - a) * 1).
  { rewrite !(Qmult_comm (b - a)). apply Qmult_le_compat_r; lra. }
  split; lra.
Qed.

Lemma simulate_candle_shape (n i : nat) (d : draw) :
  unit_draws d ->
  let c := simulate_candle n i d in
  low c < open c /\ open c < high c
  /\ open c - (15 # 10000) <= close c /\ close c <= open c + (15 # 10000)
  /\ (1095 # 1000) <= open c /\ open c <= (1105 # 1000).
Proof.
  intros (Ho & Hh & Hl & Hc & _). simpl.
  destruct (uniform_range (- (5 # 1000)) (5 # 1000) (u_open d)) as [? ?];
    [lra | exact Ho |].
  destruct (uniform_range (1 # 10000) (20 # 10000) (u_high d)) as [? ?];
    [lra | exact Hh |].
  destruct (uniform_range (1 # 10000) (20 # 10000) (u_low d)) as [? ?];
    [lra | exact Hl |].
  destruct (uniform_range (- (15 # 10000)) (15 # 10000) (u_close d)) as [? ?];
    [lra | exact Hc |].
  repeat split; lra.
Qed.

End Market.

(** X22. Every candle that [get_market_data] simulates has its low strictly
    below its open and its open strictly below its high, a close within
    0.0015 of the open and an open between 1.095 and 1.105, and the frame
    has one row per candle; but the close can lie above the high, so the
    high is not always the maximum of the bar. *)
Theorem simulated_candles_shape (draws : list MarketData.draw) :
  Forall MarketData.unit_draws draws ->
  Pandas.nrows (MarketData.get_market_data draws) = length draws
  /\ Forall (fun c =>
               (Pandas.low c < Pandas.open c)%Q
               /\ (Pandas.open c < Pandas.high c)%Q
               /\ (Pandas.open c - (15 # 10000) <= Pandas.close c)%Q
               /\ (Pandas.close c <= Pandas.open c + (15 # 10000))%Q
               /\ ((1095 # 1000) <= Pandas.open c)%Q
               /\ (Pandas.open c <= (1105 # 1000))%Q)
       (MarketData.simulate_candles draws)
  /\ (exists d,
        MarketData.unit_draws d
        /\ (Pandas.high (MarketData.simulate_candle 1 0 d)
            < Pandas.close (MarketData.simulate_candle 1 0 d))%Q).
Proof.
  intros Hd. split; [|split].
  - unfold MarketData.get_market_data, MarketData.simulate_candles.
    destruct draws as [|d ds]; [reflexivity|].
    assert (Hlen : length (imap (MarketData.simulate_candle (length (d :: ds)))
                             (d :: ds)) = length (d :: ds))
      by apply length_imap.
    destruct (imap _ (d :: ds)) as [|c cs] eqn:E; [discriminate|].
    simpl Pandas.DataFrame_of. simpl Pandas.nrows. exact Hlen.
  - apply Forall_lookup. intros i c Hc.
    unfold MarketData.simulate_candles in Hc.
    rewrite list_lookup_imap in Hc.
    destruct (draws !! i) as [d|] eqn:Ed; [|discriminate].
    simpl in Hc. injection Hc as <-.
    apply simulate_candle_shape.
    exact (proj1 (Forall_lookup _ _) Hd i d Ed).
  - exists {| MarketData.now := 0; MarketData.u_open := 0;
              MarketData.u_high := 0; MarketData.u_low := 0;
              MarketData.u_close := 9 # 10; MarketData.u_volume := 0 |}.
    split; [|reflexivity].
    repeat split; discriminate || reflexivity.
Qed.

Lemma simulated_candles_shape_witness :
  Pandas.nrows
    (MarketData.get_market_data
       [{| MarketData.now := 0; MarketData.u_open := 1 # 2;
           MarketData.u_high := 1 # 2; MarketData.u_low := 1 # 2;
           MarketData.u_close := 1 # 2; MarketData.u_volume := 1 # 2 |}])
  = 1%nat.
Proof.
  apply (simulated_candles_shape
           [{| MarketData.now := 0; MarketData.u_open := 1 # 2;
               MarketData.u_high := 1 # 2; MarketData.u_low := 1 # 2;
               MarketData.u_close := 1 # 2; MarketData.u_volume := 1 # 2 |}]).
  repeat constructor; discriminate || reflexivity.
Defined.

(** ** The command line *)

(** X23. The command line overrides: [--no-martingale] wins over
    [--martingale] (each flag alone sets the switch, none keeps it), and no
    combination of arguments changes the expiry, the martingale coefficient,
    the maximal level, the daily limits or the strategy parameters. *)
Theorem overrides_martingale_and_frame (a : Main.args) (cfg : Config.t) :
  let cfg' := Main.apply_overrides a cfg in
  Config.martingale_enabled (Config.cfg_risk_management cfg')
    = (if Main.no_martingale a then false
       else if Main.martingale a then true
       else Config.martingale_enabled (Config.cfg_risk_management cfg))
  /\ Config.martingale_coefficient (Config.cfg_risk_management cfg')
     = Config.martingale_coefficient (Config.cfg_risk_management cfg)
  /\ Config.max_martingale_level (Config.cfg_risk_management cfg')
     = Config.max_martingale_level (Config.cfg_risk_management cfg)
  /\ Config.max_daily_loss (Config.cfg_risk_management cfg')
     = Config.max_daily_loss (Config.cfg_risk_management cfg)
  /\ Config.max_daily_trades (Config.cfg_risk_management cfg')
     = Config.max_daily_trades (Config.cfg_risk_management cfg)
  /\ Config.expiry_minutes (Config.cfg_trading cfg')
     = Config.expiry_minutes (Config.cfg_trading cfg)
  /\ Config.parameters (Config.cfg_strategy cfg')
     = Config.parameters (Config.cfg_strategy cfg).
Proof.
  unfold Main.apply_overrides.
  destruct (Main.truthy_str (Main.asset a)),
           (Main.truthy_float (Main.amount a)),
           (Main.truthy_int (Main.duration a)),
           (Main.truthy_int (Main.interval a)),
           (Main.truthy_str (Main.strategy a)),
           (Main.martingale a), (Main.no_martingale a);
    simpl; repeat split.
Qed.

(** X24. Arguments that are absent or false in Python's sense (an amount,
    a duration or an interval of 0, an empty asset or strategy name) are
    ignored: without a martingale flag the configuration comes back as it
    was. *)
Theorem falsy_overrides_are_ignored (a : Main.args) (cfg : Config.t) :
  (Main.asset a = None \/ Main.asset a = Some "") ->
  (Main.amount a = None
   \/ exists x, Main.amount a = Some x /\ PrimFloat.eqb x 0%float = true) ->
  (Main.duration a = None \/ Main.duration a = Some 0) ->
  (Main.interval a = None \/ Main.interval a = Some 0) ->
  (Main.strategy a = None \/ Main.strategy a = Some "") ->
  Main.martingale a = false ->
  Main.no_martingale a = false ->
  Main.apply_overrides a cfg = cfg.
Proof.
  intros Has Ham Hdu Hin Hst Hm Hn.
  unfold Main.apply_overrides. rewrite Hm, Hn.
  assert (E1 : Main.truthy_str (Main.asset a) = None)
    by (destruct Has as [-> | ->]; reflexivity).
  assert (E2 : Main.truthy_float (Main.amount a) = None).
  { destruct Ham as [-> | [x [-> Hx]]]; [reflexivity|]. simpl. now rewrite Hx. }
  assert (E3 : Main.truthy_int (Main.duration a) = None)
    by (destruct Hdu as [-> | ->]; reflexivity).
  assert (E4 : Main.truthy_int (Main.interval a) = None)
    by (destruct Hin as [-> | ->]; reflexivity).
  assert (E5 : Main.truthy_str (Main.strategy a) = None)
    by (destruct Hst as [-> | ->]; reflexivity).
  rewrite E1, E2, E3, E4, E5. reflexivity.
Qed.

Lemma falsy_overrides_are_ignored_witness :
  Main.apply_overrides
    {| Main.configure := false; Main.duration := Some 0;
       Main.interval := None; Main.asset := Some "";
       Main.amount := Some (-0)%float; Main.strategy := None;
       Main.martingale := false; Main.no_martingale := false |}
    Config.get_default_config
  = Config.get_default_config.
Proof.
  apply falsy_overrides_are_ignored;
    try (left; reflexivity); try (right; reflexivity); try reflexivity.
  right. exists (-0)%float. split; reflexivity.
Defined.

(** X25. Once the accumulated daily loss has reached [max_daily_loss]
    ([daily_loss >= max_daily_loss] on floats), the loop places no trade and
    leaves the bot as it is, whatever the strategy answers. *)
Theorem run_cycles_stops_at_loss_limit (inputs : list Session.cycle_input)
    (b : PocketOptionBot.bot) :
  PrimFloat.leb (PocketOptionBot.max_daily_loss b)
    (PocketOptionBot.daily_loss b) = true ->
  Session.run_cycles inputs b = (repeat None (length inputs), b).
Proof.
  intros Hloss. induction inputs as [|i rest IH]; [reflexivity|].
  simpl. unfold PocketOptionBot.trading_cycle. rewrite Hloss.
  destruct (PocketOptionBot.max_daily_trades b
            <=? PocketOptionBot.daily_trades b); rewrite IH; reflexivity.
Qed.

Lemma run_cycles_stops_at_loss_limit_witness :
  Session.run_cycles
    [{| Session.ci_direction := Some call; Session.ci_ui_ok := true;
        Session.ci_result := PocketOptionBot.win |}]
    (PocketOptionBot.with_session (new_bot false 2.1%float 5) [] 20%float 3)
  = ([None],
     PocketOptionBot.with_session (new_bot false 2.1%float 5) [] 20%float 3).
Proof.
  apply (run_cycles_stops_at_loss_limit
           [{| Session.ci_direction := Some call; Session.ci_ui_ok := true;
               Session.ci_result := PocketOptionBot.win |}]).
  reflexivity.
Defined.

(** ** What [analyze] writes into the caller's frame *)

(** C4 (amended). For every strategy and every frame, a call to [analyze]
    leaves the number of rows and every column other than [sma_short],
    [sma_long] and [rsi] unchanged, and the random strategy leaves the whole
    frame unchanged.  On a frame with at least [long_period] rows and a
    column [close], with two windows that pandas accepts, trend following
    assigns the rolling means of [close] to the columns [sma_short] and
    [sma_long] of the caller's frame; on a frame with at least
    [rsi_period + 1] rows and a column [close], with a window that pandas
    accepts, the RSI strategy assigns the column computed by [calculate_rsi]
    to the column [rsi] of the caller's frame. *)
Theorem analyze_frame (st : Strategies.strategy) (u : Q) (data : Pandas.DataFrame) :
  same_but_indicators data (snd (Strategies.analyze st u data))
  /\ (forall s, st = Strategies.Rand s ->
        snd (Strategies.analyze st u data) = data)
  /\ (forall s closes ss ls,
        st = Strategies.TrendFollowing s ->
        ~ (Pandas.len data < Strategies.long_period s)%Q ->
        Pandas.columns data !! "close" = Some closes ->
        Pandas.rolling_mean (Strategies.short_period s) closes = Ok ss ->
        Pandas.rolling_mean (Strategies.long_period s) closes = Ok ls ->
        snd (Strategies.analyze st u data)
        = {| Pandas.nrows := Pandas.nrows data;
             Pandas.columns :=
               <["sma_long" := ls]>
                 (<["sma_short" := ss]> (Pandas.columns data)) |})
  /\ (forall s closes avg_gain avg_loss,
        st = Strategies.Rsi s ->
        ~ (Pandas.len data < Strategies.rsi_period s + 1)%Q ->
        Pandas.columns data !! "close" = Some closes ->
        Pandas.rolling_mean (Strategies.rsi_period s) (gain_series closes)
          = Ok avg_gain ->
        Pandas.rolling_mean (Strategies.rsi_period s) (loss_series closes)
          = Ok avg_loss ->
        fst (Strategies.RSI.calculate_rsi s data)
          = Ok (zip_with Strategies.RSI.rsi_of avg_gain avg_loss)
        /\ snd (Strategies.analyze st u data)
           = {| Pandas.nrows := Pandas.nrows data;
                Pandas.columns :=
                  <["rsi" := zip_with Strategies.RSI.rsi_of avg_gain avg_loss]>
                    (Pandas.columns data) |}).
Proof.
  split; [|split; [|split]].
  - destruct st as [s|s|s]; simpl.
    + apply trend_following_preserves.
    + apply rsi_preserves.
    + rewrite random_leaves_frame. apply same_but_indicators_refl.
  - intros s ->. apply random_leaves_frame.
  - intros s closes ss ls -> Hlen Hclose Hss Hls. simpl.
    assert (Hguard : Qltb (Pandas.len data) (Strategies.long_period s) = false).
    { apply not_true_is_false. intros H. apply Qltb_lt in H. contradiction. }
    rewrite trend_analyze_branches, Hguard, Hclose, Hss, Hls.
    apply trend_tail_frame.
  - intros s closes ag al -> Hlen Hclose Hag Hal. simpl.
    assert (Hguard : Qltb (Pandas.len data) (Strategies.rsi_period s + 1)
                     = false).
    { apply not_true_is_false. intros H. apply Qltb_lt in H. contradiction. }
    split.
    + unfold Strategies.RSI.calculate_rsi, Pandas.bind.
      unfold Pandas.get_column at 1. rewrite Hclose.
      fold (gain_series closes). fold (loss_series closes).
      unfold Pandas.lift. now rewrite Hag, Hal.
    + rewrite rsi_analyze_branches, Hguard, Hclose, Hag, Hal.
      apply rsi_tail_frame.
Qed.

Lemma analyze_frame_witness :
  snd (Strategies.analyze
         (Strategies.TrendFollowing
            {| Strategies.tf_parameters := ∅;
               Strategies.short_period := 1;
               Strategies.long_period := 2 |})
         0%Q (Pandas.DataFrame_of (map bar [3; 3]%Q)))
  = {| Pandas.nrows := 2;
       Pandas.columns :=
         <["sma_long" := [NaN; Fin (6 # 2)]]>
           (<["sma_short" := [Fin 3; Fin 3]]>
              (Pandas.columns (Pandas.DataFrame_of (map bar [3; 3]%Q)))) |}.
Proof.
  destruct (analyze_frame
              (Strategies.TrendFollowing
                 {| Strategies.tf_parameters := ∅;
                    Strategies.short_period := 1;
                    Strategies.long_period := 2 |})
              0%Q (Pandas.DataFrame_of (map bar [3; 3]%Q)))
    as [_ [_ [H _]]].
  apply (H {| Strategies.tf_parameters := ∅;
              Strategies.short_period := 1;
              Strategies.long_period := 2 |}
           [Fin 3; Fin 3] [Fin 3; Fin 3] [NaN; Fin (6 # 2)]);
    try reflexivity.
  intros Hlt. vm_compute in Hlt. discriminate.
Defined.
